(** * NS32082 memory management unit: slave protocol, register file, page walk

    A shallow embedding of [src/devices/machine/ns32082.cpp].  Machine
    integers are [Z] with their wrap-around written out, the device object
    is a record passed explicitly, [logerror] output is returned as a list
    of diagnostics, and the external address space is an interface whose
    accesses are recorded in the order the walker makes them. *)

From Stdlib Require Import ZArith Lia List Bool.
Import ListNotations.
Local Open Scope Z_scope.

(** ** Fixed-width unsigned integers *)

Definition wrap (w x : Z) : Z := x mod 2 ^ w.
Definition u8 : Z -> Z := wrap 8.
Definition u16 : Z -> Z := wrap 16.
Definition u32 : Z -> Z := wrap 32.
Definition u64 : Z -> Z := wrap 64.

(** The value of a 32-bit [int] after an operation that wraps around. *)
Definition s32 (x : Z) : Z := (x + 2 ^ 31) mod 2 ^ 32 - 2 ^ 31.

(** C truth value of an integer expression. *)
Definition nz (x : Z) : bool := negb (x =? 0).

(** [~m] at 32 bits, as in [x &= ~m] on a [u32]. *)
Definition not32 (m : Z) : Z := u32 (Z.lnot m).

(** Modelled from the spec: [swapendian_int16] comes from the emulator's
    utility headers, which are not among the sources; the operation word is
    "byte-swapped", the two bytes of a 16-bit word exchanged. *)
Definition swapendian_int16 (x : Z) : Z :=
  Z.lor (Z.shiftl (Z.land x 255) 8) (Z.land (Z.shiftr x 8) 255).

(** Modelled from the spec: the [BIT(x, n, w)] macro comes from the
    emulator's core headers, which are not among the sources; it is the
    [w]-bit field of [x] that starts at bit [n] (the sub-operation is "the
    next 4 bits" after the two size bits; [slow_write] spells the same field
    as [(m_opword >> 2) & 15]). *)
Definition BIT (x n w : Z) : Z := Z.land (Z.shiftr x n) (Z.ones w).

(** ** Enumerations of the source *)

Inductive state : Set :=
| IDLE        (* 0 *)
| OPERATION   (* 1: awaiting operation word *)
| OPERAND     (* 2: awaiting operands *)
| RDVAL       (* 3: rdval pending *)
| WRVAL       (* 4: wrval pending *)
| STATUS      (* 5: status word available *)
| RESULT.     (* 6: result word available *)

Definition state_eqb (a b : state) : bool :=
  match a, b with
  | IDLE, IDLE | OPERATION, OPERATION | OPERAND, OPERAND | RDVAL, RDVAL
  | WRVAL, WRVAL | STATUS, STATUS | RESULT, RESULT => true
  | _, _ => false
  end.

Module reg_mask.
Definition BPR0 := 0x0.
Definition BPR1 := 0x1.
Definition PF0 := 0x4.
Definition PF1 := 0x5.
Definition SC := 0x8.
Definition MSR := 0xa.
Definition BCNT := 0xb.
Definition PTB0 := 0xc.
Definition PTB1 := 0xd.
Definition EIA := 0xf.
End reg_mask.

Definition MSR_TE := 0x00000001.
Definition MSR_R := 0x00000002.
Definition MSR_B := 0x00000004.
Definition MSR_TET := 0x00000038.
Definition MSR_BN := 0x00000040.
Definition MSR_ED := 0x00000100.
Definition MSR_BD := 0x00000200.
Definition MSR_EST := 0x00001c00.
Definition MSR_BST := 0x0000e000.
Definition MSR_TU := 0x00010000.
Definition MSR_TS := 0x00020000.
Definition MSR_DS := 0x00040000.
Definition MSR_AO := 0x00080000.
Definition MSR_BEN := 0x00100000.
Definition MSR_UB := 0x00200000.
Definition MSR_AI := 0x00400000.
Definition MSR_FT := 0x00800000.
Definition MSR_UT := 0x01000000.
Definition MSR_NT := 0x02000000.
Definition MSR_ERC := 0x00000007.
Definition MSR_WM := 0x03ff0000.

Definition TET_PL := 0x00000008.
Definition TET_IL1 := 0x00000010.
Definition TET_IL2 := 0x00000020.

Definition PTB_AB := 0x00fffc00.
Definition PTB_MS := 0x80000000.

Definition VA_INDEX1 := 0x00ff0000.
Definition VA_INDEX2 := 0x0000fe00.
Definition VA_OFFSET := 0x000001ff.

Definition PTE_V := 0x00000001.
Definition PTE_PL := 0x00000006.
Definition PTE_R := 0x00000008.
Definition PTE_M := 0x00000010.
Definition PTE_NSC := 0x00000060.
Definition PTE_USR := 0x00000180.
Definition PTE_PFN := 0x00fffe00.
Definition PTE_MS := 0x80000000.

Definition PL_SRO := 0x00000000.
Definition PL_SRW := 0x00000002.
Definition PL_URO := 0x00000004.
Definition PL_URW := 0x00000006.

Definition EIA_VA := 0x00ffffff.
Definition EIA_AS := 0x80000000.

(** The identification byte of format 14.  The enumerator is declared by
    the slave interface; its value is the low byte [0001 1110] of the
    encoding the source quotes at both places that decode the format. *)
Definition FORMAT_14 := 0x1e.

(** ** Interfaces the device is compiled against *)

(** Status-word bits of the slave interface: quit and flag/fault. *)
Class slave_status_mask := {
  SLAVE_Q : Z;
  SLAVE_F : Z
}.

(** Bus status codes of the CPU the walker inspects: non-sequential
    instruction fetch and read of a read-modify-write operand. *)
Class st_mask := {
  ST_NIF : Z;
  ST_RMW : Z
}.

(** The externally owned address space, as far as [translate] uses it. *)
Class address_space (space : Type) := {
  read_dword : space -> Z -> Z;
  write_word : space -> Z -> Z -> space
}.

(** ** Device state *)

Record operand := mk_operand {
  expected : Z;   (* unsigned *)
  issued : Z;     (* unsigned *)
  value : Z       (* u64 *)
}.

Record ns32082_device := mk_device {
  m_bpr0 : Z; m_bpr1 : Z;
  m_pf0 : Z; m_pf1 : Z;
  m_sc : Z;
  m_msr : Z;
  m_bcnt : Z;
  m_ptb0 : Z; m_ptb1 : Z;
  m_eia : Z;
  m_idbyte : Z;
  m_opword : Z;
  m_op0 : operand; m_op1 : operand; m_op2 : operand;
  m_status : Z;
  m_state : state;
  m_tcy : Z
}.

(** [m_ptb[address_space]], the index being a [bool]. *)
Definition m_ptb (d : ns32082_device) (i : bool) : Z :=
  if i then m_ptb1 d else m_ptb0 d.

Definition set_m_bpr0 (v : Z) (d : ns32082_device) :=
  mk_device v (m_bpr1 d) (m_pf0 d) (m_pf1 d) (m_sc d) (m_msr d) (m_bcnt d)
    (m_ptb0 d) (m_ptb1 d) (m_eia d) (m_idbyte d) (m_opword d)
    (m_op0 d) (m_op1 d) (m_op2 d) (m_status d) (m_state d) (m_tcy d).
Definition set_m_bpr1 (v : Z) (d : ns32082_device) :=
  mk_device (m_bpr0 d) v (m_pf0 d) (m_pf1 d) (m_sc d) (m_msr d) (m_bcnt d)
    (m_ptb0 d) (m_ptb1 d) (m_eia d) (m_idbyte d) (m_opword d)
    (m_op0 d) (m_op1 d) (m_op2 d) (m_status d) (m_state d) (m_tcy d).
Definition set_m_pf0 (v : Z) (d : ns32082_device) :=
  mk_device (m_bpr0 d) (m_bpr1 d) v (m_pf1 d) (m_sc d) (m_msr d) (m_bcnt d)
    (m_ptb0 d) (m_ptb1 d) (m_eia d) (m_idbyte d) (m_opword d)
    (m_op0 d) (m_op1 d) (m_op2 d) (m_status d) (m_state d) (m_tcy d).
Definition set_m_pf1 (v : Z) (d : ns32082_device) :=
  mk_device (m_bpr0 d) (m_bpr1 d) (m_pf0 d) v (m_sc d) (m_msr d) (m_bcnt d)
    (m_ptb0 d) (m_ptb1 d) (m_eia d) (m_idbyte d) (m_opword d)
    (m_op0 d) (m_op1 d) (m_op2 d) (m_status d) (m_state d) (m_tcy d).
Definition set_m_sc (v : Z) (d : ns32082_device) :=
  mk_device (m_bpr0 d) (m_bpr1 d) (m_pf0 d) (m_pf1 d) v (m_msr d) (m_bcnt d)
    (m_ptb0 d) (m_ptb1 d) (m_eia d) (m_idbyte d) (m_opword d)
    (m_op0 d) (m_op1 d) (m_op2 d) (m_status d) (m_state d) (m_tcy d).
Definition set_m_msr (v : Z) (d : ns32082_device) :=
  mk_device (m_bpr0 d) (m_bpr1 d) (m_pf0 d) (m_pf1 d) (m_sc d) v (m_bcnt d)
    (m_ptb0 d) (m_ptb1 d) (m_eia d) (m_idbyte d) (m_opword d)
    (m_op0 d) (m_op1 d) (m_op2 d) (m_status d) (m_state d) (m_tcy d).
Definition set_m_bcnt (v : Z) (d : ns32082_device) :=
  mk_device (m_bpr0 d) (m_bpr1 d) (m_pf0 d) (m_pf1 d) (m_sc d) (m_msr d) v
    (m_ptb0 d) (m_ptb1 d) (m_eia d) (m_idbyte d) (m_opword d)
    (m_op0 d) (m_op1 d) (m_op2 d) (m_status d) (m_state d) (m_tcy d).
Definition set_m_ptb0 (v : Z) (d : ns32082_device) :=
  mk_device (m_bpr0 d) (m_bpr1 d) (m_pf0 d) (m_pf1 d) (m_sc d) (m_msr d) (m_bcnt d)
    v (m_ptb1 d) (m_eia d) (m_idbyte d) (m_opword d)
    (m_op0 d) (m_op1 d) (m_op2 d) (m_status d) (m_state d) (m_tcy d).
Definition set_m_ptb1 (v : Z) (d : ns32082_device) :=
  mk_device (m_bpr0 d) (m_bpr1 d) (m_pf0 d) (m_pf1 d) (m_sc d) (m_msr d) (m_bcnt d)
    (m_ptb0 d) v (m_eia d) (m_idbyte d) (m_opword d)
    (m_op0 d) (m_op1 d) (m_op2 d) (m_status d) (m_state d) (m_tcy d).
Definition set_m_eia (v : Z) (d : ns32082_device) :=
  mk_device (m_bpr0 d) (m_bpr1 d) (m_pf0 d) (m_pf1 d) (m_sc d) (m_msr d) (m_bcnt d)
    (m_ptb0 d) (m_ptb1 d) v (m_idbyte d) (m_opword d)
    (m_op0 d) (m_op1 d) (m_op2 d) (m_status d) (m_state d) (m_tcy d).
Definition set_m_idbyte (v : Z) (d : ns32082_device) :=
  mk_device (m_bpr0 d) (m_bpr1 d) (m_pf0 d) (m_pf1 d) (m_sc d) (m_msr d) (m_bcnt d)
    (m_ptb0 d) (m_ptb1 d) (m_eia d) v (m_opword d)
    (m_op0 d) (m_op1 d) (m_op2 d) (m_status d) (m_state d) (m_tcy d).
Definition set_m_opword (v : Z) (d : ns32082_device) :=
  mk_device (m_bpr0 d) (m_bpr1 d) (m_pf0 d) (m_pf1 d) (m_sc d) (m_msr d) (m_bcnt d)
    (m_ptb0 d) (m_ptb1 d) (m_eia d) (m_idbyte d) v
    (m_op0 d) (m_op1 d) (m_op2 d) (m_status d) (m_state d) (m_tcy d).
Definition set_m_op0 (v : operand) (d : ns32082_device) :=
  mk_device (m_bpr0 d) (m_bpr1 d) (m_pf0 d) (m_pf1 d) (m_sc d) (m_msr d) (m_bcnt d)
    (m_ptb0 d) (m_ptb1 d) (m_eia d) (m_idbyte d) (m_opword d)
    v (m_op1 d) (m_op2 d) (m_status d) (m_state d) (m_tcy d).
Definition set_m_op1 (v : operand) (d : ns32082_device) :=
  mk_device (m_bpr0 d) (m_bpr1 d) (m_pf0 d) (m_pf1 d) (m_sc d) (m_msr d) (m_bcnt d)
    (m_ptb0 d) (m_ptb1 d) (m_eia d) (m_idbyte d) (m_opword d)
    (m_op0 d) v (m_op2 d) (m_status d) (m_state d) (m_tcy d).
Definition set_m_op2 (v : operand) (d : ns32082_device) :=
  mk_device (m_bpr0 d) (m_bpr1 d) (m_pf0 d) (m_pf1 d) (m_sc d) (m_msr d) (m_bcnt d)
    (m_ptb0 d) (m_ptb1 d) (m_eia d) (m_idbyte d) (m_opword d)
    (m_op0 d) (m_op1 d) v (m_status d) (m_state d) (m_tcy d).
Definition set_m_status (v : Z) (d : ns32082_device) :=
  mk_device (m_bpr0 d) (m_bpr1 d) (m_pf0 d) (m_pf1 d) (m_sc d) (m_msr d) (m_bcnt d)
    (m_ptb0 d) (m_ptb1 d) (m_eia d) (m_idbyte d) (m_opword d)
    (m_op0 d) (m_op1 d) (m_op2 d) v (m_state d) (m_tcy d).
Definition set_m_state (v : state) (d : ns32082_device) :=
  mk_device (m_bpr0 d) (m_bpr1 d) (m_pf0 d) (m_pf1 d) (m_sc d) (m_msr d) (m_bcnt d)
    (m_ptb0 d) (m_ptb1 d) (m_eia d) (m_idbyte d) (m_opword d)
    (m_op0 d) (m_op1 d) (m_op2 d) (m_status d) v (m_tcy d).
Definition set_m_tcy (v : Z) (d : ns32082_device) :=
  mk_device (m_bpr0 d) (m_bpr1 d) (m_pf0 d) (m_pf1 d) (m_sc d) (m_msr d) (m_bcnt d)
    (m_ptb0 d) (m_ptb1 d) (m_eia d) (m_idbyte d) (m_opword d)
    (m_op0 d) (m_op1 d) (m_op2 d) (m_status d) (m_state d) v.

Definition set_expected (v : Z) (o : operand) := mk_operand v (issued o) (value o).
Definition set_issued (v : Z) (o : operand) := mk_operand (expected o) v (value o).
Definition set_value (v : Z) (o : operand) := mk_operand (expected o) (issued o) v.

(** The ten architectural registers, in the order of the class. *)
Definition registers (d : ns32082_device) : list Z :=
  [m_bpr0 d; m_bpr1 d; m_pf0 d; m_pf1 d; m_sc d; m_msr d; m_bcnt d;
   m_ptb0 d; m_ptb1 d; m_eia d].

(** ** Diagnostics ([logerror]) and results of a call *)

Inductive diag : Set :=
| status_protocol_error
| read_protocol_error
| write_protocol_error (data : Z)
| lmr_unknown_register (quick : Z)
| smr_unknown_register (quick : Z).

(** What a member function leaves behind: its return value, the device
    and the diagnostics it logged. *)
Record ran (A : Type) := Ran {
  ret : A;
  dev : ns32082_device;
  diags : list diag
}.
Arguments Ran {A} _ _ _.
Arguments ret {A} _.
Arguments dev {A} _.
Arguments diags {A} _.

(** ** Reset *)

Definition device_reset (d : ns32082_device) : ns32082_device :=
  set_m_state IDLE (set_m_msr 0 d).

(** ** Reading the status word and the result *)

(** [icount] is the optional cycle budget of the caller, an [int]:
    [*icount -= m_tcy] is taken at 32 bits, two's complement. *)
Definition slow_status (icount : option Z) (d : ns32082_device) : ran (Z * option Z) :=
  match m_state d with
  | STATUS =>
      let d' :=
        set_m_state
          (if issued (m_op2 d) =? expected (m_op2 d) then IDLE else RESULT) d in
      Ran (m_status d, option_map (fun c => s32 (c - m_tcy d)) icount) d' []
  | _ => Ran (0, icount) d [status_protocol_error]
  end.

Definition slow_read (d : ns32082_device) : ran Z :=
  if state_eqb (m_state d) RESULT && (issued (m_op2 d) <? expected (m_op2 d)) then
    let data := u16 (Z.shiftr (value (m_op2 d)) (issued (m_op2 d) * 8)) in
    let d := set_m_op2 (set_issued (u32 (issued (m_op2 d) + 2)) (m_op2 d)) d in
    let d := if issued (m_op2 d) =? expected (m_op2 d) then set_m_state IDLE d else d in
    Ran data d []
  else Ran 0 d [read_protocol_error].

(** ** Register file and operation dispatch *)

Definition MSR_status_fields : Z :=
  Z.lor MSR_TE (Z.lor MSR_B (Z.lor MSR_TET (Z.lor MSR_ED
    (Z.lor MSR_BD (Z.lor MSR_EST MSR_BST))))).

(** The value [set_msr] leaves in [m_msr], from the operand and the old
    contents: the status fields go when the operand has the reset bit, then
    the writable bits are taken from the operand. *)
Definition msr_loaded (data msr : Z) : Z :=
  let msr :=
    if nz (Z.land data MSR_R)
    then Z.land msr (not32 MSR_status_fields)
    else msr in
  Z.lor (Z.land msr (not32 MSR_WM)) (Z.land data MSR_WM).

Definition set_msr (data : Z) (d : ns32082_device) : ns32082_device :=
  set_m_msr (msr_loaded data (m_msr d)) d.

(** Modelled from the spec: [set_eia] is defined with the class declaration,
    which is not among the sources.  The spec has the error/invalidate
    address register "loaded directly by software" and nothing else touched
    by a register load, so the helper writes [m_eia] alone; the value it
    leaves there, from the operand and the old contents, is the interface's
    [eia_loaded]. *)
Class eia_interface := {
  eia_loaded : Z -> Z -> Z
}.

Definition set_eia {EIF : eia_interface} (data : Z) (d : ns32082_device) : ns32082_device :=
  set_m_eia (u32 (eia_loaded data (m_eia d))) d.

(** Modelled from the spec: the body of [set_eia], missing with the class
    declaration.  The spec has the error/invalidate address register
    "loaded directly by software": the helper leaves the operand in the
    register, all 32 bits of it. *)
Definition loaded_directly (EIF : eia_interface) : Prop :=
  forall data old : Z, eia_loaded data old = data.

Section Device.
Context {SSM : slave_status_mask} {STM : st_mask} {EIF : eia_interface}.

Import reg_mask.

(** The [lmr] arm of [execute]: load the register [quick] selects. *)
Definition lmr (quick : Z) (d : ns32082_device) : ns32082_device * list diag :=
  let v := value (m_op0 d) in
  if quick =? BPR0 then (set_m_bpr0 (u32 (Z.land v 0xfcffffff)) d, [])
  else if quick =? BPR1 then (set_m_bpr1 (u32 (Z.land v 0xf8ffffff)) d, [])
  else if quick =? PF0 then (set_m_pf0 (u32 (Z.land v 0x00ffffff)) d, [])
  else if quick =? PF1 then (set_m_pf1 (u32 (Z.land v 0x00ffffff)) d, [])
  else if quick =? SC then (set_m_sc (u32 v) d, [])
  else if quick =? MSR then (set_msr (u32 v) d, [])
  else if quick =? BCNT then (set_m_bcnt (u32 (Z.land v 0x00ffffff)) d, [])
  else if quick =? PTB0 then (set_m_ptb0 (u32 (Z.land v 0xfffffc00)) d, [])
  else if quick =? PTB1 then (set_m_ptb1 (u32 (Z.land v 0xfffffc00)) d, [])
  else if quick =? EIA then (set_eia (u32 v) d, [])
  else (d, [lmr_unknown_register quick]).

(** The [smr] arm of [execute]: stage the register [quick] selects. *)
Definition smr (quick : Z) (d : ns32082_device) : ns32082_device * list diag :=
  let stage r := (set_m_op2 (set_value r (m_op2 d)) d, []) in
  if quick =? BPR0 then stage (m_bpr0 d)
  else if quick =? BPR1 then stage (m_bpr1 d)
  else if quick =? PF0 then stage (m_pf0 d)
  else if quick =? PF1 then stage (m_pf1 d)
  else if quick =? SC then stage (m_sc d)
  else if quick =? MSR then stage (m_msr d)
  else if quick =? BCNT then stage (m_bcnt d)
  else if quick =? PTB0 then stage (m_ptb0 d)
  else if quick =? PTB1 then stage (m_ptb1 d)
  else if quick =? EIA then stage (m_eia d)
  else (d, [smr_unknown_register quick]).

Definition execute (d : ns32082_device) : ran unit :=
  let d := set_m_status 0 d in
  let r :=
    if m_idbyte d =? FORMAT_14 then
      (* format 14: xxxx xsss s0oo ooii 0001 1110 *)
      let quick := BIT (m_opword d) 7 4 in
      match BIT (m_opword d) 2 4 with
      | 0 => (set_m_state RDVAL (set_m_tcy 21 d), [])
      | 1 => (set_m_state WRVAL (set_m_tcy 21 d), [])
      | 2 => let r := lmr quick d in (set_m_tcy 30 (fst r), snd r)
      | 3 => let r := smr quick d in (set_m_tcy 25 (fst r), snd r)
      | _ => (d, [])
      end
    else (d, []) in
  let d := fst r in
  (* exceptions suppress result issue *)
  let d :=
    if nz (Z.land (m_status d) SLAVE_Q)
    then set_m_op2 (set_expected 0 (m_op2 d)) d else d in
  let d := if state_eqb (m_state d) OPERAND then set_m_state STATUS d else d in
  Ran tt d (snd r).

(** ** Bus writes *)

Definition cleared : operand := mk_operand 0 0 0.

(** The [OPERATION] arm of [slow_write]: latch the operation word and
    decode the operand sizes. *)
Definition write_opword (data : Z) (d : ns32082_device) : ns32082_device :=
  let d := set_m_opword (swapendian_int16 data) d in
  let d := set_m_tcy 0 d in
  (* initialize operands *)
  let d := set_m_op2 cleared (set_m_op1 cleared (set_m_op0 cleared d)) in
  (* decode operands *)
  if m_idbyte d =? FORMAT_14 then
    let size := Z.land (m_opword d) 3 in
    let d :=
      match Z.land (Z.shiftr (m_opword d) 2) 15 with
      | 0 => set_m_op0 (set_expected (size + 1) (m_op0 d)) d
      | 1 => set_m_op0 (set_expected (size + 1) (m_op0 d)) d
      | 2 => set_m_op0 (set_expected (size + 1) (m_op0 d)) d
      | 3 => set_m_op2 (set_expected (size + 1) (m_op2 d)) d
      | _ => d
      end in
    set_m_state OPERAND d
  else d.

(** Insert a word into an operand value. *)
Definition insert_word (data : Z) (op : operand) : operand :=
  let op := set_value (Z.lor (value op) (u64 (Z.shiftl data (issued op * 8)))) op in
  set_issued (u32 (issued op + 2)) op.

(** The [OPERAND] arm of [slow_write]. *)
Definition write_operand (data : Z) (d : ns32082_device) : ns32082_device * list diag :=
  if (issued (m_op0 d) <? expected (m_op0 d))
     || (issued (m_op1 d) <? expected (m_op1 d)) then
    if issued (m_op0 d) <? expected (m_op0 d)
    then (set_m_op0 (insert_word data (m_op0 d)) d, [])
    else (set_m_op1 (insert_word data (m_op1 d)) d, [])
  else (d, [write_protocol_error data]).

(** All input operands are available. *)
Definition operands_available (d : ns32082_device) : bool :=
  (expected (m_op0 d) <=? issued (m_op0 d))
  && (expected (m_op1 d) <=? issued (m_op1 d)).

Definition slow_write (data : Z) (d : ns32082_device) : ran unit :=
  let r :=
    match m_state d with
    | IDLE =>
        if data =? FORMAT_14
        then (set_m_state OPERATION (set_m_idbyte (u8 data) d), [])
        else (d, [])
    | OPERATION => (write_opword data d, [])
    | OPERAND => write_operand data d
    | _ => (d, [])
    end in
  let d := fst r in
  (* start execution when all operands are available *)
  if state_eqb (m_state d) OPERAND && operands_available d
  then let e := execute d in Ran tt (dev e) (snd r ++ diags e)
  else Ran tt d (snd r).

End Device.

(** ** Address translation *)

Inductive translate_result : Set := COMPLETE | CANCEL | ABORT.

(** One access of the external address space. *)
Inductive access : Set :=
| Read_dword (a : Z)
| Write_word (a v : Z).

Definition is_write (x : access) : bool :=
  match x with Write_word _ _ => true | Read_dword _ => false end.

(** What a call of [translate] leaves behind: its result, the address
    (passed by reference), the device, the address space and the accesses
    made to it, in order. *)
Record translation (space : Type) := Translation {
  result : translate_result;
  address_out : Z;
  device_out : ns32082_device;
  space_out : space;
  accesses : list access
}.
Arguments Translation {space} _ _ _ _ _.
Arguments result {space} _.
Arguments address_out {space} _.
Arguments device_out {space} _.
Arguments space_out {space} _.
Arguments accesses {space} _.

Section Translate.
Context {SSM : slave_status_mask} {STM : st_mask}.
Context {space : Type} {AS : address_space space}.

(** Update of the program flow trace state. *)
Definition flow_trace (st address : Z) (pfs : bool) (d : ns32082_device)
  : ns32082_device :=
  if pfs && nz (Z.land (m_msr d) MSR_FT) then
    let d :=
      if st =? ST_NIF then
        let d := set_m_pf1 (m_pf0 d) d in
        let d := set_m_pf0 (u32 address) d in
        set_m_sc (u32 (Z.shiftl (m_sc d) 16)) d
      else d in
    set_m_sc (u32 (m_sc d + 1)) d
  else d.

(** The check that no translation is required for the access. *)
Definition untranslated (d : ns32082_device) (user : bool) : bool :=
  (negb (nz (Z.land (m_msr d) MSR_TU)) && user)
  || (negb (nz (Z.land (m_msr d) MSR_TS)) && negb user).

(** [write |= m_state == WRVAL]. *)
Definition effective_write (d : ns32082_device) (write : bool) : bool :=
  write || state_eqb (m_state d) WRVAL.

Definition address_space_of (d : ns32082_device) (user : bool) : bool :=
  nz (Z.land (m_msr d) MSR_DS) && user.

Definition access_level_of (d : ns32082_device) (st : Z) (user write : bool) : Z :=
  if user && negb (nz (Z.land (m_msr d) MSR_AO))
  then (if write || (st =? ST_RMW) then PL_URW else PL_URO)
  else (if write || (st =? ST_RMW) then PL_SRW else PL_SRO).

Definition ptb_of (d : ns32082_device) (address_space : bool) : Z :=
  Z.lor (Z.shiftr (Z.land (m_ptb d address_space) PTB_MS) 7)
        (Z.land (m_ptb d address_space) PTB_AB).

Definition pte1_address_of (d : ns32082_device) (address : Z) (user : bool) : Z :=
  Z.lor (ptb_of d (address_space_of d user))
        (Z.shiftr (Z.land address VA_INDEX1) 14).

Definition pte2_address_of (pte1 address : Z) : Z :=
  Z.lor (Z.lor (Z.shiftr (Z.land pte1 PTE_MS) 7) (Z.land pte1 PTE_PFN))
        (Z.shiftr (Z.land address VA_INDEX2) 7).

(** [access_level > (pte & PTE_PL) || !(pte & PTE_V)]. *)
Definition denied (access_level pte : Z) : bool :=
  (Z.land pte PTE_PL <? access_level) || negb (nz (Z.land pte PTE_V)).

(** The error status block, written out once for each level in the
    source; [tet_il] is [TET_IL1] or [TET_IL2]. *)
Definition record_fault (tet_il st address : Z) (address_space write : bool)
    (access_level pte : Z) (d : ns32082_device) : ns32082_device :=
  (* reset error status *)
  let d :=
    set_m_msr
      (Z.land (m_msr d)
         (not32 (Z.lor MSR_EST (Z.lor MSR_ED (Z.lor MSR_TET MSR_TE))))) d in
  let d :=
    set_m_msr
      (Z.lor (m_msr d)
         (Z.lor (Z.lor (if write then 0 else MSR_ED)
                       (u32 (Z.shiftl (Z.land st 7) 10))) MSR_TE)) d in
  let d :=
    if Z.land pte PTE_PL <? access_level
    then set_m_msr (Z.lor (m_msr d) TET_PL) d else d in
  let d :=
    if negb (nz (Z.land pte PTE_V))
    then set_m_msr (Z.lor (m_msr d) tet_il) d else d in
  set_m_eia
    (Z.lor (if address_space then EIA_AS else 0) (Z.land address EIA_VA)) d.

Definition validating (d : ns32082_device) : bool :=
  state_eqb (m_state d) RDVAL || state_eqb (m_state d) WRVAL.

Definition raise_fault_flag (d : ns32082_device) : ns32082_device :=
  set_m_status (u16 (Z.lor (m_status d) SLAVE_F)) d.

(** The page walk: [translate] from "treat WRVAL as write" on. *)
Definition walk (d : ns32082_device) (sp : space) (st address : Z)
    (user write suppress : bool) : translation space :=
  (* treat WRVAL as write *)
  let write := effective_write d write in
  let address_space := address_space_of d user in
  let access_level := access_level_of d st user write in
  (* read level 1 page table entry *)
  let pte1_address := pte1_address_of d address user in
  let pte1 := u32 (read_dword sp pte1_address) in
  if denied access_level pte1 then
    let d :=
      if state_eqb (m_state d) IDLE && negb suppress
      then record_fault TET_IL1 st address address_space write access_level pte1 d
      else d in
    if validating d then
      if nz (Z.land pte1 PTE_V) then
        Translation CANCEL address (raise_fault_flag (set_m_state STATUS d)) sp
          [Read_dword pte1_address]
      else
        Translation ABORT address (set_m_state IDLE d) sp [Read_dword pte1_address]
    else Translation ABORT address d sp [Read_dword pte1_address]
  else
    (* set referenced *)
    let mark1 := negb (nz (Z.land pte1 PTE_R)) && negb suppress in
    let word1 := u16 (Z.lor pte1 PTE_R) in
    let sp1 := if mark1 then write_word sp pte1_address word1 else sp in
    let log1 :=
      Read_dword pte1_address
        :: (if mark1 then [Write_word pte1_address word1] else []) in
    (* read level 2 page table entry *)
    let pte2_address := pte2_address_of pte1 address in
    let pte2 := u32 (read_dword sp1 pte2_address) in
    let log2 := log1 ++ [Read_dword pte2_address] in
    if denied access_level pte2 then
      let d :=
        if state_eqb (m_state d) IDLE && negb suppress
        then record_fault TET_IL2 st address address_space write access_level pte2 d
        else d in
      if validating d then
        let d := set_m_state STATUS d in
        let d := if nz (Z.land pte1 PTE_V) then raise_fault_flag d else d in
        Translation CANCEL address d sp1 log2
      else Translation ABORT address d sp1 log2
    else
      (* set modified and referenced *)
      let mark2 :=
        (negb (nz (Z.land pte2 PTE_R))
         || (write && negb (nz (Z.land pte2 PTE_M)))) && negb suppress in
      let word2 :=
        u16 (Z.lor (Z.lor pte2 (if write then PTE_M else 0)) PTE_R) in
      let sp2 := if mark2 then write_word sp1 pte2_address word2 else sp1 in
      let log3 := log2 ++ (if mark2 then [Write_word pte2_address word2] else []) in
      let physical :=
        Z.lor (Z.lor (Z.shiftr (Z.land pte1 PTE_MS) 7) (Z.land pte2 PTE_PFN))
              (Z.land address VA_OFFSET) in
      let d := if validating d then set_m_state STATUS d else d in
      Translation COMPLETE physical d sp2 log3.

Definition translate (d : ns32082_device) (sp : space) (st address : Z)
    (user write pfs suppress : bool) : translation space :=
  (* update program flow trace state *)
  let d := flow_trace st address pfs d in
  (* check translation required *)
  if untranslated d user then Translation COMPLETE address d sp []
  else walk d sp st address user write suppress.

(** The entries the walk reads and the level it requires, named from the
    device and the address space before the call. *)
Definition level_of (d : ns32082_device) (st : Z) (user write : bool) : Z :=
  access_level_of d st user (effective_write d write).

Definition pte1_of (d : ns32082_device) (sp : space) (address : Z) (user : bool) : Z :=
  u32 (read_dword sp (pte1_address_of d address user)).

Definition space_after_pte1 (d : ns32082_device) (sp : space) (address : Z)
    (user suppress : bool) : space :=
  let pte1 := pte1_of d sp address user in
  if negb (nz (Z.land pte1 PTE_R)) && negb suppress
  then write_word sp (pte1_address_of d address user) (u16 (Z.lor pte1 PTE_R))
  else sp.

Definition pte2_of (d : ns32082_device) (sp : space) (address : Z)
    (user suppress : bool) : Z :=
  u32 (read_dword (space_after_pte1 d sp address user suppress)
         (pte2_address_of (pte1_of d sp address user) address)).

End Translate.

(** ** The device driven from outside *)

Section Machine.
Context {SSM : slave_status_mask} {STM : st_mask} {EIF : eia_interface}.
Context {space : Type} {AS : address_space space}.

(** The calls the host makes on the device. *)
Inductive bus_op : Type :=
| Op_reset
| Op_write (data : Z)
| Op_status (icount : option Z)
| Op_read
| Op_translate (sp : space) (st address : Z) (user write pfs suppress : bool).

Definition step (op : bus_op) (d : ns32082_device) : ns32082_device :=
  match op with
  | Op_reset => device_reset d
  | Op_write data => dev (slow_write data d)
  | Op_status icount => dev (slow_status icount d)
  | Op_read => dev (slow_read d)
  | Op_translate sp st address user write pfs suppress =>
      device_out (translate d sp st address user write pfs suppress)
  end.

(** The states of a device that has been reset and then driven by any
    calls. [device_reset] leaves everything but [m_msr] and [m_state] as
    it finds it, so the state before the reset is arbitrary. *)
Inductive reachable : ns32082_device -> Prop :=
| reachable_reset d : reachable (device_reset d)
| reachable_step op d : reachable d -> reachable (step op d).

Definition run (ops : list bus_op) (d : ns32082_device) : ns32082_device :=
  fold_left (fun d op => step op d) ops d.

End Machine.

(** What the protocol state says about the latched operation. *)
Definition protocol_invariant (d : ns32082_device) : Prop :=
  match m_state d with
  | OPERATION => m_idbyte d = FORMAT_14
  | OPERAND =>
      m_idbyte d = FORMAT_14
      /\ operands_available d = false
      /\ issued (m_op2 d) = 0
      /\ (BIT (m_opword d) 2 4 <> 3 -> expected (m_op2 d) = 0)
  | RDVAL | WRVAL =>
      expected (m_op2 d) = 0 /\ issued (m_op2 d) = 0 /\ m_status d = 0
  | _ => True
  end.

(** ** Encoding of operation words (format 14) *)

(** [xxxx xsss s0oo ooii]: size in bits 0-1, sub-operation in bits 2-5,
    register selector in bits 7-10, as [slow_write] and [execute] decode it. *)
Definition opword_of (op quick size : Z) : Z :=
  Z.lor (Z.lor (Z.shiftl quick 7) (Z.shiftl op 2)) size.

(** The word to put on the bus so that [m_opword] becomes [w]. *)
Definition on_bus (w : Z) : Z := swapendian_int16 w.

Definition defined_registers : list Z :=
  [reg_mask.BPR0; reg_mask.BPR1; reg_mask.PF0; reg_mask.PF1; reg_mask.SC;
   reg_mask.MSR; reg_mask.BCNT; reg_mask.PTB0; reg_mask.PTB1; reg_mask.EIA].

Definition is_defined_register (quick : Z) : bool :=
  existsb (Z.eqb quick) defined_registers.

(** The mask [lmr] applies to the operand for each register that it loads
    by plain assignment. *)
Definition load_mask (quick : Z) : Z :=
  if quick =? reg_mask.BPR0 then 0xfcffffff
  else if quick =? reg_mask.BPR1 then 0xf8ffffff
  else if quick =? reg_mask.PF0 then 0x00ffffff
  else if quick =? reg_mask.PF1 then 0x00ffffff
  else if quick =? reg_mask.SC then 0xffffffff
  else if quick =? reg_mask.MSR then MSR_WM
  else if quick =? reg_mask.BCNT then 0x00ffffff
  else if quick =? reg_mask.PTB0 then 0xfffffc00
  else if quick =? reg_mask.PTB1 then 0xfffffc00
  else 0.

(** The registers [lmr] loads by a masked assignment of the operand. *)
Definition plain_registers : list Z :=
  [reg_mask.BPR0; reg_mask.BPR1; reg_mask.PF0; reg_mask.PF1; reg_mask.SC;
   reg_mask.BCNT; reg_mask.PTB0; reg_mask.PTB1].

(** ** Bus sequences of the register operations *)

Section Sequences.
Context {space : Type}.

(** Load-register of a double word: identification byte, operation word,
    the operand low word first, and the status read that ends the
    operation. *)
Definition load_register (quick V : Z) : list (@bus_op space) :=
  [Op_write FORMAT_14;
   Op_write (on_bus (opword_of 2 quick 3));
   Op_write (u16 V);
   Op_write (u16 (Z.shiftr V 16));
   Op_status None].

(** Store-register of [size + 1] bytes, up to the point where the register
    is staged: identification byte and operation word. *)
Definition store_register (quick size : Z) : list (@bus_op space) :=
  [Op_write FORMAT_14;
   Op_write (on_bus (opword_of 3 quick size))].

(** The operand value two bus words build up, low word first. *)
Definition assembled (V : Z) : Z :=
  value (insert_word (u16 (Z.shiftr V 16)) (insert_word (u16 V) cleared)).

(** A validate request, read or write, with its double-word operand. *)
Definition validate_request (wr : bool) (V : Z) : list (@bus_op space) :=
  [Op_write FORMAT_14;
   Op_write (on_bus (opword_of (if wr then 1 else 0) 0 3));
   Op_write (u16 V);
   Op_write (u16 (Z.shiftr V 16))].

End Sequences.

(** ** One concrete build, to run the model *)

Module Sample.

Definition status_bits : slave_status_mask :=
  {| SLAVE_Q := 0x0001; SLAVE_F := 0x0020 |}.

Definition st_codes : st_mask :=
  {| ST_NIF := 0x9; ST_RMW := 0xb |}.

Definition eia_plain : eia_interface :=
  {| eia_loaded := fun data _ => data |}.

(** A little-endian byte memory. *)
Definition ram : Type := Z -> Z.

Definition ram_read_dword (m : ram) (a : Z) : Z :=
  Z.lor (Z.lor (m a) (Z.shiftl (m (a + 1)) 8))
        (Z.lor (Z.shiftl (m (a + 2)) 16) (Z.shiftl (m (a + 3)) 24)).

Definition ram_write_word (m : ram) (a v : Z) : ram :=
  fun x =>
    if x =? a then Z.land v 255
    else if x =? a + 1 then Z.land (Z.shiftr v 8) 255
    else m x.

Definition ram_space : address_space ram :=
  {| read_dword := ram_read_dword; write_word := ram_write_word |}.

Definition empty : ram := fun _ => 0.

(** Store a double word. *)
Definition poke (a v : Z) (m : ram) : ram :=
  ram_write_word (ram_write_word m a v) (a + 2) (Z.shiftr v 16).

(** The device as the constructor and the first reset leave it, the
    members the constructor does not initialise taken as zero. *)
Definition power_on : ns32082_device :=
  mk_device 0 0 0 0 0 0 0 0 0 0 0 0 cleared cleared cleared 0 IDLE 0.

(** A level-1 table at 0 whose first entry is valid, open to every access
    level, and points to a level-2 table at 0x200 whose first entry is
    invalid. *)
Definition half_mapped : ram := poke 0 0x207 empty.

(** A level-1 table at 0 whose first entry is invalid. *)
Definition unmapped : ram := empty.

(** As [half_mapped], with the first level-2 entry valid, open to every
    access level, and mapping the page to frame 0x1200. *)
Definition mapped : ram := poke 0x200 0x1207 half_mapped.

(** The device functions of this build. *)
Definition slow_write := @slow_write status_bits eia_plain.
Definition translate := @translate status_bits st_codes ram ram_space.
Definition run := @run status_bits st_codes eia_plain ram ram_space.

(** A device driven from reset: supervisor translation switched on through
    a load of the status/mode register, then a validate request made. *)
Definition validate_pending (wr : bool) : ns32082_device :=
  run (load_register reg_mask.MSR MSR_TS ++ validate_request wr 0)
      (device_reset power_on).

(** Devices driven from reset: with supervisor translation on, with flow
    tracing on, and awaiting an operation word. *)
Definition translating : ns32082_device :=
  run (load_register reg_mask.MSR MSR_TS) (device_reset power_on).

Definition tracing : ns32082_device :=
  run (load_register reg_mask.MSR MSR_FT) (device_reset power_on).

Definition awaiting_opword : ns32082_device :=
  run [Op_write FORMAT_14] (device_reset power_on).

End Sample.

(** The part of the device the protocol engine works on. *)
Definition protocol_view (d : ns32082_device) :=
  (m_state d, m_idbyte d, m_opword d, m_op0 d, m_op1 d, m_op2 d, m_status d).

(** The sub-operation field as [slow_write] decodes it, and the size. *)
Definition sub_operation (w : Z) : Z := Z.land (Z.shiftr w 2) 15.
Definition size_field (w : Z) : Z := Z.land w 3.

Arguments swapendian_int16 : simpl never.
Arguments BIT : simpl never.
Arguments u8 : simpl never.
Arguments u16 : simpl never.
Arguments u32 : simpl never.
Arguments u64 : simpl never.
Arguments not32 : simpl never.
#[local] Arguments Z.shiftr : simpl never.
#[local] Arguments Z.shiftl : simpl never.

(** The register [quick] selects, as [smr] reads it. *)
Definition register (quick : Z) (d : ns32082_device) : Z :=
  if quick =? reg_mask.BPR0 then m_bpr0 d
  else if quick =? reg_mask.BPR1 then m_bpr1 d
  else if quick =? reg_mask.PF0 then m_pf0 d
  else if quick =? reg_mask.PF1 then m_pf1 d
  else if quick =? reg_mask.SC then m_sc d
  else if quick =? reg_mask.MSR then m_msr d
  else if quick =? reg_mask.BCNT then m_bcnt d
  else if quick =? reg_mask.PTB0 then m_ptb0 d
  else if quick =? reg_mask.PTB1 then m_ptb1 d
  else if quick =? reg_mask.EIA then m_eia d
  else 0.

(** An operand slot as the decoder and the word transfers leave it: at most
    four bytes expected, whole words transferred, the last word possibly
    running one byte over. *)
Definition slot_bounded (o : operand) : Prop :=
  0 <= expected o <= 4
  /\ (issued o = 0 \/ issued o = 2 \/ issued o = 4)
  /\ issued o <= expected o + 1.

Definition slots_bounded (d : ns32082_device) : Prop :=
  slot_bounded (m_op0 d) /\ slot_bounded (m_op1 d) /\ slot_bounded (m_op2 d).

(** The slots are meaningful once an operation word has been latched. *)
Definition operation_latched (d : ns32082_device) : Prop :=
  m_state d <> IDLE /\ m_state d <> OPERATION.

(** The error fields of the status/mode register that [translate] rewrites
    on a fault. *)
Definition MSR_error_fields : Z :=
  Z.lor MSR_EST (Z.lor MSR_ED (Z.lor MSR_TET MSR_TE)).

(** The registers [translate] never assigns. *)
Definition untranslated_registers (d : ns32082_device) : list Z :=
  [m_bpr0 d; m_bpr1 d; m_bcnt d; m_ptb0 d; m_ptb1 d].

(** * Properties *)

(** ** Protocol states *)

Lemma state_eqb_eq (a b : state) : state_eqb a b = true <-> a = b.
Proof. destruct a, b; simpl; split; intro E; try reflexivity; discriminate E. Qed.

Lemma state_eqb_refl (a : state) : state_eqb a a = true.
Proof. now destruct a. Qed.

Lemma state_eqb_neq (a b : state) : a <> b -> state_eqb a b = false.
Proof.
  intro N. destruct (state_eqb a b) eqn:E; [|reflexivity].
  apply state_eqb_eq in E. contradiction.
Qed.

(** ** Reset *)

(** C3 (amended): a hard reset leaves the status/mode register at zero and
    the Protocol Engine in IDLE; the other nine registers keep the values
    they had before the reset. *)
Theorem device_reset_msr_and_state (d : ns32082_device) :
  m_msr (device_reset d) = 0
  /\ m_state (device_reset d) = IDLE
  /\ m_bpr0 (device_reset d) = m_bpr0 d /\ m_bpr1 (device_reset d) = m_bpr1 d
  /\ m_pf0 (device_reset d) = m_pf0 d /\ m_pf1 (device_reset d) = m_pf1 d
  /\ m_sc (device_reset d) = m_sc d
  /\ m_bcnt (device_reset d) = m_bcnt d
  /\ m_ptb0 (device_reset d) = m_ptb0 d /\ m_ptb1 (device_reset d) = m_ptb1 d
  /\ m_eia (device_reset d) = m_eia d.
Proof. repeat split. Qed.

(** C3, as stated, fails: load the sequence counter with 1 on a device
    fresh from power-on, reset it, and the sequence counter still holds 1. *)
Lemma device_reset_keeps_sequence_counter :
  let d := Sample.run (load_register reg_mask.SC 1) Sample.power_on in
  m_state d = IDLE
  /\ registers (device_reset d) = [0; 0; 0; 0; 1; 0; 0; 0; 0; 0]
  /\ exists r, In r (registers (device_reset d)) /\ r <> 0.
Proof.
  vm_compute. split; [reflexivity|]. split; [reflexivity|].
  exists 1. split; [tauto | discriminate].
Qed.

(** ** Bus writes outside the three receiving states *)

Section WriteFrame.
Context {SSM : slave_status_mask} {EIF : eia_interface}.

(** C10: a bus write that arrives in RDVAL, WRVAL, STATUS or RESULT is
    discarded: the device is left exactly as it was and nothing is logged. *)
Theorem slow_write_discarded (d : ns32082_device) (data : Z) :
  m_state d = RDVAL \/ m_state d = WRVAL \/ m_state d = STATUS \/ m_state d = RESULT ->
  slow_write data d = Ran tt d [].
Proof.
  intros [E | [E | [E | E]]]; unfold slow_write; rewrite E; simpl;
    rewrite E; reflexivity.
Qed.

End WriteFrame.

Lemma slow_write_discarded_witness :
  (m_state (Sample.validate_pending true) = RDVAL
   \/ m_state (Sample.validate_pending true) = WRVAL
   \/ m_state (Sample.validate_pending true) = STATUS
   \/ m_state (Sample.validate_pending true) = RESULT)
  /\ Sample.slow_write FORMAT_14 (Sample.validate_pending true)
     = Ran tt (Sample.validate_pending true) [].
Proof.
  assert (S : m_state (Sample.validate_pending true) = RDVAL
              \/ m_state (Sample.validate_pending true) = WRVAL
              \/ m_state (Sample.validate_pending true) = STATUS
              \/ m_state (Sample.validate_pending true) = RESULT)
    by (right; left; reflexivity).
  split; [exact S|].
  exact (@slow_write_discarded Sample.status_bits Sample.eia_plain
           (Sample.validate_pending true) FORMAT_14 S).
Defined.

(** ** The page walk *)

Section WalkFacts.
Context {SSM : slave_status_mask} {STM : st_mask}.
Context {space : Type} {AS : address_space space}.

Lemma flow_trace_frame (st address : Z) (pfs : bool) (d : ns32082_device) :
  let d' := flow_trace st address pfs d in
  m_msr d' = m_msr d /\ m_ptb0 d' = m_ptb0 d /\ m_ptb1 d' = m_ptb1 d
  /\ m_state d' = m_state d /\ m_status d' = m_status d
  /\ m_op0 d' = m_op0 d /\ m_op1 d' = m_op1 d /\ m_op2 d' = m_op2 d
  /\ m_idbyte d' = m_idbyte d /\ m_opword d' = m_opword d
  /\ m_tcy d' = m_tcy d /\ m_eia d' = m_eia d
  /\ m_bpr0 d' = m_bpr0 d /\ m_bpr1 d' = m_bpr1 d /\ m_bcnt d' = m_bcnt d.
Proof.
  unfold flow_trace.
  destruct (pfs && nz (Z.land (m_msr d) MSR_FT)); [|cbv zeta; tauto].
  destruct (st =? ST_NIF); cbn; tauto.
Qed.

Lemma flow_trace_msr st address pfs d : m_msr (flow_trace st address pfs d) = m_msr d.
Proof. apply flow_trace_frame. Qed.

Lemma flow_trace_state st address pfs d : m_state (flow_trace st address pfs d) = m_state d.
Proof. apply flow_trace_frame. Qed.

Lemma flow_trace_status st address pfs d : m_status (flow_trace st address pfs d) = m_status d.
Proof. apply flow_trace_frame. Qed.

Lemma flow_trace_op2 st address pfs d : m_op2 (flow_trace st address pfs d) = m_op2 d.
Proof. apply flow_trace_frame. Qed.

Lemma flow_trace_ptb st address pfs d i :
  m_ptb (flow_trace st address pfs d) i = m_ptb d i.
Proof. unfold m_ptb. destruct i; apply flow_trace_frame. Qed.

Lemma flow_trace_untranslated st address pfs d user :
  untranslated (flow_trace st address pfs d) user = untranslated d user.
Proof. unfold untranslated. now rewrite flow_trace_msr. Qed.

Lemma flow_trace_validating st address pfs d :
  validating (flow_trace st address pfs d) = validating d.
Proof. unfold validating. now rewrite flow_trace_state. Qed.

Lemma flow_trace_effective_write st address pfs d write :
  effective_write (flow_trace st address pfs d) write = effective_write d write.
Proof. unfold effective_write. now rewrite flow_trace_state. Qed.

Lemma flow_trace_access_level st address pfs d st' user write :
  access_level_of (flow_trace st address pfs d) st' user write
  = access_level_of d st' user write.
Proof. unfold access_level_of. now rewrite flow_trace_msr. Qed.

Lemma flow_trace_pte1_address st address pfs d a user :
  pte1_address_of (flow_trace st address pfs d) a user = pte1_address_of d a user.
Proof.
  unfold pte1_address_of, ptb_of, address_space_of.
  now rewrite flow_trace_msr, !flow_trace_ptb.
Qed.

End WalkFacts.

Section TranslateProperties.
Context {SSM : slave_status_mask} {STM : st_mask}.
Context {space : Type} {AS : address_space space}.

(** C8: with the translation-enable bit of the access's privilege mode
    clear, [translate] returns COMPLETE, leaves the address as passed, and
    makes no access, read or write, to the external address space. *)
Theorem translate_disabled (d : ns32082_device) (sp : space) (st address : Z)
    (user write pfs suppress : bool) :
  Z.land (m_msr d) (if user then MSR_TU else MSR_TS) = 0 ->
  let t := translate d sp st address user write pfs suppress in
  result t = COMPLETE /\ address_out t = address
  /\ accesses t = [] /\ space_out t = sp.
Proof.
  intros E t. subst t. unfold translate.
  rewrite flow_trace_untranslated.
  assert (U : untranslated d user = true).
  { unfold untranslated, nz. destruct user; rewrite E; cbn.
    - reflexivity.
    - now rewrite andb_false_r. }
  rewrite U. repeat split.
Qed.

Lemma validating_not_idle (d : ns32082_device) :
  validating d = true -> state_eqb (m_state d) IDLE = false.
Proof. unfold validating. destruct (m_state d); simpl; congruence. Qed.

Lemma u16_land (x : Z) : u16 x = Z.land x (Z.ones 16).
Proof. unfold u16, wrap. now rewrite Z.land_ones. Qed.

Lemma fault_flag_set (s f : Z) :
  Z.land (u16 (Z.lor s f)) (u16 f) = u16 f.
Proof.
  rewrite !u16_land. apply Z.bits_inj'. intros n _.
  rewrite !Z.land_spec, Z.lor_spec.
  destruct (Z.testbit s n), (Z.testbit f n), (Z.testbit (Z.ones 16) n); reflexivity.
Qed.

(** C1 (amended): while a validate operation is pending and the level-1
    entry fails the check, the outcome depends on the entry's valid bit.
    With the valid bit set (a protection failure) [translate] returns
    CANCEL, raises the fault flag in the staged status word and moves the
    Protocol Engine to STATUS; with the valid bit clear it returns ABORT and
    moves the Protocol Engine to IDLE, the status word untouched. *)
Theorem translate_level1_fault_validating (d : ns32082_device) (sp : space)
    (st address : Z) (user write pfs suppress : bool) :
  validating d = true ->
  untranslated d user = false ->
  denied (level_of d st user write) (pte1_of d sp address user) = true ->
  let t := translate d sp st address user write pfs suppress in
  (if nz (Z.land (pte1_of d sp address user) PTE_V)
   then result t = CANCEL
        /\ m_state (device_out t) = STATUS
        /\ m_status (device_out t) = u16 (Z.lor (m_status d) SLAVE_F)
        /\ Z.land (m_status (device_out t)) (u16 SLAVE_F) = u16 SLAVE_F
   else result t = ABORT
        /\ m_state (device_out t) = IDLE
        /\ m_status (device_out t) = m_status d)
  /\ accesses t = [Read_dword (pte1_address_of d address user)]
  /\ space_out t = sp
  /\ address_out t = address
  /\ m_msr (device_out t) = m_msr d /\ m_eia (device_out t) = m_eia d.
Proof.
  intros V U D t. subst t. unfold translate.
  rewrite flow_trace_untranslated, U. unfold walk. cbv zeta.
  rewrite flow_trace_effective_write, flow_trace_access_level,
    flow_trace_pte1_address.
  fold (pte1_of d sp address user). fold (level_of d st user write).
  rewrite D, flow_trace_state, (validating_not_idle d V). cbn [andb].
  rewrite flow_trace_validating, V.
  destruct (nz (Z.land (pte1_of d sp address user) PTE_V)); cbn.
  - rewrite flow_trace_status, flow_trace_msr.
    repeat split; try apply fault_flag_set; apply flow_trace_frame.
  - rewrite flow_trace_status, flow_trace_msr.
    repeat split; apply flow_trace_frame.
Qed.

End TranslateProperties.

Lemma translate_disabled_witness :
  Z.land (m_msr Sample.power_on) (if true then MSR_TU else MSR_TS) = 0
  /\ (let t := Sample.translate Sample.power_on Sample.half_mapped 0xa 0x1234
                 true false false false in
      result t = COMPLETE /\ address_out t = 0x1234
      /\ accesses t = [] /\ space_out t = Sample.half_mapped).
Proof.
  split; [reflexivity|].
  exact (@translate_disabled Sample.status_bits Sample.st_codes Sample.ram
           Sample.ram_space Sample.power_on Sample.half_mapped 0xa 0x1234
           true false false false eq_refl).
Defined.

(** C1, as stated, fails: a read-validate is pending, supervisor
    translation is on, and the level-1 entry of the address has its valid
    bit clear; [translate] returns ABORT and the Protocol Engine goes to
    IDLE, not to STATUS. *)
Lemma translate_invalid_level1_aborts :
  let d := Sample.validate_pending false in
  let t := Sample.translate d Sample.unmapped 0xa 0 false false false false in
  m_state d = RDVAL
  /\ untranslated d false = false
  /\ denied (level_of (STM := Sample.st_codes) d 0xa false false)
            (pte1_of (AS := Sample.ram_space) d Sample.unmapped 0 false) = true
  /\ result t = ABORT
  /\ m_state (device_out t) = IDLE.
Proof. vm_compute. repeat split. Qed.

Lemma translate_level1_fault_validating_witness :
  let d := Sample.validate_pending false in
  let t := Sample.translate d Sample.unmapped 0xa 0 false false false false in
  validating d = true
  /\ untranslated d false = false
  /\ denied (level_of (STM := Sample.st_codes) d 0xa false false)
            (pte1_of (AS := Sample.ram_space) d Sample.unmapped 0 false) = true
  /\ result t = ABORT /\ m_state (device_out t) = IDLE.
Proof.
  pose proof (@translate_level1_fault_validating Sample.status_bits
                Sample.st_codes Sample.ram Sample.ram_space
                (Sample.validate_pending false) Sample.unmapped 0xa 0
                false false false false eq_refl eq_refl eq_refl) as T.
  cbv zeta in *. destruct T as [T _].
  change (nz (Z.land (pte1_of (AS := Sample.ram_space)
                        (Sample.validate_pending false) Sample.unmapped 0 false)
                     PTE_V)) with false in T.
  cbv iota in T. destruct T as [R [S _]].
  repeat split; assumption.
Defined.

(** ** The protocol invariant *)

Lemma protocol_invariant_view (d d' : ns32082_device) :
  protocol_view d' = protocol_view d ->
  protocol_invariant d -> protocol_invariant d'.
Proof.
  unfold protocol_view, protocol_invariant, operands_available.
  intros E. injection E as -> -> -> -> -> -> ->. exact (fun I => I).
Qed.

Ltac case_subop x :=
  destruct x as [|[[?|?|]|[?|?|]|]|?].

Section Invariant.
Context {SSM : slave_status_mask} {STM : st_mask} {EIF : eia_interface}.
Context {space : Type} {AS : address_space space}.

Lemma set_msr_view (data : Z) (d : ns32082_device) :
  protocol_view (set_msr data d) = protocol_view d.
Proof. reflexivity. Qed.

Lemma lmr_view (quick : Z) (d : ns32082_device) :
  protocol_view (fst (lmr quick d)) = protocol_view d.
Proof.
  unfold lmr.
  repeat match goal with
         | |- context [if ?c then _ else _] => destruct c
         end; reflexivity.
Qed.

Lemma smr_view (quick : Z) (d : ns32082_device) :
  let d' := fst (smr quick d) in
  m_state d' = m_state d /\ m_idbyte d' = m_idbyte d /\ m_opword d' = m_opword d
  /\ m_op0 d' = m_op0 d /\ m_op1 d' = m_op1 d /\ m_status d' = m_status d
  /\ expected (m_op2 d') = expected (m_op2 d)
  /\ issued (m_op2 d') = issued (m_op2 d).
Proof.
  unfold smr.
  repeat match goal with
         | |- context [if ?c then _ else _] => destruct c
         end; cbn; tauto.
Qed.

(** [execute] always leaves the OPERAND state, and leaves it for a validate
    state only with a clean status word and the output operand as decoded. *)
Lemma execute_leaves_operand (d : ns32082_device) :
  m_state d = OPERAND ->
  let e := dev (execute d) in
  m_status e = 0
  /\ expected (m_op2 e) = expected (m_op2 d)
  /\ issued (m_op2 e) = issued (m_op2 d)
  /\ ((m_state e = RDVAL /\ BIT (m_opword d) 2 4 = 0)
      \/ (m_state e = WRVAL /\ BIT (m_opword d) 2 4 = 1)
      \/ m_state e = STATUS).
Proof.
  intros S. unfold execute. cbv zeta.
  cbn [m_idbyte m_opword set_m_status].
  destruct (m_idbyte d =? FORMAT_14).
  - case_subop (BIT (m_opword d) 2 4); cbn; rewrite ?S; cbn; try tauto.
    + (* smr *)
      pose proof (smr_view (BIT (m_opword d) 7 4) (set_m_status 0 d)) as V.
      cbn in V. destruct V as (V1 & _ & _ & _ & _ & V6 & V7 & V8).
      rewrite V6. cbn. rewrite V1, S. cbn. rewrite V7, V8. tauto.
    + (* lmr *)
      pose proof (lmr_view (BIT (m_opword d) 7 4) (set_m_status 0 d)) as V.
      unfold protocol_view in V. cbn in V.
      injection V as V1 V2 V3 V4 V5 V6 V7.
      rewrite V7. cbn. rewrite V1, S. cbn. rewrite V6. tauto.
  - cbn. rewrite S. cbn. tauto.
Qed.

Lemma BIT_sub_operation (w : Z) : BIT w 2 4 = sub_operation w.
Proof. reflexivity. Qed.

(** What the OPERATION arm leaves behind for an operation word [w]. *)
Lemma write_opword_decodes (data : Z) (d : ns32082_device) :
  m_idbyte d = FORMAT_14 ->
  let w := swapendian_int16 data in
  let d' := write_opword data d in
  m_state d' = OPERAND /\ m_idbyte d' = FORMAT_14 /\ m_opword d' = w
  /\ m_op1 d' = cleared /\ m_status d' = m_status d /\ m_tcy d' = 0
  /\ registers d' = registers d
  /\ ((sub_operation w = 0 \/ sub_operation w = 1 \/ sub_operation w = 2)
        /\ m_op0 d' = mk_operand (size_field w + 1) 0 0 /\ m_op2 d' = cleared
      \/ sub_operation w = 3
        /\ m_op0 d' = cleared /\ m_op2 d' = mk_operand (size_field w + 1) 0 0
      \/ (sub_operation w <> 0 /\ sub_operation w <> 1
          /\ sub_operation w <> 2 /\ sub_operation w <> 3)
        /\ m_op0 d' = cleared /\ m_op2 d' = cleared).
Proof.
  intros I. unfold write_opword. cbv zeta. cbn. rewrite I. cbn.
  fold (sub_operation (swapendian_int16 data)).
  fold (size_field (swapendian_int16 data)).
  case_subop (sub_operation (swapendian_int16 data)); cbn;
    (repeat split; try assumption);
    first [ left; repeat split; tauto
          | right; left; repeat split; tauto
          | right; right; repeat split; try discriminate ].
Qed.

Lemma incomplete_iff_unavailable (d : ns32082_device) :
  (issued (m_op0 d) <? expected (m_op0 d)) || (issued (m_op1 d) <? expected (m_op1 d))
  = negb (operands_available d).
Proof.
  unfold operands_available. rewrite negb_andb, !Z.leb_antisym, !negb_involutive.
  reflexivity.
Qed.

(** The OPERAND arm takes the word into the first incomplete input slot
    and touches nothing else. *)
Lemma write_operand_takes_word (data : Z) (d : ns32082_device) :
  operands_available d = false ->
  let d' := fst (write_operand data d) in
  snd (write_operand data d) = []
  /\ m_state d' = m_state d /\ m_idbyte d' = m_idbyte d
  /\ m_opword d' = m_opword d /\ m_op2 d' = m_op2 d
  /\ m_status d' = m_status d /\ registers d' = registers d
  /\ m_tcy d' = m_tcy d
  /\ (if issued (m_op0 d) <? expected (m_op0 d)
      then m_op0 d' = insert_word data (m_op0 d) /\ m_op1 d' = m_op1 d
      else m_op0 d' = m_op0 d /\ m_op1 d' = insert_word data (m_op1 d)).
Proof.
  intros A. unfold write_operand.
  rewrite incomplete_iff_unavailable, A. cbn [negb].
  destruct (issued (m_op0 d) <? expected (m_op0 d)); cbn; tauto.
Qed.

Lemma size_field_nonneg (w : Z) : 0 <= size_field w.
Proof. unfold size_field. apply Z.land_nonneg. right. lia. Qed.

Lemma validate_after_execute (d : ns32082_device) :
  m_state d = OPERAND ->
  (sub_operation (m_opword d) <> 3 -> expected (m_op2 d) = 0) ->
  issued (m_op2 d) = 0 ->
  protocol_invariant (dev (execute d)).
Proof.
  intros S X I.
  destruct (execute_leaves_operand d S) as (E1 & E2 & E3 & E4).
  rewrite BIT_sub_operation in E4.
  unfold protocol_invariant.
  destruct E4 as [[E4 B] | [[E4 B] | E4]]; rewrite E4; try exact Logic.I;
    (split; [rewrite E2; apply X; rewrite B; discriminate
            | split; [rewrite E3; exact I | exact E1]]).
Qed.

Lemma slow_write_invariant (data : Z) (d : ns32082_device) :
  protocol_invariant d -> protocol_invariant (dev (slow_write data d)).
Proof.
  intros I. unfold slow_write. destruct (m_state d) eqn:S.
  - (* IDLE *)
    destruct (data =? FORMAT_14) eqn:E; cbn.
    + apply Z.eqb_eq in E. subst data. reflexivity.
    + rewrite S. cbn. exact I.
  - (* OPERATION *)
    unfold protocol_invariant in I. rewrite S in I.
    destruct (write_opword_decodes data d I)
      as (W1 & W2 & W3 & W4 & _ & _ & _ & W8).
    cbn [fst snd]. rewrite W1. cbn [state_eqb andb].
    destruct (operands_available (write_opword data d)) eqn:A; cbn [dev].
    + apply validate_after_execute; try assumption.
      * rewrite W3. intros N.
        destruct W8 as [(_ & _ & ->) | [(E & _) | (_ & _ & ->)]];
          [reflexivity | contradiction | reflexivity].
      * destruct W8 as [(_ & _ & ->) | [(_ & _ & ->) | (_ & _ & ->)]];
          reflexivity.
    + unfold protocol_invariant. rewrite W1.
      repeat split; try assumption.
      * destruct W8 as [(_ & _ & ->) | [(_ & _ & ->) | (_ & _ & ->)]];
          reflexivity.
      * rewrite BIT_sub_operation, W3. intros N.
        destruct W8 as [(_ & _ & ->) | [(E & _) | (_ & _ & ->)]];
          [reflexivity | contradiction | reflexivity].
  - (* OPERAND *)
    unfold protocol_invariant in I. rewrite S in I.
    destruct I as (I1 & I2 & I3 & I4).
    destruct (write_operand_takes_word data d I2)
      as (L & W1 & W2 & W3 & W4 & W5 & _).
    rewrite L, W1, S. cbn [state_eqb andb app].
    destruct (operands_available (fst (write_operand data d))) eqn:A; cbn [dev].
    + apply validate_after_execute.
      * now rewrite W1.
      * now rewrite W3, W4.
      * now rewrite W4.
    + unfold protocol_invariant. rewrite W1, S, W2, W3, W4. tauto.
  - cbn. rewrite S. cbn. exact I.
  - cbn. rewrite S. cbn. exact I.
  - cbn. rewrite S. cbn. exact I.
  - cbn. rewrite S. cbn. exact I.
Qed.

Lemma slow_status_invariant (icount : option Z) (d : ns32082_device) :
  protocol_invariant d -> protocol_invariant (dev (slow_status icount d)).
Proof.
  intros I. unfold slow_status.
  destruct (m_state d) eqn:S; cbn; try exact I.
  unfold protocol_invariant. cbn.
  destruct (issued (m_op2 d) =? expected (m_op2 d)); exact Logic.I.
Qed.

Lemma slow_read_invariant (d : ns32082_device) :
  protocol_invariant d -> protocol_invariant (dev (slow_read d)).
Proof.
  intros I. unfold slow_read.
  destruct (state_eqb (m_state d) RESULT) eqn:S; cbn; try exact I.
  apply state_eqb_eq in S.
  destruct (issued (m_op2 d) <? expected (m_op2 d)); cbn; try exact I.
  destruct (u32 (issued (m_op2 d) + 2) =? expected (m_op2 d));
    unfold protocol_invariant; cbn; rewrite ?S; exact Logic.I.
Qed.

Lemma flow_trace_view st address pfs d :
  protocol_view (flow_trace st address pfs d) = protocol_view d.
Proof.
  pose proof (flow_trace_frame st address pfs d) as F. cbv zeta in F.
  unfold protocol_view.
  destruct F as (_ & _ & _ & -> & -> & -> & -> & -> & -> & -> & _).
  reflexivity.
Qed.

Lemma record_fault_view tet st address sel write level pte d :
  protocol_view (record_fault tet st address sel write level pte d)
  = protocol_view d.
Proof.
  unfold record_fault. cbv zeta.
  destruct (Z.land pte PTE_PL <? level), (negb (nz (Z.land pte PTE_V)));
    reflexivity.
Qed.

Lemma view_validating (d d' : ns32082_device) :
  protocol_view d' = protocol_view d -> validating d' = validating d.
Proof.
  unfold protocol_view, validating. intros E.
  injection E as -> _ _ _ _ _ _. reflexivity.
Qed.

(** A call of [translate] either leaves the protocol engine's part of the
    device alone, or ends a pending validate in STATUS or IDLE. *)
Lemma translate_protocol (d : ns32082_device) (sp : space) (st address : Z)
    (user write pfs suppress : bool) :
  let d' := device_out (translate d sp st address user write pfs suppress) in
  protocol_view d' = protocol_view d
  \/ (validating d = true /\ (m_state d' = STATUS \/ m_state d' = IDLE)).
Proof.
  cbv zeta. unfold translate.
  pose proof (flow_trace_view st address pfs d) as F.
  pose proof (view_validating _ _ F) as FV.
  set (d1 := flow_trace st address pfs d) in *.
  destruct (untranslated d1 user); [left; exact F|].
  unfold walk. cbv zeta.
  set (lvl := access_level_of d1 st user (effective_write d1 write)).
  set (sel := address_space_of d1 user).
  set (p1 := u32 (read_dword sp (pte1_address_of d1 address user))).
  destruct (denied lvl p1).
  - destruct (state_eqb (m_state d1) IDLE && negb suppress).
    + pose proof (record_fault_view TET_IL1 st address sel
                    (effective_write d1 write) lvl p1 d1) as R.
      rewrite (view_validating _ _ R), FV.
      destruct (validating d) eqn:V.
      * right. split; [reflexivity|].
        destruct (nz (Z.land p1 PTE_V)); cbn; tauto.
      * left. cbn [device_out]. now rewrite R.
    + rewrite FV. destruct (validating d) eqn:V.
      * right. split; [reflexivity|].
        destruct (nz (Z.land p1 PTE_V)); cbn; tauto.
      * left. exact F.
  - match goal with
    | |- context [denied lvl ?p2] => set (pte2 := p2)
    end.
    destruct (denied lvl pte2).
    + destruct (state_eqb (m_state d1) IDLE && negb suppress).
      * match goal with
        | |- context [record_fault ?a ?b ?c ?e ?f ?g ?h ?i] =>
            pose proof (record_fault_view a b c e f g h i) as R
        end.
        rewrite (view_validating _ _ R), FV.
        destruct (validating d) eqn:V.
        -- right. split; [reflexivity|].
           destruct (nz (Z.land p1 PTE_V)); cbn; tauto.
        -- left. cbn [device_out]. now rewrite R.
      * rewrite FV. destruct (validating d) eqn:V.
        -- right. split; [reflexivity|].
           destruct (nz (Z.land p1 PTE_V)); cbn; tauto.
        -- left. exact F.
    + rewrite FV. destruct (validating d) eqn:V; cbn [device_out].
      * right. split; [reflexivity|]. cbn. tauto.
      * left. exact F.
Qed.

Lemma translate_invariant (d : ns32082_device) (sp : space) (st address : Z)
    (user write pfs suppress : bool) :
  protocol_invariant d ->
  protocol_invariant
    (device_out (translate d sp st address user write pfs suppress)).
Proof.
  intros I.
  destruct (translate_protocol d sp st address user write pfs suppress)
    as [V | (_ & [S | S])].
  - exact (protocol_invariant_view _ _ V I).
  - unfold protocol_invariant. now rewrite S.
  - unfold protocol_invariant. now rewrite S.
Qed.

(** Every state the device can be driven into satisfies the invariant. *)
Lemma reachable_invariant (d : ns32082_device) :
  reachable d -> protocol_invariant d.
Proof.
  induction 1 as [d | op d R IH].
  - exact Logic.I.
  - destruct op; cbn [step].
    + exact Logic.I.
    + now apply slow_write_invariant.
    + now apply slow_status_invariant.
    + now apply slow_read_invariant.
    + now apply translate_invariant.
Qed.

Lemma reachable_run (ops : list bus_op) (d : ns32082_device) :
  reachable d -> reachable (run ops d).
Proof.
  revert d. induction ops as [|op ops IH]; intros d R; cbn.
  - exact R.
  - apply IH. now apply reachable_step.
Qed.

End Invariant.

(** ** Validate operations *)

Section Validate.
Context {SSM : slave_status_mask} {STM : st_mask} {EIF : eia_interface}.
Context {space : Type} {AS : address_space space}.

(** C5: a write-validate is pending on a device driven from reset, the
    level-1 entry passes the check and the level-2 entry has its valid bit
    clear.  [translate] returns CANCEL, the Protocol Engine is in STATUS
    with the fault flag as the staged status word, the output operand
    expects no byte, the status read returns the flag and ends in IDLE, and
    a result read, before or after it, is a protocol error that returns 0. *)
Theorem wrval_level2_invalid_cancels (d : ns32082_device) (sp : space)
    (st address : Z) (user write pfs suppress : bool) :
  reachable d ->
  m_state d = WRVAL ->
  untranslated d user = false ->
  denied (level_of d st user write) (pte1_of d sp address user) = false ->
  nz (Z.land (pte2_of d sp address user suppress) PTE_V) = false ->
  let t := translate d sp st address user write pfs suppress in
  let d' := device_out t in
  result t = CANCEL
  /\ m_state d' = STATUS
  /\ m_status d' = u16 SLAVE_F
  /\ Z.land (m_status d') (u16 SLAVE_F) = u16 SLAVE_F
  /\ expected (m_op2 d') = 0 /\ issued (m_op2 d') = 0
  /\ slow_status None d' = Ran (u16 SLAVE_F, None) (set_m_state IDLE d') []
  /\ slow_read d' = Ran 0 d' [read_protocol_error]
  /\ slow_read (set_m_state IDLE d') = Ran 0 (set_m_state IDLE d') [read_protocol_error].
Proof.
  intros R S U D1 V2.
  pose proof (reachable_invariant d R) as I.
  unfold protocol_invariant in I. rewrite S in I. destruct I as (I1 & I2 & I3).
  assert (V : validating d = true) by (unfold validating; now rewrite S).
  assert (V1 : nz (Z.land (pte1_of d sp address user) PTE_V) = true).
  { unfold denied in D1. apply orb_false_elim in D1 as [_ D1].
    now apply negb_false_iff in D1. }
  assert (D2 : denied (level_of d st user write)
                 (pte2_of d sp address user suppress) = true).
  { unfold denied. rewrite V2. apply orb_true_r. }
  unfold pte2_of, space_after_pte1 in D2. cbv zeta in D2.
  unfold pte1_of, level_of in *.
  cbv zeta. unfold translate.
  rewrite flow_trace_untranslated, U. unfold walk. cbv zeta.
  rewrite flow_trace_effective_write, flow_trace_access_level,
    flow_trace_pte1_address.
  rewrite D1, D2, flow_trace_state, (validating_not_idle d V). cbn [andb].
  rewrite flow_trace_validating, V, V1.
  cbn [result device_out].
  assert (St : m_status (raise_fault_flag
                 (set_m_state STATUS (flow_trace st address pfs d))) = u16 SLAVE_F).
  { unfold raise_fault_flag. cbn. now rewrite flow_trace_status, I3. }
  assert (O : m_op2 (raise_fault_flag
                (set_m_state STATUS (flow_trace st address pfs d))) = m_op2 d).
  { unfold raise_fault_flag. cbn. apply flow_trace_op2. }
  set (d' := raise_fault_flag (set_m_state STATUS (flow_trace st address pfs d))) in *.
  assert (S' : m_state d' = STATUS) by reflexivity.
  repeat split.
  - exact St.
  - rewrite St. apply Z.land_diag.
  - now rewrite O.
  - now rewrite O.
  - unfold slow_status. rewrite S', O, I1, I2, St. reflexivity.
Qed.

End Validate.

Lemma wrval_level2_invalid_cancels_witness :
  let d := Sample.validate_pending true in
  let t := Sample.translate d Sample.half_mapped 0xa 0 false false false false in
  @reachable Sample.status_bits Sample.st_codes Sample.eia_plain Sample.ram
    Sample.ram_space d
  /\ m_state d = WRVAL
  /\ untranslated d false = false
  /\ denied (level_of (STM := Sample.st_codes) d 0xa false false)
            (pte1_of (AS := Sample.ram_space) d Sample.half_mapped 0 false) = false
  /\ nz (Z.land (pte2_of (AS := Sample.ram_space) d Sample.half_mapped 0 false false)
                PTE_V) = false
  /\ result t = CANCEL
  /\ m_state (device_out t) = STATUS
  /\ m_status (device_out t) = 0x20
  /\ expected (m_op2 (device_out t)) = 0.
Proof.
  cbv zeta.
  assert (R : @reachable Sample.status_bits Sample.st_codes Sample.eia_plain
                Sample.ram Sample.ram_space (Sample.validate_pending true)).
  { unfold Sample.validate_pending, Sample.run.
    apply reachable_run. apply reachable_reset. }
  pose proof (@wrval_level2_invalid_cancels Sample.status_bits Sample.st_codes
                Sample.eia_plain Sample.ram Sample.ram_space
                (Sample.validate_pending true) Sample.half_mapped 0xa 0
                false false false false R eq_refl eq_refl eq_refl eq_refl) as T.
  cbv zeta in T. destruct T as (T1 & T2 & T3 & _ & T5 & _).
  repeat split; assumption.
Defined.

(** ** Suppressed translations *)

Section Suppressed.
Context {SSM : slave_status_mask} {STM : st_mask}.
Context {space : Type} {AS : address_space space}.

Lemma validating_record_fault tet st address sel write level pte d :
  validating (record_fault tet st address sel write level pte d) = validating d.
Proof. apply view_validating, record_fault_view. Qed.

(** The walk reads the device through [m_msr], [m_ptb] and [m_state] only. *)
Lemma walk_ext (d1 d2 : ns32082_device) (sp : space) (st address : Z)
    (user write suppress : bool) :
  m_msr d1 = m_msr d2 -> m_ptb0 d1 = m_ptb0 d2 -> m_ptb1 d1 = m_ptb1 d2 ->
  m_state d1 = m_state d2 ->
  let t1 := walk d1 sp st address user write suppress in
  let t2 := walk d2 sp st address user write suppress in
  result t1 = result t2 /\ address_out t1 = address_out t2
  /\ space_out t1 = space_out t2 /\ accesses t1 = accesses t2.
Proof.
  intros M P0 P1 S. cbv zeta. unfold walk. cbv zeta.
  assert (EW : effective_write d1 write = effective_write d2 write)
    by (unfold effective_write; now rewrite S).
  assert (AL : forall w, access_level_of d1 st user w = access_level_of d2 st user w)
    by (intros w; unfold access_level_of; now rewrite M).
  assert (SEL : address_space_of d1 user = address_space_of d2 user)
    by (unfold address_space_of; now rewrite M).
  assert (PA : pte1_address_of d1 address user = pte1_address_of d2 address user).
  { unfold pte1_address_of, ptb_of, m_ptb. rewrite SEL.
    destruct (address_space_of d2 user); now rewrite ?P0, ?P1. }
  assert (VA : validating d1 = validating d2)
    by (unfold validating; now rewrite S).
  rewrite EW, AL, SEL, PA, S.
  set (lvl := access_level_of d2 st user (effective_write d2 write)).
  set (p1 := u32 (read_dword sp (pte1_address_of d2 address user))).
  destruct (denied lvl p1).
  - destruct (state_eqb (m_state d2) IDLE && negb suppress);
      rewrite ?validating_record_fault, VA;
      (destruct (validating d2); [destruct (nz (Z.land p1 PTE_V))|]);
      cbn; tauto.
  - match goal with
    | |- context [denied lvl ?p2] => set (pte2 := p2)
    end.
    destruct (denied lvl pte2).
    + destruct (state_eqb (m_state d2) IDLE && negb suppress);
        rewrite ?validating_record_fault, VA;
        destruct (validating d2); cbn; tauto.
    + cbn. tauto.
Qed.

(** With [suppress] set the walk writes nothing, and outside a validate
    operation it leaves the device alone as well. *)
Lemma walk_suppressed (d : ns32082_device) (sp : space) (st address : Z)
    (user write : bool) :
  let t := walk d sp st address user write true in
  space_out t = sp /\ existsb is_write (accesses t) = false
  /\ (validating d = false -> device_out t = d).
Proof.
  cbv zeta. unfold walk. cbv zeta. cbn [negb]. rewrite !andb_false_r.
  destruct (denied _ _).
  - destruct (validating d); [destruct (nz _)|]; cbn; repeat split;
      intros; congruence.
  - cbn [app]. destruct (denied _ _).
    + destruct (validating d); cbn; repeat split; intros; congruence.
    + destruct (validating d); cbn; repeat split; intros; congruence.
Qed.

(** C6 (amended): with [suppress] set, no call of [translate] writes to the
    external address space, whatever the device state; and when no
    validate operation is pending, two calls in succession with the same
    arguments give the same result and the same address. *)
Theorem translate_suppressed_twice (d : ns32082_device) (sp : space)
    (st address : Z) (user write pfs : bool) :
  let t1 := translate d sp st address user write pfs true in
  let t2 := translate (device_out t1) (space_out t1) st address user write pfs true in
  space_out t1 = sp /\ space_out t2 = sp
  /\ existsb is_write (accesses t1) = false
  /\ existsb is_write (accesses t2) = false
  /\ (validating d = false ->
      result t2 = result t1 /\ address_out t2 = address_out t1
      /\ accesses t2 = accesses t1).
Proof.
  cbv zeta.
  assert (W : forall d0 sp0,
             let t := translate d0 sp0 st address user write pfs true in
             space_out t = sp0 /\ existsb is_write (accesses t) = false
             /\ (validating d0 = false ->
                 device_out t = flow_trace st address pfs d0)).
  { intros d0 sp0. cbv zeta. unfold translate.
    destruct (untranslated (flow_trace st address pfs d0) user).
    - cbn. tauto.
    - pose proof (walk_suppressed (flow_trace st address pfs d0) sp0 st address
                    user write) as K.
      cbv zeta in K. rewrite flow_trace_validating in K. exact K. }
  destruct (W d sp) as (W1 & W2 & W3).
  destruct (W (device_out (translate d sp st address user write pfs true))
              (space_out (translate d sp st address user write pfs true)))
    as (X1 & X2 & _).
  split; [exact W1|]. split; [now rewrite X1|].
  split; [exact W2|]. split; [exact X2|].
  intros V. rewrite W1, (W3 V). unfold translate.
  rewrite !flow_trace_untranslated.
  destruct (untranslated d user); [repeat split|].
  pose proof (walk_ext
                (flow_trace st address pfs (flow_trace st address pfs d))
                (flow_trace st address pfs d) sp st address user write true)
    as E.
  cbv zeta in E. repeat split; apply E; apply flow_trace_frame.
Qed.

End Suppressed.

(** C6, as stated, fails: a read-validate is pending and the level-2 entry
    of the address is invalid.  The first suppressed call returns CANCEL
    and ends the validate; the second, with the same arguments, returns
    ABORT. *)
Lemma translate_suppressed_twice_differs :
  let d := Sample.validate_pending false in
  let t1 := Sample.translate d Sample.half_mapped 0xa 0 false false false true in
  let t2 := Sample.translate (device_out t1) (space_out t1) 0xa 0
              false false false true in
  m_state d = RDVAL /\ result t1 = CANCEL /\ result t2 = ABORT.
Proof. vm_compute. repeat split. Qed.

(** A supervisor write through two valid entries that have neither the
    referenced nor the modified bit: the walk reads both entries, and only
    [suppress] keeps it from writing them back. *)
Lemma translate_suppressed_twice_witness :
  let d := Sample.translating in
  let t1 := Sample.translate d Sample.mapped 0xa 0x1ab false true false true in
  let t2 := Sample.translate (device_out t1) (space_out t1) 0xa 0x1ab
              false true false true in
  let unsuppressed :=
    Sample.translate d Sample.mapped 0xa 0x1ab false true false false in
  validating d = false
  /\ untranslated d false = false
  /\ accesses unsuppressed
     = [Read_dword 0; Write_word 0 0x20f; Read_dword 0x200;
        Write_word 0x200 0x121f]
  /\ accesses t1 = [Read_dword 0; Read_dword 0x200]
  /\ result t1 = COMPLETE /\ address_out t1 = 0x13ab
  /\ existsb is_write (accesses t1) = false
  /\ existsb is_write (accesses t2) = false
  /\ result t2 = result t1 /\ address_out t2 = address_out t1
  /\ accesses t2 = accesses t1.
Proof.
  cbv zeta.
  assert (V : validating Sample.translating = false)
    by (vm_compute; reflexivity).
  pose proof (@translate_suppressed_twice Sample.status_bits Sample.st_codes
                Sample.ram Sample.ram_space Sample.translating Sample.mapped
                0xa 0x1ab false true false) as T.
  cbv zeta in T. destruct T as (_ & _ & W1 & W2 & T).
  destruct (T V) as (T1 & T2 & T3).
  split; [exact V|].
  split; [vm_compute; reflexivity|].
  split; [vm_compute; reflexivity|].
  split; [vm_compute; reflexivity|].
  split; [vm_compute; reflexivity|].
  split; [vm_compute; reflexivity|].
  split; [revert W1; vm_compute; exact (fun x => x)|].
  split; [revert W2; vm_compute; exact (fun x => x)|].
  split; [revert T1; vm_compute; exact (fun x => x)|].
  split; [revert T2; vm_compute; exact (fun x => x)|].
  revert T3; vm_compute; exact (fun x => x).
Defined.

Lemma u32_land (x : Z) : u32 x = Z.land x (Z.ones 32).
Proof. unfold u32, wrap. now rewrite Z.land_ones. Qed.

Lemma u64_land (x : Z) : u64 x = Z.land x (Z.ones 64).
Proof. unfold u64, wrap. now rewrite Z.land_ones. Qed.

Lemma testbit_u16 (x n : Z) : 0 <= n -> Z.testbit (u16 x) n = Z.testbit x n && (n <? 16).
Proof. intros N. now rewrite u16_land, Z.land_spec, Z.testbit_ones_nonneg. Qed.

Lemma testbit_u32 (x n : Z) : 0 <= n -> Z.testbit (u32 x) n = Z.testbit x n && (n <? 32).
Proof. intros N. now rewrite u32_land, Z.land_spec, Z.testbit_ones_nonneg. Qed.

Lemma testbit_u64 (x n : Z) : 0 <= n -> Z.testbit (u64 x) n = Z.testbit x n && (n <? 64).
Proof. intros N. now rewrite u64_land, Z.land_spec, Z.testbit_ones_nonneg. Qed.

(** Two bus words, low word first, rebuild the low 32 bits of the value. *)
Lemma assembled_u32 (V : Z) : assembled V = u32 V.
Proof.
  change (assembled V)
    with (Z.lor (u64 (Z.shiftl (u16 V) 0))
                (u64 (Z.shiftl (u16 (Z.shiftr V 16)) 16))).
  apply Z.bits_inj'. intros n N.
  rewrite Z.lor_spec, !testbit_u64, testbit_u32, Z.shiftl_0_r, testbit_u16,
    Z.shiftl_spec by assumption.
  destruct (Z.ltb_spec n 16) as [L | L].
  - rewrite (Z.testbit_neg_r _ (n - 16)) by lia.
    replace (n <? 64) with true by (symmetry; apply Z.ltb_lt; lia).
    replace (n <? 32) with true by (symmetry; apply Z.ltb_lt; lia).
    now rewrite !andb_true_r, orb_false_r.
  - rewrite testbit_u16, Z.shiftr_spec by lia.
    replace (n - 16 + 16) with n by lia.
    rewrite !andb_false_r, orb_false_l.
    destruct (Z.ltb_spec n 32) as [M | M].
    + replace (n - 16 <? 16) with true by (symmetry; apply Z.ltb_lt; lia).
      replace (n <? 64) with true by (symmetry; apply Z.ltb_lt; lia).
      replace (n <? 32) with true by (symmetry; apply Z.ltb_lt; lia).
      now rewrite !andb_true_r.
    + replace (n - 16 <? 16) with false by (symmetry; apply Z.ltb_ge; lia).
      replace (n <? 32) with false by (symmetry; apply Z.ltb_ge; lia).
      now rewrite !andb_false_r.
Qed.

(** A mask that fits 32 bits absorbs both truncations. *)
Lemma land_mask32 (V m : Z) :
  Z.land m (Z.ones 32) = m -> u32 (Z.land (u32 V) m) = Z.land V m.
Proof.
  intros M. rewrite !u32_land.
  rewrite <- (Z.land_assoc V), (Z.land_comm (Z.ones 32) m), M.
  now rewrite <- Z.land_assoc, M.
Qed.

(** ** Register load and store *)

Section Registers.
Context {SSM : slave_status_mask} {STM : st_mask} {EIF : eia_interface}.
Context {space : Type} {AS : address_space space}.

Lemma undefined_selector_tests (quick : Z) :
  is_defined_register quick = false ->
  forall r, In r defined_registers -> (quick =? r) = false.
Proof.
  unfold is_defined_register. intros U r I.
  destruct (quick =? r) eqn:E; [|reflexivity].
  assert (X : existsb (Z.eqb quick) defined_registers = true)
    by (apply existsb_exists; exists r; split; assumption).
  congruence.
Qed.

Ltac undefined_tests U :=
  pose proof (undefined_selector_tests _ U) as T;
  repeat match goal with
         | |- context [if ?q =? ?r then _ else _] =>
             rewrite (T r) by (vm_compute; tauto)
         end.

Lemma lmr_undefined (quick : Z) (d : ns32082_device) :
  is_defined_register quick = false ->
  lmr quick d = (d, [lmr_unknown_register quick]).
Proof. intros U. unfold lmr. undefined_tests U. reflexivity. Qed.

Lemma smr_undefined (quick : Z) (d : ns32082_device) :
  is_defined_register quick = false ->
  smr quick d = (d, [smr_unknown_register quick]).
Proof. intros U. unfold smr. cbv zeta. undefined_tests U. reflexivity. Qed.

Lemma smr_registers (quick : Z) (d : ns32082_device) :
  registers (fst (smr quick d)) = registers d.
Proof.
  unfold smr.
  repeat match goal with
         | |- context [if ?c then _ else _] => destruct c
         end; reflexivity.
Qed.

(** With a selector outside the defined set, [execute] mutates no
    register, whatever the operation. *)
Lemma execute_undefined_selector (d : ns32082_device) :
  is_defined_register (BIT (m_opword d) 7 4) = false ->
  registers (dev (execute d)) = registers d.
Proof.
  intros U. unfold execute. cbv zeta.
  cbn [m_idbyte m_opword set_m_status].
  assert (K : forall x : ns32082_device,
             registers
               (if state_eqb (m_state
                      (if nz (Z.land (m_status x) SLAVE_Q)
                       then set_m_op2 (set_expected 0 (m_op2 x)) x else x))
                    OPERAND
                then set_m_state STATUS
                       (if nz (Z.land (m_status x) SLAVE_Q)
                        then set_m_op2 (set_expected 0 (m_op2 x)) x else x)
                else (if nz (Z.land (m_status x) SLAVE_Q)
                      then set_m_op2 (set_expected 0 (m_op2 x)) x else x))
             = registers x).
  { intros x. destruct (nz _); destruct (state_eqb _ _); reflexivity. }
  destruct (m_idbyte d =? FORMAT_14).
  - case_subop (BIT (m_opword d) 2 4); cbn [fst snd dev];
      rewrite ?(lmr_undefined _ (set_m_status 0 d) U),
              ?(smr_undefined _ (set_m_status 0 d) U);
      cbn [fst snd]; rewrite K; reflexivity.
  - cbn [fst snd dev]. rewrite K. reflexivity.
Qed.

Lemma msr_loaded_writable (V msr : Z) :
  Z.land (msr_loaded (u32 V) msr) MSR_WM = Z.land V MSR_WM.
Proof.
  unfold msr_loaded. cbv zeta.
  rewrite Z.land_lor_distr_l, <- !Z.land_assoc.
  change (Z.land (not32 MSR_WM) MSR_WM) with 0.
  rewrite Z.land_0_r, Z.lor_0_l, Z.land_diag.
  rewrite u32_land, <- Z.land_assoc. reflexivity.
Qed.

Lemma u32_assembled (V : Z) : u32 (assembled V) = u32 V.
Proof.
  rewrite assembled_u32, !u32_land, <- Z.land_assoc, Z.land_diag. reflexivity.
Qed.

(** The operand of a load, cut to 32 bits, has the bits of the value. *)
Lemma land_u32_l (V m : Z) :
  Z.land m (Z.ones 32) = m -> Z.land (u32 V) m = Z.land V m.
Proof.
  intros M. rewrite u32_land, <- Z.land_assoc, (Z.land_comm (Z.ones 32) m), M.
  reflexivity.
Qed.

(** What [set_msr] leaves in the register, bit field by bit field. *)
Lemma msr_loaded_fields (V msr : Z) :
  msr_loaded (u32 V) msr
  = Z.lor (Z.land (if nz (Z.land V MSR_R)
                   then Z.land msr (not32 MSR_status_fields) else msr)
                  (not32 MSR_WM))
          (Z.land V MSR_WM).
Proof.
  unfold msr_loaded. cbv zeta.
  rewrite !land_u32_l by reflexivity. reflexivity.
Qed.

Lemma msr_loaded_readonly (V msr : Z) :
  Z.land (msr_loaded (u32 V) msr) (not32 MSR_WM)
  = Z.land (if nz (Z.land V MSR_R)
            then Z.land msr (not32 MSR_status_fields) else msr)
           (not32 MSR_WM).
Proof.
  rewrite msr_loaded_fields.
  rewrite Z.land_lor_distr_l, <- !Z.land_assoc, Z.land_diag.
  change (Z.land MSR_WM (not32 MSR_WM)) with 0.
  rewrite Z.land_0_r, Z.lor_0_r. reflexivity.
Qed.

(** C4 (amended): from any register-file state with the Protocol Engine
    idle, load-register(r, V) followed by store-register(r) stages
    [V & mask(r)] for the eight registers loaded by masked assignment
    (BPR0, BPR1, PF0, PF1, SC, BCNT, PTB0, PTB1), and for EIA, which is
    loaded directly, all 32 bits of [V].  For MSR it stages [V] on the
    writable bits and the old contents of the register on every other bit,
    the status fields of the old contents cleared first if [V] has the
    reset bit.  For a selector outside the defined set neither operation
    mutates any register, and nothing is staged. *)
Theorem load_then_store (d : ns32082_device) (quick V : Z) :
  m_state d = IDLE -> 0 <= quick < 16 ->
  let d1 := run (load_register quick V) d in
  let d2 := run (store_register quick 3) d1 in
  let kept :=
    if nz (Z.land V MSR_R)
    then Z.land (m_msr d) (not32 MSR_status_fields) else m_msr d in
  m_state d1 = IDLE /\ m_state d2 = STATUS
  /\ (In quick plain_registers ->
      value (m_op2 d2) = Z.land V (load_mask quick))
  /\ (quick = reg_mask.MSR ->
      value (m_op2 d2)
      = Z.lor (Z.land kept (not32 MSR_WM)) (Z.land V MSR_WM)
      /\ Z.land (value (m_op2 d2)) MSR_WM = Z.land V MSR_WM
      /\ Z.land (value (m_op2 d2)) (not32 MSR_WM)
         = Z.land kept (not32 MSR_WM))
  /\ (quick = reg_mask.EIA -> loaded_directly EIF ->
      value (m_op2 d2) = Z.land V 0xffffffff)
  /\ (is_defined_register quick = false ->
      registers d1 = registers d /\ registers d2 = registers d
      /\ value (m_op2 d2) = 0).
Proof.
  intros S Q.
  assert (C : quick = 0 \/ quick = 1 \/ quick = 2 \/ quick = 3 \/ quick = 4
              \/ quick = 5 \/ quick = 6 \/ quick = 7 \/ quick = 8 \/ quick = 9
              \/ quick = 10 \/ quick = 11 \/ quick = 12 \/ quick = 13
              \/ quick = 14 \/ quick = 15) by lia.
  clear Q. destruct d. cbn in S. subst m_state0. cbv zeta.
  repeat (destruct C as [-> | C]); [.. | subst quick];
    (split; [reflexivity|]); (split; [reflexivity|]);
    (split; [|split; [|split]]).
  all: lazymatch goal with
       | |- In ?q plain_registers -> _ =>
           intros I; vm_compute in I;
           first
             [ exfalso; solve [intuition discriminate]
             | clear I;
               lazymatch q with
               | 8 =>
                   transitivity (u32 (assembled V));
                   [ reflexivity
                   | rewrite u32_assembled, u32_land; reflexivity ]
               | _ =>
                   transitivity (u32 (Z.land (assembled V) (load_mask q)));
                   [ reflexivity
                   | rewrite assembled_u32; apply land_mask32; reflexivity ]
               end ]
       | |- ?q = reg_mask.MSR -> _ =>
           intros I;
           first
             [ discriminate I
             | clear I;
               lazymatch goal with
               | |- ?x = _ /\ _ =>
                   assert (E : x = msr_loaded (u32 V) m_msr0)
                     by (rewrite <- (u32_assembled V); reflexivity);
                   rewrite E;
                   split; [apply msr_loaded_fields|];
                   split; [apply msr_loaded_writable
                          | apply msr_loaded_readonly]
               end ]
       | |- ?q = reg_mask.EIA -> _ =>
           intros I;
           first
             [ discriminate I
             | clear I; intros L;
               transitivity (u32 (eia_loaded (u32 (assembled V)) m_eia0));
               [ reflexivity
               | rewrite L, u32_assembled, !u32_land, <- Z.land_assoc;
                 reflexivity ] ]
       | |- is_defined_register ?q = false -> _ =>
           intros I; vm_compute in I;
           first
             [ discriminate I
             | clear I; split; [reflexivity | split; reflexivity] ]
       end.
Qed.

End Registers.

(** The round trip through a masked register, through the error/invalidate
    address register and through the status/mode register of a device
    that holds a fault report. *)
Lemma load_then_store_witness :
  let faulted :=
    Sample.run (load_register reg_mask.MSR MSR_TS
                ++ [Op_translate Sample.unmapped 0xa 0 false false false false])
      Sample.power_on in
  m_state Sample.power_on = IDLE
  /\ 0 <= reg_mask.BPR0 < 16
  /\ In reg_mask.BPR0 plain_registers
  /\ value (m_op2 (Sample.run (store_register reg_mask.BPR0 3)
                     (Sample.run (load_register reg_mask.BPR0 0xffffffff)
                        Sample.power_on)))
     = 0xfcffffff
  /\ 0 <= reg_mask.EIA < 16
  /\ loaded_directly Sample.eia_plain
  /\ value (m_op2 (Sample.run (store_register reg_mask.EIA 3)
                     (Sample.run (load_register reg_mask.EIA 0x1812345678)
                        Sample.power_on)))
     = 0x12345678
  /\ m_state faulted = IDLE
  /\ 0 <= reg_mask.MSR < 16
  /\ m_msr faulted = 0x20911
  /\ value (m_op2 (Sample.run (store_register reg_mask.MSR 3)
                     (Sample.run (load_register reg_mask.MSR MSR_TU) faulted)))
     = 0x10911
  /\ value (m_op2 (Sample.run (store_register reg_mask.MSR 3)
                     (Sample.run (load_register reg_mask.MSR
                                    (Z.lor MSR_TU MSR_R)) faulted)))
     = 0x10000.
Proof.
  cbv zeta.
  assert (S : m_state Sample.power_on = IDLE) by (vm_compute; reflexivity).
  assert (Q : 0 <= reg_mask.BPR0 < 16) by (unfold reg_mask.BPR0; lia).
  assert (I : In reg_mask.BPR0 plain_registers) by (left; reflexivity).
  assert (Q' : 0 <= reg_mask.EIA < 16) by (unfold reg_mask.EIA; lia).
  assert (L : loaded_directly Sample.eia_plain) by (intros data old; reflexivity).
  assert (S'' : m_state
                  (Sample.run
                     (load_register reg_mask.MSR MSR_TS
                      ++ [Op_translate Sample.unmapped 0xa 0
                            false false false false])
                     Sample.power_on) = IDLE) by (vm_compute; reflexivity).
  assert (Q'' : 0 <= reg_mask.MSR < 16) by (unfold reg_mask.MSR; lia).
  pose proof (@load_then_store Sample.status_bits Sample.st_codes
                Sample.eia_plain Sample.ram Sample.ram_space
                Sample.power_on reg_mask.BPR0 0xffffffff S Q) as T.
  pose proof (@load_then_store Sample.status_bits Sample.st_codes
                Sample.eia_plain Sample.ram Sample.ram_space
                Sample.power_on reg_mask.EIA 0x1812345678 S Q') as T'.
  pose proof (@load_then_store Sample.status_bits Sample.st_codes
                Sample.eia_plain Sample.ram Sample.ram_space
                _ reg_mask.MSR MSR_TU S'' Q'') as M1.
  pose proof (@load_then_store Sample.status_bits Sample.st_codes
                Sample.eia_plain Sample.ram Sample.ram_space
                _ reg_mask.MSR (Z.lor MSR_TU MSR_R) S'' Q'') as M2.
  cbv zeta in T, T', M1, M2.
  destruct T as (_ & _ & T & _).
  destruct T' as (_ & _ & _ & _ & T' & _).
  destruct M1 as (_ & _ & _ & M1 & _). destruct (M1 eq_refl) as (M1' & _).
  destruct M2 as (_ & _ & _ & M2 & _). destruct (M2 eq_refl) as (M2' & _).
  pose proof (T I) as T1. pose proof (T' eq_refl L) as T2.
  split; [exact S|]. split; [exact Q|]. split; [exact I|].
  split; [revert T1; vm_compute; exact (fun x => x)|].
  split; [exact Q'|]. split; [exact L|].
  split; [revert T2; vm_compute; exact (fun x => x)|].
  split; [exact S''|]. split; [exact Q''|].
  split; [vm_compute; reflexivity|].
  split; [revert M1'; vm_compute; exact (fun x => x)|].
  revert M2'; vm_compute; exact (fun x => x).
Defined.

(** C4, as stated, fails for the status/mode register: after a translation
    fault has set the error fields, loading MSR with 0 and storing it back
    stages the error fields, not [0 & MSR_WM]. *)
Lemma load_then_store_msr_keeps_status :
  let d := Sample.run (load_register reg_mask.MSR MSR_TS
                       ++ [Op_translate Sample.unmapped 0xa 0 false false false false])
             Sample.power_on in
  let d2 := Sample.run (load_register reg_mask.MSR 0
                        ++ store_register reg_mask.MSR 3) d in
  m_state d = IDLE
  /\ Z.land 0 (load_mask reg_mask.MSR) = 0
  /\ value (m_op2 d2) = 0x911
  /\ value (m_op2 d2) <> Z.land 0 (load_mask reg_mask.MSR).
Proof. vm_compute. repeat split. discriminate. Qed.

(** ** Undefined operations and protocol errors *)

Section Protocol.
Context {SSM : slave_status_mask} {STM : st_mask} {EIF : eia_interface}.
Context {space : Type} {AS : address_space space}.

(** [execute] on a sub-operation outside the four defined ones. *)
Lemma execute_undefined_operation (d : ns32082_device) :
  m_state d = OPERAND ->
  m_idbyte d = FORMAT_14 ->
  ~ In (sub_operation (m_opword d)) [0; 1; 2; 3] ->
  execute d = Ran tt (set_m_state STATUS (set_m_status 0 d)) [].
Proof.
  intros S I N. unfold execute. cbv zeta.
  cbn [m_idbyte m_opword set_m_status]. rewrite I.
  change (FORMAT_14 =? FORMAT_14) with true. cbv iota.
  rewrite BIT_sub_operation.
  case_subop (sub_operation (m_opword d));
    try (exfalso; apply N; cbn; tauto);
    cbn; rewrite S; reflexivity.
Qed.

(** C9: on a device driven from reset that awaits its operation word, an
    operation word whose sub-operation field is none of the four defined
    ones leaves every operand slot expecting zero bytes, is executed by
    that very write, and ends in STATUS with status word 0, nothing logged,
    no register touched and no result byte to read: the status read returns
    0 and goes to IDLE, and a result read returns 0. *)
Theorem undefined_operation_completes (d : ns32082_device) (data : Z) :
  reachable d ->
  m_state d = OPERATION ->
  ~ In (sub_operation (swapendian_int16 data)) [0; 1; 2; 3] ->
  let r := slow_write data d in
  let d' := dev r in
  r = Ran tt (dev (execute (write_opword data d))) []
  /\ d' = set_m_state STATUS (set_m_status 0 (write_opword data d))
  /\ m_state d' = STATUS /\ m_status d' = 0
  /\ m_opword d' = swapendian_int16 data
  /\ m_op0 d' = cleared /\ m_op1 d' = cleared /\ m_op2 d' = cleared
  /\ registers d' = registers d
  /\ slow_status None d' = Ran (0, None) (set_m_state IDLE d') []
  /\ slow_read d' = Ran 0 d' [read_protocol_error]
  /\ slow_read (set_m_state IDLE d')
     = Ran 0 (set_m_state IDLE d') [read_protocol_error].
Proof.
  intros R S N.
  pose proof (reachable_invariant d R) as I.
  unfold protocol_invariant in I. rewrite S in I.
  destruct (write_opword_decodes data d I)
    as (W1 & W2 & W3 & W4 & _ & _ & W7 & W8).
  destruct W8 as [(E & _) | [(E & _) | (_ & W5 & W6)]];
    [exfalso; apply N; rewrite ?E; cbn;
     destruct E as [E | [E | E]]; rewrite E; tauto
    | exfalso; apply N; rewrite E; cbn; tauto | ].
  assert (X : execute (write_opword data d)
              = Ran tt (set_m_state STATUS (set_m_status 0 (write_opword data d))) []).
  { apply execute_undefined_operation; try assumption. now rewrite W3. }
  assert (A : operands_available (write_opword data d) = true).
  { unfold operands_available. now rewrite W5, W4. }
  cbv zeta. unfold slow_write. rewrite S. cbn [fst snd].
  rewrite W1, A. cbn [state_eqb andb app]. rewrite X. cbn [dev diags].
  set (d1 := write_opword data d) in *.
  split; [reflexivity|]. split; [reflexivity|].
  split; [reflexivity|]. split; [reflexivity|].
  split; [exact W3|]. split; [exact W5|]. split; [exact W4|].
  split; [exact W6|]. split; [exact W7|].
  split; [|split; reflexivity].
  unfold slow_status. cbn [m_state set_m_state m_op2 set_m_status m_status m_tcy].
  rewrite W6. reflexivity.
Qed.

(** C7 (amended): a status read outside STATUS, a result read outside
    RESULT-with-bytes-pending and an unrecognised identification byte in
    IDLE return 0 where a value is expected and leave the whole device
    unchanged.  An operand write with no input slot incomplete cannot
    arise on a device driven from reset (in OPERAND some input slot is
    incomplete); on such a state the write would be logged and execution
    started.  An unknown register selector in load or store is logged and
    leaves every register and operand slot unchanged, but the operation
    completes as usual: status word 0, cycle count set, state STATUS. *)
Theorem protocol_errors (d : ns32082_device) (data : Z) (icount : option Z) :
  (m_state d <> STATUS ->
   slow_status icount d = Ran (0, icount) d [status_protocol_error])
  /\ (~ (m_state d = RESULT /\ issued (m_op2 d) < expected (m_op2 d)) ->
      slow_read d = Ran 0 d [read_protocol_error])
  /\ (m_state d = IDLE -> data <> FORMAT_14 -> slow_write data d = Ran tt d [])
  /\ (reachable d -> m_state d = OPERAND -> operands_available d = false)
  /\ (m_state d = OPERAND -> operands_available d = true ->
      slow_write data d
      = Ran tt (dev (execute d)) (write_protocol_error data :: diags (execute d)))
  /\ (m_state d = OPERAND -> m_idbyte d = FORMAT_14 ->
      is_defined_register (BIT (m_opword d) 7 4) = false ->
      (BIT (m_opword d) 2 4 = 2 ->
       execute d
       = Ran tt (set_m_state STATUS (set_m_tcy 30 (set_m_status 0 d)))
           [lmr_unknown_register (BIT (m_opword d) 7 4)])
      /\ (BIT (m_opword d) 2 4 = 3 ->
          execute d
          = Ran tt (set_m_state STATUS (set_m_tcy 25 (set_m_status 0 d)))
              [smr_unknown_register (BIT (m_opword d) 7 4)])).
Proof.
  split; [|split; [|split; [|split; [|split]]]].
  - intros N. unfold slow_status. destruct (m_state d); try reflexivity.
    contradiction.
  - intros N. unfold slow_read.
    destruct (state_eqb (m_state d) RESULT) eqn:S; [|reflexivity].
    apply state_eqb_eq in S.
    destruct (Z.ltb_spec (issued (m_op2 d)) (expected (m_op2 d))) as [L | L];
      [|reflexivity].
    exfalso. apply N. split; assumption.
  - intros S N. unfold slow_write. rewrite S.
    destruct (Z.eqb_spec data FORMAT_14) as [E | E]; [contradiction|].
    cbn. rewrite S. reflexivity.
  - intros R S. pose proof (reachable_invariant d R) as I.
    unfold protocol_invariant in I. rewrite S in I. apply I.
  - intros S A. unfold slow_write. rewrite S. unfold write_operand.
    rewrite incomplete_iff_unavailable, A. cbn. rewrite S, A. reflexivity.
  - intros S I U. split; intros B; unfold execute; cbv zeta;
      cbn [m_idbyte m_opword set_m_status]; rewrite I, B;
      change (FORMAT_14 =? FORMAT_14) with true; cbv iota;
      rewrite ?(lmr_undefined _ _ U), ?(smr_undefined _ _ U);
      cbn; rewrite S; reflexivity.
Qed.

(** C2, where the code falls short: a store-register of one byte (size
    field 0) on a reset device stages one expected byte; the result read
    returns the low word of the register and takes the issued count from 0
    to 2, which never equals 1, so the Protocol Engine stays in RESULT.
    From there every bus access is refused or discarded: only a reset
    brings the device back. *)
Theorem odd_result_count_stalls (d : ns32082_device) :
  let d1 := run (store_register reg_mask.BPR0 0 ++ [Op_status None])
              (device_reset d) in
  let r := slow_read d1 in
  m_state d1 = RESULT
  /\ expected (m_op2 d1) = 1 /\ issued (m_op2 d1) = 0
  /\ ret r = u16 (m_bpr0 d) /\ diags r = []
  /\ issued (m_op2 (dev r)) = 2
  /\ m_state (dev r) = RESULT
  /\ slow_read (dev r) = Ran 0 (dev r) [read_protocol_error]
  /\ (forall icount,
        slow_status icount (dev r) = Ran (0, icount) (dev r) [status_protocol_error])
  /\ (forall data, slow_write data (dev r) = Ran tt (dev r) []).
Proof.
  destruct d. cbv zeta.
  split; [reflexivity|]. split; [reflexivity|]. split; [reflexivity|].
  split; [reflexivity|]. split; [reflexivity|].
  split; [vm_compute; reflexivity|].
  split; [vm_compute; reflexivity|].
  split; [vm_compute; reflexivity|].
  split; intros; vm_compute; reflexivity.
Qed.

(** The even counts behave as the spec has it: a valid result read returns
    the next word, advances the issued count by 2 and goes to IDLE exactly
    when the count then equals the expected one. *)
Lemma slow_read_valid (d : ns32082_device) :
  m_state d = RESULT ->
  issued (m_op2 d) < expected (m_op2 d) ->
  let r := slow_read d in
  ret r = u16 (Z.shiftr (value (m_op2 d)) (issued (m_op2 d) * 8))
  /\ issued (m_op2 (dev r)) = u32 (issued (m_op2 d) + 2)
  /\ m_state (dev r)
     = (if u32 (issued (m_op2 d) + 2) =? expected (m_op2 d) then IDLE else RESULT)
  /\ diags r = [].
Proof.
  intros S L. cbv zeta. unfold slow_read. rewrite S.
  apply Z.ltb_lt in L. rewrite L. cbn.
  destruct (u32 (issued (m_op2 d) + 2) =? expected (m_op2 d)); cbn;
    rewrite ?S; repeat split.
Qed.

End Protocol.

Lemma undefined_operation_completes_witness :
  let d := Sample.run [Op_write FORMAT_14] (device_reset Sample.power_on) in
  let data := on_bus (opword_of 5 0 0) in
  @reachable Sample.status_bits Sample.st_codes Sample.eia_plain Sample.ram
    Sample.ram_space d
  /\ m_state d = OPERATION
  /\ ~ In (sub_operation (swapendian_int16 data)) [0; 1; 2; 3]
  /\ m_state (dev (Sample.slow_write data d)) = STATUS
  /\ m_status (dev (Sample.slow_write data d)) = 0
  /\ m_op2 (dev (Sample.slow_write data d)) = cleared.
Proof.
  cbv zeta.
  assert (R : @reachable Sample.status_bits Sample.st_codes Sample.eia_plain
                Sample.ram Sample.ram_space
                (Sample.run [Op_write FORMAT_14] (device_reset Sample.power_on))).
  { unfold Sample.run. apply reachable_run. apply reachable_reset. }
  assert (N : ~ In (sub_operation (swapendian_int16 (on_bus (opword_of 5 0 0))))
                [0; 1; 2; 3]).
  { vm_compute. intuition discriminate. }
  pose proof (@undefined_operation_completes Sample.status_bits Sample.st_codes
                Sample.eia_plain Sample.ram Sample.ram_space
                (Sample.run [Op_write FORMAT_14] (device_reset Sample.power_on))
                (on_bus (opword_of 5 0 0)) R eq_refl N) as T.
  cbv zeta in T.
  destruct T as (_ & _ & T3 & T4 & _ & _ & _ & T8 & _).
  split; [exact R|]. split; [reflexivity|]. split; [exact N|].
  split; [exact T3|]. split; [exact T4 | exact T8].
Defined.

Lemma protocol_errors_witness :
  m_state Sample.power_on <> STATUS
  /\ slow_status None Sample.power_on
     = Ran (0, None) Sample.power_on [status_protocol_error].
Proof.
  assert (N : m_state Sample.power_on <> STATUS) by discriminate.
  split; [exact N|].
  exact (proj1 (@protocol_errors Sample.status_bits Sample.st_codes
                  Sample.eia_plain Sample.ram Sample.ram_space
                  Sample.power_on 0 None) N).
Defined.

(** C7, as stated, fails for the unknown register selector.  A
    store-register with selector 2 is reported and moves the Protocol
    Engine from OPERATION to STATUS; a load-register with selector 2 is
    reported on its operand word and moves it from OPERAND to STATUS, the
    operand slot having taken the word. *)
Lemma unknown_selector_changes_state :
  let d := Sample.run [Op_write FORMAT_14] Sample.power_on in
  let r := Sample.slow_write (on_bus (opword_of 3 2 3)) d in
  let d' := Sample.run [Op_write FORMAT_14; Op_write (on_bus (opword_of 2 2 1))]
              Sample.power_on in
  let r' := Sample.slow_write 0x1234 d' in
  is_defined_register 2 = false
  /\ m_state d = OPERATION
  /\ diags r = [smr_unknown_register 2]
  /\ m_state (dev r) = STATUS
  /\ m_state d' = OPERAND
  /\ diags r' = [lmr_unknown_register 2]
  /\ m_state (dev r') = STATUS
  /\ m_op0 d' = mk_operand 2 0 0
  /\ m_op0 (dev r') = mk_operand 2 2 0x1234.
Proof. vm_compute. repeat split. Qed.

(** * Further properties *)

(** ** What a translation leaves alone *)

Section TranslateFrame.
Context {SSM : slave_status_mask} {STM : st_mask} {EIF : eia_interface}.
Context {space : Type} {AS : address_space space}.

Lemma record_fault_untouched tet st address sel write level pte d :
  let d' := record_fault tet st address sel write level pte d in
  untranslated_registers d' = untranslated_registers d
  /\ m_pf0 d' = m_pf0 d /\ m_pf1 d' = m_pf1 d /\ m_sc d' = m_sc d
  /\ m_tcy d' = m_tcy d.
Proof.
  unfold record_fault. cbv zeta.
  destruct (Z.land pte PTE_PL <? level), (negb (nz (Z.land pte PTE_V)));
    repeat split.
Qed.

Lemma flow_trace_untouched st address pfs d :
  untranslated_registers (flow_trace st address pfs d) = untranslated_registers d.
Proof.
  pose proof (flow_trace_frame st address pfs d) as F. cbv zeta in F.
  unfold untranslated_registers.
  destruct F as (_ & -> & -> & _ & _ & _ & _ & _ & _ & _ & _ & _ & -> & -> & ->).
  reflexivity.
Qed.

Ltac shape_cases :=
  first [ left; reflexivity
        | right; left; reflexivity
        | right; right; left; reflexivity
        | right; right; right; reflexivity ].

(** The device a walk returns is the device it was given, up to a recorded
    fault, a state change and a raised fault flag. *)
Lemma walk_device_shape (d : ns32082_device) (sp : space) (st address : Z)
    (user write suppress : bool) :
  let d' := device_out (walk d sp st address user write suppress) in
  exists d0,
    (d0 = d \/ exists tet sel w level pte,
                 (tet = TET_IL1 \/ tet = TET_IL2)
                 /\ d0 = record_fault tet st address sel w level pte d)
    /\ (d' = d0 \/ d' = set_m_state STATUS d0 \/ d' = set_m_state IDLE d0
        \/ d' = raise_fault_flag (set_m_state STATUS d0)).
Proof.
  cbv zeta. unfold walk. cbv zeta.
  repeat match goal with
         | |- context [if ?c then _ else _] =>
             lazymatch c with
             | context [if _ then _ else _] => fail
             | _ => destruct c
             end
         end; cbn [device_out];
    first
      [ exists d; split; [left; reflexivity|]; shape_cases
      | match goal with
        | |- context [record_fault ?a ?b ?c ?e ?f ?g ?h ?i] =>
            exists (record_fault a b c e f g h i);
            split;
            [ right; do 5 eexists; (split; [|reflexivity]);
              first [left; reflexivity | right; reflexivity]
            | shape_cases ]
        end ].
Qed.

Lemma translate_frame (d : ns32082_device) (sp : space) (st address : Z)
    (user write pfs suppress : bool) :
  let d' := device_out (translate d sp st address user write pfs suppress) in
  untranslated_registers d' = untranslated_registers d
  /\ m_idbyte d' = m_idbyte d /\ m_opword d' = m_opword d
  /\ m_op0 d' = m_op0 d /\ m_op1 d' = m_op1 d /\ m_op2 d' = m_op2 d
  /\ m_tcy d' = m_tcy d.
Proof.
  cbv zeta. unfold translate.
  pose proof (flow_trace_frame st address pfs d) as F. cbv zeta in F.
  pose proof (flow_trace_untouched st address pfs d) as U.
  set (d1 := flow_trace st address pfs d) in *.
  destruct F as (_ & _ & _ & _ & _ & F6 & F7 & F8 & F9 & F10 & F11 & _).
  destruct (untranslated d1 user); cbn [device_out]; [tauto|].
  destruct (walk_device_shape d1 sp st address user write suppress)
    as (d0 & D0 & D').
  assert (K : untranslated_registers d0 = untranslated_registers d1
              /\ m_idbyte d0 = m_idbyte d1 /\ m_opword d0 = m_opword d1
              /\ m_op0 d0 = m_op0 d1 /\ m_op1 d0 = m_op1 d1
              /\ m_op2 d0 = m_op2 d1 /\ m_tcy d0 = m_tcy d1).
  { destruct D0 as [-> | (tet & sel & w & level & pte & _ & ->)]; [tauto|].
    pose proof (record_fault_view tet st address sel w level pte d1) as V.
    pose proof (record_fault_untouched tet st address sel w level pte d1) as R.
    cbv zeta in R. unfold protocol_view in V.
    injection V as _ V2 V3 V4 V5 V6 _. tauto. }
  destruct K as (K1 & K2 & K3 & K4 & K5 & K6 & K7).
  destruct D' as [-> | [-> | [-> | ->]]]; cbn;
    rewrite ?K2, ?K3, ?K4, ?K5, ?K6, ?K7, ?F6, ?F7, ?F8, ?F9, ?F10, ?F11;
    (split; [|tauto]);
    (transitivity (untranslated_registers d0);
     [reflexivity | now rewrite K1, U]).
Qed.

(** X3: [translate] never assigns the breakpoint registers, the breakpoint
    counter, the page-table-base registers, the latched identification byte
    and operation word, the operand slots or the cycle cost. *)
Theorem translate_untouched (d : ns32082_device) (sp : space) (st address : Z)
    (user write pfs suppress : bool) :
  let d' := device_out (translate d sp st address user write pfs suppress) in
  untranslated_registers d' = untranslated_registers d
  /\ m_idbyte d' = m_idbyte d /\ m_opword d' = m_opword d
  /\ m_op0 d' = m_op0 d /\ m_op1 d' = m_op1 d /\ m_op2 d' = m_op2 d
  /\ m_tcy d' = m_tcy d.
Proof. apply translate_frame. Qed.

(** X4: outside a validate operation [translate] leaves the protocol
    engine alone: state, identification byte, operation word, operand
    slots and staged status word are as they were. *)
Theorem translate_leaves_protocol (d : ns32082_device) (sp : space)
    (st address : Z) (user write pfs suppress : bool) :
  m_state d <> RDVAL -> m_state d <> WRVAL ->
  protocol_view (device_out (translate d sp st address user write pfs suppress))
  = protocol_view d.
Proof.
  intros NR NW.
  destruct (translate_protocol d sp st address user write pfs suppress)
    as [V | (V & _)]; [exact V|].
  unfold validating in V. destruct (m_state d); try discriminate V;
    contradiction.
Qed.

(** X5: a suppressed translation that is no instruction fetch, made while
    no validate is pending, is a pure probe: the device and the address
    space come back exactly as they were passed. *)
Theorem translate_probe_is_pure (d : ns32082_device) (sp : space)
    (st address : Z) (user write : bool) :
  m_state d <> RDVAL -> m_state d <> WRVAL ->
  let t := translate d sp st address user write false true in
  device_out t = d /\ space_out t = sp.
Proof.
  intros NR NW. cbv zeta. unfold translate.
  change (flow_trace st address false d) with d.
  destruct (untranslated d user); [split; reflexivity|].
  pose proof (walk_suppressed d sp st address user write) as W.
  cbv zeta in W. destruct W as (W1 & _ & W3).
  split; [apply W3 | exact W1].
  unfold validating.
  destruct (m_state d); try reflexivity; contradiction.
Qed.

(** X1: on a device driven from reset, the protocol state tells what has
    been latched.  Awaiting the operation word, the identification byte is
    that of format 14.  Awaiting operands, some input slot is incomplete
    and no result byte has been issued.  While a validate is pending, the
    output slot expects nothing and the staged status word is 0. *)
Theorem protocol_state_invariant (d : ns32082_device) :
  reachable d ->
  (m_state d = OPERATION -> m_idbyte d = FORMAT_14)
  /\ (m_state d = OPERAND ->
      m_idbyte d = FORMAT_14
      /\ (issued (m_op0 d) < expected (m_op0 d)
          \/ issued (m_op1 d) < expected (m_op1 d))
      /\ issued (m_op2 d) = 0)
  /\ (m_state d = RDVAL \/ m_state d = WRVAL ->
      expected (m_op2 d) = 0 /\ issued (m_op2 d) = 0 /\ m_status d = 0).
Proof.
  intros R. pose proof (reachable_invariant d R) as I.
  unfold protocol_invariant in I.
  split; [|split].
  - intros S. now rewrite S in I.
  - intros S. rewrite S in I. destruct I as (I1 & I2 & I3 & _).
    split; [exact I1|]. split; [|exact I3].
    pose proof (incomplete_iff_unavailable d) as Q. rewrite I2 in Q.
    apply orb_true_iff in Q. destruct Q as [Q | Q]; apply Z.ltb_lt in Q; tauto.
  - intros [S | S]; now rewrite S in I.
Qed.

End TranslateFrame.

(** ** Fault reporting *)

Ltac closed_term a :=
  tryif (match a with context [?v] => is_var v end) then fail else idtac.

(** Evaluate the conjunctions of two constants. *)
Ltac closed_land :=
  repeat match goal with
         | |- context [Z.land ?a ?b] =>
             closed_term a; closed_term b;
             lazymatch a with
             | Z.land _ _ => fail
             | _ => idtac
             end;
             let v := eval vm_compute in (Z.land a b) in
             progress change (Z.land a b) with v
         end.

(** Extract a field, by mask, from a disjunction of masked pieces. *)
Ltac mask_field :=
  rewrite ?Z.land_lor_distr_l, <- ?Z.land_assoc;
  closed_land;
  rewrite ?Z.land_0_r, ?Z.lor_0_r, ?Z.lor_0_l.

(** The bus status code sits in the error-status field, bits 10 to 12. *)
Lemma est_field (st : Z) :
  u32 (Z.shiftl (Z.land st 7) 10) = Z.land (Z.shiftl st 10) MSR_EST.
Proof.
  rewrite u32_land, Z.shiftl_land.
  change (Z.shiftl 7 10) with MSR_EST.
  rewrite <- Z.land_assoc. reflexivity.
Qed.

Section FaultReport.
Context {SSM : slave_status_mask} {STM : st_mask}.
Context {space : Type} {AS : address_space space}.

(** The status/mode register a recorded fault leaves: the old contents
    without the error fields, then direction, status code, error flag and
    error type. *)
Lemma record_fault_msr tet st address sel write level pte d :
  m_msr (record_fault tet st address sel write level pte d)
  = Z.lor
      (Z.lor
         (Z.lor (Z.land (m_msr d) (not32 MSR_error_fields))
            (Z.lor (Z.lor (if write then 0 else MSR_ED)
                          (Z.land (Z.shiftl st 10) MSR_EST)) MSR_TE))
         (if Z.land pte PTE_PL <? level then TET_PL else 0))
      (if negb (nz (Z.land pte PTE_V)) then tet else 0).
Proof.
  unfold record_fault. cbv zeta. rewrite <- est_field.
  destruct (Z.land pte PTE_PL <? level), (negb (nz (Z.land pte PTE_V)));
    cbn [m_msr set_m_msr set_m_eia]; rewrite ?Z.lor_0_r; reflexivity.
Qed.

Lemma record_fault_eia tet st address sel write level pte d :
  m_eia (record_fault tet st address sel write level pte d)
  = Z.lor (if sel then EIA_AS else 0) (Z.land address EIA_VA).
Proof.
  unfold record_fault. cbv zeta.
  destruct (Z.land pte PTE_PL <? level), (negb (nz (Z.land pte PTE_V)));
    reflexivity.
Qed.

Lemma record_fault_state tet st address sel write level pte d :
  m_state (record_fault tet st address sel write level pte d) = m_state d.
Proof.
  unfold record_fault. cbv zeta.
  destruct (Z.land pte PTE_PL <? level), (negb (nz (Z.land pte PTE_V)));
    reflexivity.
Qed.

Lemma record_fault_keeps_mode tet st address sel write level pte d :
  tet = TET_IL1 \/ tet = TET_IL2 ->
  Z.land (m_msr (record_fault tet st address sel write level pte d))
         (not32 MSR_error_fields)
  = Z.land (m_msr d) (not32 MSR_error_fields).
Proof.
  intros T. rewrite record_fault_msr.
  destruct write, (Z.land pte PTE_PL <? level), (negb (nz (Z.land pte PTE_V)));
    destruct T as [-> | ->]; mask_field; reflexivity.
Qed.

Lemma translate_msr_mode (d : ns32082_device) (sp : space)
    (st address : Z) (user write pfs suppress : bool) :
  let d' := device_out (translate d sp st address user write pfs suppress) in
  Z.land (m_msr d') (not32 MSR_error_fields)
  = Z.land (m_msr d) (not32 MSR_error_fields).
Proof.
  cbv zeta. unfold translate.
  assert (M : m_msr (flow_trace st address pfs d) = m_msr d)
    by apply flow_trace_msr.
  set (d1 := flow_trace st address pfs d) in *. rewrite <- M.
  destruct (untranslated d1 user); [reflexivity|].
  destruct (walk_device_shape d1 sp st address user write suppress)
    as (d0 & D0 & D').
  assert (K : Z.land (m_msr d0) (not32 MSR_error_fields)
              = Z.land (m_msr d1) (not32 MSR_error_fields)).
  { destruct D0 as [-> | (tet & sel & w & level & pte & T & ->)];
      [reflexivity | now apply record_fault_keeps_mode]. }
  destruct D' as [-> | [-> | [-> | ->]]]; exact K.
Qed.

(** X6: whatever its outcome, [translate] changes the status/mode register
    in the error fields only (error status, error direction, error type,
    error flag): every mode bit, the translation enables among them, is as
    it was. *)
Theorem translate_keeps_mode_bits (d : ns32082_device) (sp : space)
    (st address : Z) (user write pfs suppress : bool) :
  let d' := device_out (translate d sp st address user write pfs suppress) in
  Z.land (m_msr d') (not32 MSR_error_fields)
  = Z.land (m_msr d) (not32 MSR_error_fields)
  /\ untranslated d' user = untranslated d user
  /\ address_space_of d' user = address_space_of d user.
Proof.
  cbv zeta.
  pose proof (translate_msr_mode d sp st address user write pfs suppress) as M.
  cbv zeta in M. split; [exact M|].
  assert (B : forall b, Z.land b (not32 MSR_error_fields) = b ->
              Z.land (m_msr (device_out
                        (translate d sp st address user write pfs suppress))) b
              = Z.land (m_msr d) b).
  { intros b E. rewrite <- E, (Z.land_comm b), !Z.land_assoc, M.
    reflexivity. }
  unfold untranslated, address_space_of.
  rewrite (B MSR_TU eq_refl), (B MSR_TS eq_refl), (B MSR_DS eq_refl).
  split; reflexivity.
Qed.

(** X7: an ordinary translation (no validate pending, side effects not
    suppressed) whose level-1 entry fails the check returns ABORT after
    that one read, writes nothing, and reports the fault: the error flag is
    set, the error status holds the low three bits of the bus status code,
    the error direction is set for a read, the error type says protection
    and/or invalid level 1, and the error address register holds the
    24-bit virtual address with the address-space bit. *)
Theorem level1_fault_report (d : ns32082_device) (sp : space) (st address : Z)
    (user write pfs : bool) :
  m_state d = IDLE ->
  untranslated d user = false ->
  denied (level_of d st user write) (pte1_of d sp address user) = true ->
  let t := translate d sp st address user write pfs false in
  let d' := device_out t in
  result t = ABORT /\ address_out t = address /\ space_out t = sp
  /\ accesses t = [Read_dword (pte1_address_of d address user)]
  /\ m_state d' = IDLE
  /\ m_eia d'
     = Z.lor (if address_space_of d user then EIA_AS else 0)
             (Z.land address EIA_VA)
  /\ Z.land (m_msr d') MSR_TE = MSR_TE
  /\ Z.land (m_msr d') MSR_EST = Z.land (Z.shiftl st 10) MSR_EST
  /\ Z.land (m_msr d') MSR_ED = (if write then 0 else MSR_ED)
  /\ Z.land (m_msr d') MSR_TET
     = Z.lor (if Z.land (pte1_of d sp address user) PTE_PL
                 <? level_of d st user write then TET_PL else 0)
             (if nz (Z.land (pte1_of d sp address user) PTE_V)
              then 0 else TET_IL1).
Proof.
  intros S U D.
  assert (W : effective_write d write = write).
  { unfold effective_write. rewrite S. apply orb_false_r. }
  assert (V : validating d = false) by (unfold validating; now rewrite S).
  unfold level_of, pte1_of in *. rewrite W in D.
  cbv zeta. unfold translate.
  rewrite flow_trace_untranslated, U. unfold walk. cbv zeta.
  rewrite flow_trace_effective_write, flow_trace_access_level,
    flow_trace_pte1_address, W, D, flow_trace_state, S.
  cbn [state_eqb negb andb].
  rewrite validating_record_fault, flow_trace_validating, V.
  cbn [result address_out space_out accesses device_out].
  rewrite record_fault_eia, record_fault_msr, flow_trace_msr.
  assert (A : address_space_of (flow_trace st address pfs d) user
              = address_space_of d user)
    by (unfold address_space_of; now rewrite flow_trace_msr).
  rewrite A.
  rewrite record_fault_state, flow_trace_state.
  repeat (split; [first [reflexivity | exact S]|]).
  destruct write,
    (Z.land (u32 (read_dword sp (pte1_address_of d address user))) PTE_PL
       <? access_level_of d st user _),
    (nz (Z.land (u32 (read_dword sp (pte1_address_of d address user))) PTE_V));
    cbn [negb]; repeat split; mask_field; reflexivity.
Qed.

(** X8: an ordinary translation whose level-1 entry passes and whose
    level-2 entry fails the check returns ABORT and reports the fault with
    error type protection and/or invalid level 2.  By then the level-1
    entry has been marked referenced if it was not: that write is the only
    one made. *)
Theorem level2_fault_report (d : ns32082_device) (sp : space) (st address : Z)
    (user write pfs : bool) :
  m_state d = IDLE ->
  untranslated d user = false ->
  denied (level_of d st user write) (pte1_of d sp address user) = false ->
  denied (level_of d st user write) (pte2_of d sp address user false) = true ->
  let t := translate d sp st address user write pfs false in
  let d' := device_out t in
  let pte1 := pte1_of d sp address user in
  let pte2 := pte2_of d sp address user false in
  result t = ABORT /\ address_out t = address
  /\ space_out t = space_after_pte1 d sp address user false
  /\ accesses t
     = Read_dword (pte1_address_of d address user)
       :: (if nz (Z.land pte1 PTE_R) then []
           else [Write_word (pte1_address_of d address user)
                   (u16 (Z.lor pte1 PTE_R))])
       ++ [Read_dword (pte2_address_of pte1 address)]
  /\ m_state d' = IDLE
  /\ m_eia d'
     = Z.lor (if address_space_of d user then EIA_AS else 0)
             (Z.land address EIA_VA)
  /\ Z.land (m_msr d') MSR_TE = MSR_TE
  /\ Z.land (m_msr d') MSR_EST = Z.land (Z.shiftl st 10) MSR_EST
  /\ Z.land (m_msr d') MSR_ED = (if write then 0 else MSR_ED)
  /\ Z.land (m_msr d') MSR_TET
     = Z.lor (if Z.land pte2 PTE_PL <? level_of d st user write
              then TET_PL else 0)
             (if nz (Z.land pte2 PTE_V) then 0 else TET_IL2).
Proof.
  intros S U D1 D2.
  assert (W : effective_write d write = write).
  { unfold effective_write. rewrite S. apply orb_false_r. }
  assert (V : validating d = false) by (unfold validating; now rewrite S).
  unfold pte2_of, space_after_pte1 in *. cbv zeta in *.
  unfold level_of, pte1_of in *. rewrite W in D1, D2.
  cbn [negb] in D2. rewrite andb_true_r in D2.
  cbv zeta. unfold translate.
  rewrite flow_trace_untranslated, U. unfold walk. cbv zeta.
  rewrite flow_trace_effective_write, flow_trace_access_level,
    flow_trace_pte1_address, W, D1.
  cbn [negb]. rewrite !andb_true_r, D2, flow_trace_state, S.
  cbn [state_eqb].
  rewrite validating_record_fault, flow_trace_validating, V.
  cbn [result address_out space_out accesses device_out].
  rewrite record_fault_eia, record_fault_msr, flow_trace_msr,
    record_fault_state, flow_trace_state.
  assert (A : address_space_of (flow_trace st address pfs d) user
              = address_space_of d user)
    by (unfold address_space_of; now rewrite flow_trace_msr).
  rewrite A.
  set (p1 := u32 (read_dword sp (pte1_address_of d address user))) in *.
  split; [reflexivity|]. split; [reflexivity|]. split; [reflexivity|].
  split; [destruct (nz (Z.land p1 PTE_R)); reflexivity|].
  split; [exact S|]. split; [reflexivity|].
  match goal with
  | |- context [nz (Z.land ?p PTE_V)] =>
      lazymatch p with
      | p1 => fail
      | _ => set (p2 := p) in *
      end
  end.
  destruct write, (Z.land p2 PTE_PL <? access_level_of d st user _),
    (nz (Z.land p2 PTE_V));
    cbn [negb]; repeat split; mask_field; reflexivity.
Qed.

End FaultReport.

(** ** Completed translations *)

Lemma lor_land_absorb (p m : Z) : Z.lor (Z.land p m) m = m.
Proof.
  apply Z.bits_inj'. intros n _. rewrite Z.lor_spec, Z.land_spec.
  destruct (Z.testbit p n), (Z.testbit m n); reflexivity.
Qed.

(** A single-bit field that is not zero is the bit. *)
Lemma single_bit_set (p k : Z) :
  0 <= k -> nz (Z.land p (2 ^ k)) = true -> Z.land p (2 ^ k) = 2 ^ k.
Proof.
  intros K N. unfold nz in N. apply negb_true_iff, Z.eqb_neq in N.
  apply Z.bits_inj'. intros n _. rewrite Z.land_spec.
  destruct (Z.eq_dec n k) as [-> | D].
  - destruct (Z.testbit p k) eqn:B; [reflexivity|].
    exfalso. apply N. apply Z.bits_inj'. intros m _.
    rewrite Z.land_spec, Z.bits_0.
    destruct (Z.eq_dec m k) as [-> | D]; [now rewrite B|].
    rewrite (Z.pow2_bits_false k m) by lia. apply andb_false_r.
  - rewrite (Z.pow2_bits_false k n) by lia. apply andb_false_r.
Qed.

Section Completed.
Context {SSM : slave_status_mask} {STM : st_mask} {EIF : eia_interface}.
Context {space : Type} {AS : address_space space}.

(** The path of [translate] on which both entries pass the check. *)
Lemma translate_completes (d : ns32082_device) (sp : space) (st address : Z)
    (user write pfs suppress : bool) :
  untranslated d user = false ->
  denied (level_of d st user write) (pte1_of d sp address user) = false ->
  denied (level_of d st user write) (pte2_of d sp address user suppress) = false ->
  let t := translate d sp st address user write pfs suppress in
  let d1 := flow_trace st address pfs d in
  let pte1 := pte1_of d sp address user in
  let pte2 := pte2_of d sp address user suppress in
  let mark2 :=
    (negb (nz (Z.land pte2 PTE_R))
     || (effective_write d write && negb (nz (Z.land pte2 PTE_M))))
    && negb suppress in
  let word2 :=
    u16 (Z.lor (Z.lor pte2 (if effective_write d write then PTE_M else 0)) PTE_R) in
  result t = COMPLETE
  /\ address_out t
     = Z.lor (Z.lor (Z.shiftr (Z.land pte1 PTE_MS) 7) (Z.land pte2 PTE_PFN))
             (Z.land address VA_OFFSET)
  /\ device_out t = (if validating d then set_m_state STATUS d1 else d1)
  /\ accesses t
     = (Read_dword (pte1_address_of d address user)
        :: (if negb (nz (Z.land pte1 PTE_R)) && negb suppress
            then [Write_word (pte1_address_of d address user)
                    (u16 (Z.lor pte1 PTE_R))]
            else [])
        ++ [Read_dword (pte2_address_of pte1 address)])
       ++ (if mark2
           then [Write_word (pte2_address_of pte1 address) word2] else []).
Proof.
  intros U D1 D2.
  unfold pte2_of, space_after_pte1 in *. cbv zeta in *.
  unfold level_of, pte1_of in *.
  cbv zeta. unfold translate.
  rewrite flow_trace_untranslated, U. unfold walk. cbv zeta.
  rewrite flow_trace_effective_write, flow_trace_access_level,
    flow_trace_pte1_address, D1, D2, flow_trace_validating.
  cbn [result address_out device_out accesses].
  repeat split.
Qed.

(** X9: a completed translation keeps the page offset (the low nine bits of
    the virtual address), takes the frame number from the level-2 entry
    and the memory-system bit from the level-1 entry, and yields an address
    below 2^25.  It records no fault: the status/mode register and the
    error address register are as they were. *)
Theorem translate_physical_address (d : ns32082_device) (sp : space)
    (st address : Z) (user write pfs suppress : bool) :
  untranslated d user = false ->
  denied (level_of d st user write) (pte1_of d sp address user) = false ->
  denied (level_of d st user write) (pte2_of d sp address user suppress) = false ->
  let t := translate d sp st address user write pfs suppress in
  result t = COMPLETE
  /\ Z.land (address_out t) VA_OFFSET = Z.land address VA_OFFSET
  /\ Z.land (address_out t) PTE_PFN
     = Z.land (pte2_of d sp address user suppress) PTE_PFN
  /\ Z.testbit (address_out t) 24
     = Z.testbit (pte1_of d sp address user) 31
  /\ 0 <= address_out t < 2 ^ 25
  /\ m_msr (device_out t) = m_msr d
  /\ m_eia (device_out t) = m_eia d.
Proof.
  intros U D1 D2.
  destruct (translate_completes d sp st address user write pfs suppress U D1 D2)
    as (R & A & D & _).
  cbv zeta. rewrite R, A, D. clear R A D.
  set (p1 := pte1_of d sp address user).
  set (p2 := pte2_of d sp address user suppress).
  assert (MS : Z.shiftr (Z.land p1 PTE_MS) 7
               = Z.land (Z.shiftr p1 7) 0x1000000).
  { rewrite Z.shiftr_land. reflexivity. }
  rewrite MS.
  split; [reflexivity|].
  split; [mask_field; reflexivity|].
  split; [mask_field; reflexivity|].
  split.
  { rewrite !Z.lor_spec, !Z.land_spec, Z.shiftr_spec by lia.
    change (24 + 7) with 31.
    change (Z.testbit 16777216 24) with true.
    change (Z.testbit PTE_PFN 24) with false.
    change (Z.testbit VA_OFFSET 24) with false.
    now rewrite !andb_false_r, !orb_false_r, andb_true_r. }
  split.
  { set (a := Z.lor (Z.lor (Z.land (Z.shiftr p1 7) 16777216) (Z.land p2 PTE_PFN))
                    (Z.land address VA_OFFSET)).
    assert (E : Z.land a (Z.ones 25) = a).
    { subst a. mask_field. reflexivity. }
    rewrite <- E, Z.land_ones by lia. apply Z.mod_pos_bound. lia. }
  destruct (validating d); split;
    cbn [m_msr m_eia set_m_state];
    first [apply flow_trace_msr | apply flow_trace_frame].
Qed.

(** X10: a completed translation of a write access (or of any access while
    a write-validate is pending), side effects not suppressed, leaves the
    level-2 entry marked: either the entry read already had its referenced
    and modified bits, and nothing is written to it, or the last access is
    a write to it of its low word with both bits set. *)
Theorem write_marks_modified (d : ns32082_device) (sp : space)
    (st address : Z) (user write pfs : bool) :
  untranslated d user = false ->
  effective_write d write = true ->
  denied (level_of d st user write) (pte1_of d sp address user) = false ->
  denied (level_of d st user write) (pte2_of d sp address user false) = false ->
  let t := translate d sp st address user write pfs false in
  let pte2 := pte2_of d sp address user false in
  let a2 := pte2_address_of (pte1_of d sp address user) address in
  (Z.land pte2 (Z.lor PTE_M PTE_R) = Z.lor PTE_M PTE_R
   /\ last (accesses t) (Read_dword 0) = Read_dword a2)
  \/ (exists w,
        last (accesses t) (Read_dword 0) = Write_word a2 w
        /\ Z.land w (Z.lor PTE_M PTE_R) = Z.lor PTE_M PTE_R
        /\ Z.land w (Z.lnot (Z.lor PTE_M PTE_R))
           = Z.land (u16 pte2) (Z.lnot (Z.lor PTE_M PTE_R))).
Proof.
  intros U W D1 D2.
  destruct (translate_completes d sp st address user write pfs false U D1 D2)
    as (_ & _ & _ & A).
  cbv zeta in *. rewrite A, W. clear A.
  set (p2 := pte2_of d sp address user false).
  cbn [negb andb]. rewrite !andb_true_r.
  destruct (nz (Z.land p2 PTE_R)) eqn:R, (nz (Z.land p2 PTE_M)) eqn:M;
    cbn [negb orb].
  - left. split.
    + pose proof (single_bit_set p2 4 ltac:(lia) M) as M'.
      pose proof (single_bit_set p2 3 ltac:(lia) R) as R'.
      change (2 ^ 4) with PTE_M in M'. change (2 ^ 3) with PTE_R in R'.
      rewrite Z.land_lor_distr_r, M', R'. reflexivity.
    + rewrite app_nil_r, app_comm_cons. apply last_last.
  - right. eexists. split; [apply last_last|].
    rewrite u16_land, (u16_land p2). split; mask_field;
      rewrite <- ?Z.lor_assoc; try change (Z.lor 16 8) with 24;
      rewrite ?lor_land_absorb; reflexivity.
  - right. eexists. split; [apply last_last|].
    rewrite u16_land, (u16_land p2). split; mask_field;
      rewrite <- ?Z.lor_assoc; try change (Z.lor 16 8) with 24;
      rewrite ?lor_land_absorb; reflexivity.
  - right. eexists. split; [apply last_last|].
    rewrite u16_land, (u16_land p2). split; mask_field;
      rewrite <- ?Z.lor_assoc; try change (Z.lor 16 8) with 24;
      rewrite ?lor_land_absorb; reflexivity.
Qed.

End Completed.

(** ** Protection levels *)

Lemma protection_level_cases (pte : Z) :
  Z.land pte PTE_PL = PL_SRO \/ Z.land pte PTE_PL = PL_SRW
  \/ Z.land pte PTE_PL = PL_URO \/ Z.land pte PTE_PL = PL_URW.
Proof.
  assert (E : Z.land pte PTE_PL = Z.land (pte mod 8) PTE_PL).
  { change 8 with (2 ^ 3). rewrite <- Z.land_ones, <- Z.land_assoc by lia.
    reflexivity. }
  rewrite E.
  assert (B : 0 <= pte mod 8 < 8) by (apply Z.mod_pos_bound; lia).
  assert (C : pte mod 8 = 0 \/ pte mod 8 = 1 \/ pte mod 8 = 2 \/ pte mod 8 = 3
              \/ pte mod 8 = 4 \/ pte mod 8 = 5 \/ pte mod 8 = 6
              \/ pte mod 8 = 7) by lia.
  repeat (destruct C as [-> | C]); [.. | rewrite C]; cbn; tauto.
Qed.

Section Protection.
Context {SSM : slave_status_mask} {STM : st_mask}.

(** X11: the level an access requires, and what it is checked against.  A
    user access without the access override needs user-read-write when it
    writes (or is the read of a read-modify-write, or a write-validate is
    pending) and user-read-only otherwise; a supervisor access, or any
    access under the override, needs supervisor-read-write or
    supervisor-read-only.  An entry is refused exactly when it is invalid
    or its level is below the one required, so supervisor reads are never
    refused on protection, and a user write passes user-read-write entries
    only. *)
Theorem protection_ordering (d : ns32082_device) (st pte : Z) (user write : bool) :
  let w := effective_write d write || (st =? ST_RMW) in
  let user_level := user && negb (nz (Z.land (m_msr d) MSR_AO)) in
  level_of d st user write
  = (if user_level then (if w then PL_URW else PL_URO)
     else (if w then PL_SRW else PL_SRO))
  /\ denied PL_SRO pte = negb (nz (Z.land pte PTE_V))
  /\ (denied PL_URW pte = false <->
      Z.land pte PTE_PL = PL_URW /\ nz (Z.land pte PTE_V) = true)
  /\ (denied PL_URO pte = false <->
      (Z.land pte PTE_PL = PL_URO \/ Z.land pte PTE_PL = PL_URW)
      /\ nz (Z.land pte PTE_V) = true)
  /\ (denied PL_SRW pte = false <->
      Z.land pte PTE_PL <> PL_SRO /\ nz (Z.land pte PTE_V) = true).
Proof.
  cbv zeta. split; [reflexivity|].
  unfold denied.
  destruct (protection_level_cases pte) as [E | [E | [E | E]]]; rewrite E;
    destruct (nz (Z.land pte PTE_V)); cbn;
    repeat split; intros; try discriminate; try tauto;
    repeat match goal with
           | H : _ /\ _ |- _ => destruct H
           | H : _ \/ _ |- _ => destruct H
           end; try discriminate; try congruence.
Qed.

End Protection.

(** ** Validate operations that pass *)

Section ValidatePass.
Context {SSM : slave_status_mask} {STM : st_mask} {EIF : eia_interface}.
Context {space : Type} {AS : address_space space}.

(** X12: on a device driven from reset with a validate pending, a
    translation whose two entries pass the check returns COMPLETE and ends
    the validate in STATUS with status word 0; the status read then returns
    0 and leaves the Protocol Engine in IDLE, with no result to read. *)
Theorem validate_passes (d : ns32082_device) (sp : space) (st address : Z)
    (user write pfs suppress : bool) :
  reachable d ->
  m_state d = RDVAL \/ m_state d = WRVAL ->
  untranslated d user = false ->
  denied (level_of d st user write) (pte1_of d sp address user) = false ->
  denied (level_of d st user write) (pte2_of d sp address user suppress) = false ->
  let t := translate d sp st address user write pfs suppress in
  let d' := device_out t in
  result t = COMPLETE
  /\ m_state d' = STATUS /\ m_status d' = 0
  /\ slow_status None d' = Ran (0, None) (set_m_state IDLE d') []
  /\ slow_read (set_m_state IDLE d')
     = Ran 0 (set_m_state IDLE d') [read_protocol_error].
Proof.
  intros R S U D1 D2.
  pose proof (reachable_invariant d R) as I.
  assert (V : validating d = true)
    by (unfold validating; destruct S as [-> | ->]; reflexivity).
  assert (J : expected (m_op2 d) = 0 /\ issued (m_op2 d) = 0 /\ m_status d = 0).
  { unfold protocol_invariant in I. destruct S as [S | S]; now rewrite S in I. }
  destruct J as (J1 & J2 & J3).
  destruct (translate_completes d sp st address user write pfs suppress U D1 D2)
    as (T1 & _ & T3 & _).
  cbv zeta. rewrite T1, T3, V.
  split; [reflexivity|]. split; [reflexivity|].
  split; [cbn; now rewrite flow_trace_status|].
  split; [|reflexivity].
  unfold slow_status.
  cbn [m_state set_m_state m_op2 m_status m_tcy].
  rewrite flow_trace_op2, flow_trace_status, J1, J2, J3. reflexivity.
Qed.

(** X13: with translation disabled for the mode of the access, a pending
    validate stays pending: [translate] returns COMPLETE without looking at
    the page tables and the Protocol Engine remains in RDVAL or WRVAL,
    where bus writes are discarded and the status read is refused. *)
Theorem validate_stays_pending (d : ns32082_device) (sp : space) (st address : Z)
    (user write pfs suppress : bool) :
  m_state d = RDVAL \/ m_state d = WRVAL ->
  untranslated d user = true ->
  let t := translate d sp st address user write pfs suppress in
  let d' := device_out t in
  result t = COMPLETE /\ accesses t = []
  /\ m_state d' = m_state d
  /\ (forall icount,
        slow_status icount d' = Ran (0, icount) d' [status_protocol_error])
  /\ (forall data, slow_write data d' = Ran tt d' []).
Proof.
  intros S U. cbv zeta. unfold translate.
  rewrite flow_trace_untranslated, U. cbn [result accesses device_out].
  pose proof (flow_trace_state st address pfs d) as F.
  split; [reflexivity|]. split; [reflexivity|]. split; [exact F|].
  split.
  - intros icount. unfold slow_status. rewrite F.
    destruct S as [-> | ->]; reflexivity.
  - intros data. unfold slow_write. rewrite F.
    destruct S as [S | S]; rewrite S; cbn; rewrite F, S; reflexivity.
Qed.

End ValidatePass.

(** ** Program flow trace *)

Lemma sequence_count_shift (sc : Z) :
  u32 (u32 (Z.shiftl sc 16) + 1) = sc mod 2 ^ 16 * 2 ^ 16 + 1.
Proof.
  unfold u32, wrap. rewrite Z.shiftl_mul_pow2 by lia.
  change (2 ^ 32) with (2 ^ 16 * 2 ^ 16).
  rewrite Z.mul_mod_distr_r by lia.
  apply Z.mod_small.
  pose proof (Z.mod_pos_bound sc (2 ^ 16) ltac:(lia)). nia.
Qed.

Section FlowTrace.
Context {SSM : slave_status_mask} {STM : st_mask} {EIF : eia_interface}.
Context {space : Type} {AS : address_space space}.

(** The walk leaves the trace registers as the trace update set them. *)
Lemma translate_trace_registers (d : ns32082_device) (sp : space)
    (st address : Z) (user write pfs suppress : bool) :
  let d' := device_out (translate d sp st address user write pfs suppress) in
  let d1 := flow_trace st address pfs d in
  m_pf0 d' = m_pf0 d1 /\ m_pf1 d' = m_pf1 d1 /\ m_sc d' = m_sc d1.
Proof.
  cbv zeta. unfold translate.
  set (d1 := flow_trace st address pfs d).
  destruct (untranslated d1 user); [repeat split|].
  destruct (walk_device_shape d1 sp st address user write suppress)
    as (d0 & D0 & D').
  assert (K : m_pf0 d0 = m_pf0 d1 /\ m_pf1 d0 = m_pf1 d1 /\ m_sc d0 = m_sc d1).
  { destruct D0 as [-> | (tet & sel & w & level & pte & _ & ->)]; [tauto|].
    pose proof (record_fault_untouched tet st address sel w level pte d1) as R.
    cbv zeta in R. tauto. }
  destruct D' as [-> | [-> | [-> | ->]]]; exact K.
Qed.

(** X14: the trace update of [translate] happens whatever the translation
    does afterwards.  On a non-sequential instruction fetch with flow
    tracing on, program-flow register 1 takes the old register 0, register
    0 takes the address, and the sequence counter moves its low half to the
    high half and restarts at 1.  On any other traced fetch the counter is
    incremented.  Without tracing the three registers are left alone. *)
Theorem flow_trace_update (d : ns32082_device) (sp : space) (st address : Z)
    (user write pfs suppress : bool) :
  let d' := device_out (translate d sp st address user write pfs suppress) in
  let traced := pfs && nz (Z.land (m_msr d) MSR_FT) in
  (traced = true -> st = ST_NIF ->
   m_pf0 d' = u32 address /\ m_pf1 d' = m_pf0 d
   /\ m_sc d' = m_sc d mod 2 ^ 16 * 2 ^ 16 + 1)
  /\ (traced = true -> st <> ST_NIF ->
      m_pf0 d' = m_pf0 d /\ m_pf1 d' = m_pf1 d /\ m_sc d' = u32 (m_sc d + 1))
  /\ (traced = false ->
      m_pf0 d' = m_pf0 d /\ m_pf1 d' = m_pf1 d /\ m_sc d' = m_sc d).
Proof.
  cbv zeta.
  destruct (translate_trace_registers d sp st address user write pfs suppress)
    as (P0 & P1 & SC).
  rewrite P0, P1, SC. unfold flow_trace.
  split; [|split]; intros T.
  - intros ->. rewrite T, Z.eqb_refl. cbn.
    repeat split. apply sequence_count_shift.
  - intros N. rewrite T. apply Z.eqb_neq in N. rewrite N. repeat split.
  - rewrite T. repeat split.
Qed.

(** X15: two non-sequential instruction fetches in a row with flow tracing
    on leave the second address in program-flow register 0 and the first in
    register 1, and the sequence counter at 0x00010001, whatever the two
    translations do (faults included: they do not touch the trace bit). *)
Theorem flow_trace_history (d : ns32082_device) (sp1 sp2 : space)
    (a1 a2 : Z) (u1 w1 s1 u2 w2 s2 : bool) :
  nz (Z.land (m_msr d) MSR_FT) = true ->
  let d1 := device_out (translate d sp1 ST_NIF a1 u1 w1 true s1) in
  let d2 := device_out (translate d1 sp2 ST_NIF a2 u2 w2 true s2) in
  m_pf0 d2 = u32 a2 /\ m_pf1 d2 = u32 a1 /\ m_sc d2 = 0x00010001.
Proof.
  intros F. cbv zeta.
  set (d1 := device_out (translate d sp1 ST_NIF a1 u1 w1 true s1)).
  assert (F1 : nz (Z.land (m_msr d1) MSR_FT) = true).
  { pose proof (translate_msr_mode d sp1 ST_NIF a1 u1 w1 true s1) as M.
    cbv zeta in M. fold d1 in M.
    assert (E : Z.land (m_msr d1) MSR_FT = Z.land (m_msr d) MSR_FT).
    { change MSR_FT with (Z.land (not32 MSR_error_fields) MSR_FT).
      now rewrite !Z.land_assoc, M. }
    now rewrite E. }
  assert (T : forall x sp a u w s,
             nz (Z.land (m_msr x) MSR_FT) = true ->
             let x' := device_out (translate x sp ST_NIF a u w true s) in
             m_pf0 x' = u32 a /\ m_pf1 x' = m_pf0 x
             /\ m_sc x' = m_sc x mod 2 ^ 16 * 2 ^ 16 + 1).
  { intros x sp a u w s Fx. cbv zeta.
    destruct (translate_trace_registers x sp ST_NIF a u w true s)
      as (P0 & P1 & SC).
    rewrite P0, P1, SC. unfold flow_trace. cbn [andb].
    rewrite Fx, Z.eqb_refl. cbn.
    repeat split. apply sequence_count_shift. }
  destruct (T d sp1 a1 u1 w1 s1 F) as (A0 & _ & ASC). fold d1 in A0, ASC.
  destruct (T d1 sp2 a2 u2 w2 s2 F1) as (B0 & B1 & BSC).
  rewrite B0, B1, BSC, A0, ASC.
  split; [reflexivity|]. split; [reflexivity|].
  assert (E : (m_sc d mod 2 ^ 16 * 2 ^ 16 + 1) mod 2 ^ 16 = 1).
  { rewrite Z.add_comm, Z.mod_add by lia. reflexivity. }
  rewrite E. reflexivity.
Qed.

End FlowTrace.

(** ** Operand slots stay within bounds *)

Lemma size_field_bounds (w : Z) : 0 <= size_field w <= 3.
Proof.
  unfold size_field. change (Z.land w 3) with (Z.land w (Z.ones 2)).
  rewrite Z.land_ones by lia. change (2 ^ 2) with 4.
  pose proof (Z.mod_pos_bound w 4 ltac:(lia)). lia.
Qed.

Lemma slot_bounded_cleared : slot_bounded cleared.
Proof. unfold slot_bounded, cleared. cbn. lia. Qed.

Lemma slot_bounded_fresh (e : Z) :
  0 <= e <= 4 -> slot_bounded (mk_operand e 0 0).
Proof. unfold slot_bounded. cbn. lia. Qed.

(** A word goes into an incomplete slot at bit 0 or 16, and the slot stays
    within bounds. *)
Lemma insert_word_bounded (data : Z) (o : operand) :
  slot_bounded o -> issued o < expected o ->
  slot_bounded (insert_word data o)
  /\ (issued o = 0 \/ issued o = 2)
  /\ issued (insert_word data o) = issued o + 2.
Proof.
  unfold slot_bounded, insert_word. cbn. intros (E & I & L) C.
  assert (J : issued o = 0 \/ issued o = 2) by lia.
  assert (U : u32 (issued o + 2) = issued o + 2).
  { unfold u32, wrap. apply Z.mod_small. lia. }
  rewrite U. repeat split; try lia; tauto.
Qed.

Section SlotBounds.
Context {SSM : slave_status_mask} {STM : st_mask} {EIF : eia_interface}.
Context {space : Type} {AS : address_space space}.

(** [execute] leaves the latched words and the input slots alone and keeps
    the counts of the output slot. *)
Lemma execute_slots (d : ns32082_device) :
  let e := dev (execute d) in
  m_op0 e = m_op0 d /\ m_op1 e = m_op1 d
  /\ expected (m_op2 e) = expected (m_op2 d)
  /\ issued (m_op2 e) = issued (m_op2 d)
  /\ m_idbyte e = m_idbyte d /\ m_opword e = m_opword d.
Proof.
  unfold execute. cbv zeta.
  cbn [m_idbyte m_opword set_m_status].
  destruct (m_idbyte d =? FORMAT_14).
  - case_subop (BIT (m_opword d) 2 4); cbn;
      try (destruct (state_eqb (m_state d) OPERAND); cbn; tauto).
    + (* smr *)
      pose proof (smr_view (BIT (m_opword d) 7 4) (set_m_status 0 d)) as V.
      cbn in V. destruct V as (V1 & V2 & V3 & V4 & V5 & V6 & V7 & V8).
      rewrite V6. cbn. rewrite V1.
      destruct (state_eqb (m_state d) OPERAND); cbn;
        rewrite V2, V3, V4, V5, V7, V8; tauto.
    + (* lmr *)
      pose proof (lmr_view (BIT (m_opword d) 7 4) (set_m_status 0 d)) as V.
      unfold protocol_view in V. cbn in V.
      injection V as V1 V2 V3 V4 V5 V6 V7.
      rewrite V7. cbn. rewrite V1.
      destruct (state_eqb (m_state d) OPERAND); cbn;
        rewrite V2, V3, V4, V5, V6; tauto.
  - cbn. destruct (state_eqb (m_state d) OPERAND); cbn; tauto.
Qed.

Lemma execute_bounded (d : ns32082_device) :
  slots_bounded d -> slots_bounded (dev (execute d)).
Proof.
  unfold slots_bounded, slot_bounded.
  destruct (execute_slots d) as (-> & -> & -> & -> & _). tauto.
Qed.

Lemma execute_latched (d : ns32082_device) :
  m_state d = OPERAND -> operation_latched (dev (execute d)).
Proof.
  intros S. destruct (execute_leaves_operand d S) as (_ & _ & _ & E).
  unfold operation_latched.
  destruct E as [(-> & _) | [(-> & _) | ->]]; split; discriminate.
Qed.

Lemma write_opword_bounded (data : Z) (d : ns32082_device) :
  m_idbyte d = FORMAT_14 -> slots_bounded (write_opword data d).
Proof.
  intros I.
  destruct (write_opword_decodes data d I)
    as (_ & _ & _ & W4 & _ & _ & _ & W8).
  pose proof (size_field_bounds (swapendian_int16 data)) as B.
  unfold slots_bounded. rewrite W4.
  destruct W8 as [(_ & -> & ->) | [(_ & -> & ->) | (_ & -> & ->)]];
    (split; [|split]);
    first [apply slot_bounded_cleared | apply slot_bounded_fresh; lia].
Qed.

Lemma write_operand_bounded (data : Z) (d : ns32082_device) :
  operands_available d = false -> slots_bounded d ->
  slots_bounded (fst (write_operand data d)).
Proof.
  intros A (B0 & B1 & B2).
  destruct (write_operand_takes_word data d A)
    as (_ & _ & _ & _ & W4 & _ & _ & _ & W9).
  pose proof (incomplete_iff_unavailable d) as Q. rewrite A in Q. cbn in Q.
  unfold slots_bounded. rewrite W4.
  destruct (issued (m_op0 d) <? expected (m_op0 d)) eqn:C.
  - destruct W9 as (-> & ->). apply Z.ltb_lt in C.
    (split; [|split]); try assumption. now apply insert_word_bounded.
  - destruct W9 as (-> & ->). cbn in Q. apply Z.ltb_lt in Q.
    (split; [|split]); try assumption. now apply insert_word_bounded.
Qed.

Lemma slow_write_bounded (data : Z) (d : ns32082_device) :
  protocol_invariant d ->
  (operation_latched d -> slots_bounded d) ->
  operation_latched (dev (slow_write data d)) ->
  slots_bounded (dev (slow_write data d)).
Proof.
  intros I B. unfold slow_write. destruct (m_state d) eqn:S.
  - (* IDLE *)
    destruct (data =? FORMAT_14); cbn; rewrite ?S; cbn;
      intros (L1 & L2); cbn in *; congruence.
  - (* OPERATION *)
    unfold protocol_invariant in I. rewrite S in I.
    pose proof (write_opword_bounded data d I) as W.
    cbn [fst snd].
    destruct (state_eqb (m_state (write_opword data d)) OPERAND
              && operands_available (write_opword data d)); cbn [dev]; intros _;
      [now apply execute_bounded | exact W].
  - (* OPERAND *)
    unfold protocol_invariant in I. rewrite S in I.
    destruct I as (_ & I2 & _).
    assert (L : operation_latched d)
      by (unfold operation_latched; rewrite S; split; discriminate).
    pose proof (write_operand_bounded data d I2 (B L)) as W.
    destruct (state_eqb (m_state (fst (write_operand data d))) OPERAND
              && operands_available (fst (write_operand data d)));
      cbn [dev]; intros _; [now apply execute_bounded | exact W].
  - cbn. rewrite S. cbn. intros _. apply B.
    unfold operation_latched. rewrite S. split; discriminate.
  - cbn. rewrite S. cbn. intros _. apply B.
    unfold operation_latched. rewrite S. split; discriminate.
  - cbn. rewrite S. cbn. intros _. apply B.
    unfold operation_latched. rewrite S. split; discriminate.
  - cbn. rewrite S. cbn. intros _. apply B.
    unfold operation_latched. rewrite S. split; discriminate.
Qed.

Lemma slow_status_bounded (icount : option Z) (d : ns32082_device) :
  (operation_latched d -> slots_bounded d) ->
  operation_latched (dev (slow_status icount d)) ->
  slots_bounded (dev (slow_status icount d)).
Proof.
  intros B. unfold slow_status.
  destruct (m_state d) eqn:S; cbn [dev]; try exact B.
  intros _. apply B. unfold operation_latched. rewrite S. split; discriminate.
Qed.

Lemma slow_read_bounded (d : ns32082_device) :
  (operation_latched d -> slots_bounded d) ->
  operation_latched (dev (slow_read d)) ->
  slots_bounded (dev (slow_read d)).
Proof.
  intros B. unfold slow_read.
  destruct (state_eqb (m_state d) RESULT) eqn:S; cbn [andb dev]; try exact B.
  apply state_eqb_eq in S.
  assert (L : operation_latched d)
    by (unfold operation_latched; rewrite S; split; discriminate).
  destruct (B L) as (B0 & B1 & B2).
  destruct (issued (m_op2 d) <? expected (m_op2 d)) eqn:C; cbn [dev];
    [|intros _; split; [|split]; assumption].
  apply Z.ltb_lt in C.
  destruct (insert_word_bounded 0 (m_op2 d) B2 C) as (N & _ & _).
  intros _.
  assert (K : slots_bounded
                (set_m_op2 (set_issued (u32 (issued (m_op2 d) + 2)) (m_op2 d)) d)).
  { unfold slots_bounded. cbn [m_op0 m_op1 m_op2 set_m_op2].
    split; [|split]; assumption. }
  cbn [m_op2 set_m_op2 issued set_issued expected].
  destruct (u32 (issued (m_op2 d) + 2) =? expected (m_op2 d)); exact K.
Qed.

Lemma translate_bounded (d : ns32082_device) (sp : space) (st address : Z)
    (user write pfs suppress : bool) :
  (operation_latched d -> slots_bounded d) ->
  operation_latched (device_out (translate d sp st address user write pfs suppress)) ->
  slots_bounded (device_out (translate d sp st address user write pfs suppress)).
Proof.
  intros B L.
  pose proof (translate_frame d sp st address user write pfs suppress) as F.
  cbv zeta in F. destruct F as (_ & _ & _ & F0 & F1 & F2 & _).
  unfold slots_bounded. rewrite F0, F1, F2. apply B.
  destruct (translate_protocol d sp st address user write pfs suppress)
    as [V | (V & _)].
  - unfold protocol_view in V. injection V as V _ _ _ _ _ _.
    unfold operation_latched in *. now rewrite <- V.
  - unfold validating in V. unfold operation_latched.
    destruct (m_state d); try discriminate V; split; discriminate.
Qed.

(** X16: on a device driven from reset, once an operation word has been
    latched every operand slot expects at most four bytes and has moved
    zero, one or two whole words.  So a result read that returns data
    shifts the accumulator by 0 or 16 bits, a received operand word is
    inserted at bit 0 or 16, and the issued counts never wrap. *)
Theorem operand_slots_bounded (d : ns32082_device) :
  reachable d ->
  (operation_latched d -> slots_bounded d)
  /\ (m_state d = RESULT -> issued (m_op2 d) < expected (m_op2 d) ->
      (issued (m_op2 d) * 8 = 0 \/ issued (m_op2 d) * 8 = 16)
      /\ u32 (issued (m_op2 d) + 2) = issued (m_op2 d) + 2)
  /\ (m_state d = OPERAND ->
      (issued (m_op0 d) < expected (m_op0 d) ->
       issued (m_op0 d) * 8 = 0 \/ issued (m_op0 d) * 8 = 16)
      /\ (issued (m_op1 d) < expected (m_op1 d) ->
          issued (m_op1 d) * 8 = 0 \/ issued (m_op1 d) * 8 = 16)).
Proof.
  intros R.
  assert (B : operation_latched d -> slots_bounded d).
  { induction R as [d | op d R IH].
    - intros (L & _). now contradiction L.
    - pose proof (reachable_invariant d R) as I.
      destruct op; cbn [step].
      + intros (L & _). now contradiction L.
      + now apply slow_write_bounded.
      + now apply slow_status_bounded.
      + now apply slow_read_bounded.
      + now apply translate_bounded. }
  split; [exact B|]. split.
  - intros S C.
    assert (L : operation_latched d)
      by (unfold operation_latched; rewrite S; split; discriminate).
    destruct (B L) as (_ & _ & B2).
    destruct (insert_word_bounded 0 (m_op2 d) B2 C) as (_ & J & _).
    split; [lia|]. unfold u32, wrap. apply Z.mod_small. lia.
  - intros S.
    assert (L : operation_latched d)
      by (unfold operation_latched; rewrite S; split; discriminate).
    destruct (B L) as (B0 & B1 & _).
    split; intros C.
    + destruct (insert_word_bounded 0 (m_op0 d) B0 C) as (_ & J & _). lia.
    + destruct (insert_word_bounded 0 (m_op1 d) B1 C) as (_ & J & _). lia.
Qed.

End SlotBounds.

(** ** Register operations on the bus *)

Lemma land_u32_mask (V m : Z) :
  Z.land m (Z.ones 32) = m -> Z.land (u32 V) m = Z.land V m.
Proof.
  intros M. rewrite u32_land, <- Z.land_assoc, (Z.land_comm (Z.ones 32)), M.
  reflexivity.
Qed.

Lemma msr_loaded_reset (V msr : Z) :
  nz (Z.land V MSR_R) = true ->
  Z.land (msr_loaded (u32 V) msr) MSR_status_fields = 0.
Proof.
  intros R. unfold msr_loaded. cbv zeta.
  rewrite (land_u32_mask V MSR_R eq_refl), R.
  mask_field. reflexivity.
Qed.

Lemma msr_loaded_keeps (V msr : Z) :
  nz (Z.land V MSR_R) = false ->
  Z.land (msr_loaded (u32 V) msr) (not32 MSR_WM) = Z.land msr (not32 MSR_WM).
Proof.
  intros R. unfold msr_loaded. cbv zeta.
  rewrite (land_u32_mask V MSR_R eq_refl), R.
  mask_field. reflexivity.
Qed.

Section BusRegisters.
Context {SSM : slave_status_mask} {STM : st_mask} {EIF : eia_interface}.
Context {space : Type} {AS : address_space space}.

(** What a load of the status/mode register leaves in the device. *)
Lemma load_msr_device (d : ns32082_device) (V : Z) :
  m_state d = IDLE ->
  let d1 := run (load_register reg_mask.MSR V) d in
  m_state d1 = IDLE
  /\ m_msr d1 = msr_loaded (u32 V) (m_msr d)
  /\ m_ptb0 d1 = m_ptb0 d /\ m_ptb1 d1 = m_ptb1 d.
Proof.
  intros S. destruct d as [b0 b1 p0 p1 sc msr bc t0 t1 eia ib ow o0 o1 o2 sw s cy].
  cbn in S. subst s. cbv zeta.
  split; [vm_compute; reflexivity|].
  split; [rewrite <- (u32_assembled V); reflexivity|].
  split; reflexivity.
Qed.

(** X17: a load of the status/mode register takes the writable bits from
    the operand; with the operand's reset bit set it clears the
    translation-error, break, error-type, direction and status fields, and
    without it every bit outside the writable mask is kept. *)
Theorem load_msr (d : ns32082_device) (V : Z) :
  m_state d = IDLE ->
  let d1 := run (load_register reg_mask.MSR V) d in
  m_state d1 = IDLE
  /\ Z.land (m_msr d1) MSR_WM = Z.land V MSR_WM
  /\ (nz (Z.land V MSR_R) = true ->
      Z.land (m_msr d1) MSR_status_fields = 0)
  /\ (nz (Z.land V MSR_R) = false ->
      Z.land (m_msr d1) (not32 MSR_WM) = Z.land (m_msr d) (not32 MSR_WM)).
Proof.
  intros S. destruct (load_msr_device d V S) as (S1 & M & _).
  cbv zeta. rewrite M. split; [exact S1|].
  split; [apply msr_loaded_writable|].
  split; [apply msr_loaded_reset | apply msr_loaded_keeps].
Qed.

Lemma walk_first_access (d : ns32082_device) (sp : space) (st address : Z)
    (user write suppress : bool) :
  hd_error (accesses (walk d sp st address user write suppress))
  = Some (Read_dword (pte1_address_of d address user)).
Proof.
  unfold walk. cbv zeta.
  repeat match goal with
         | |- context [if ?c then _ else _] =>
             lazymatch c with
             | context [if _ then _ else _] => fail
             | _ => destruct c
             end
         end; reflexivity.
Qed.

(** X18: the translation enables loaded into the status/mode register
    decide what [translate] does next.  After a load with the enable bit of
    the access's mode clear, [translate] returns COMPLETE with the address
    as passed and touches no memory; with the bit set, it starts the walk
    by reading the level-1 entry. *)
Theorem load_msr_enables_translation (d : ns32082_device) (V : Z) (sp : space)
    (st address : Z) (user write pfs suppress : bool) :
  m_state d = IDLE ->
  let d1 := run (load_register reg_mask.MSR V) d in
  let t := translate d1 sp st address user write pfs suppress in
  (Z.land V (if user then MSR_TU else MSR_TS) = 0 ->
   result t = COMPLETE /\ address_out t = address /\ accesses t = []
   /\ space_out t = sp)
  /\ (Z.land V (if user then MSR_TU else MSR_TS) <> 0 ->
      hd_error (accesses t)
      = Some (Read_dword (pte1_address_of d1 address user))).
Proof.
  intros S. destruct (load_msr_device d V S) as (_ & M & _).
  cbv zeta.
  set (d1 := run (load_register reg_mask.MSR V) d) in *.
  assert (B : forall b, Z.land b MSR_WM = b ->
              Z.land (m_msr d1) b = Z.land V b).
  { intros b E. rewrite <- E, (Z.land_comm b), !Z.land_assoc, M,
      msr_loaded_writable. reflexivity. }
  assert (U : untranslated d1 user
              = (Z.land V (if user then MSR_TU else MSR_TS) =? 0)).
  { unfold untranslated, nz.
    rewrite (B MSR_TU eq_refl), (B MSR_TS eq_refl).
    destruct user; cbn; rewrite ?andb_true_r, ?andb_false_r, ?orb_false_r,
      ?negb_involutive; reflexivity. }
  unfold translate. rewrite flow_trace_untranslated, U.
  split; intros E.
  - rewrite E. cbn. repeat split.
  - apply Z.eqb_neq in E. rewrite E.
    rewrite walk_first_access. now rewrite flow_trace_pte1_address.
Qed.

End BusRegisters.

Section BusRoundTrips.
Context {SSM : slave_status_mask} {STM : st_mask} {EIF : eia_interface}.
Context {space : Type} {AS : address_space space}.

Ltac selector_cases Q :=
  match type of Q with
  | 0 <= ?q < 16 =>
      let C := fresh "C" in
      assert (C : q = 0 \/ q = 1 \/ q = 2 \/ q = 3 \/ q = 4 \/ q = 5 \/ q = 6
                  \/ q = 7 \/ q = 8 \/ q = 9 \/ q = 10 \/ q = 11 \/ q = 12
                  \/ q = 13 \/ q = 14 \/ q = 15) by lia;
      clear Q;
      repeat (destruct C as [-> | C]); [.. | subst q]
  end.

(** X19: a store-register of a double word, from the idle state, stages
    the register, reports status 0 with a result pending, and hands the
    register out in two result reads, low word first; the second read ends
    in IDLE and no register has changed.  A store-register of one word
    (size field 1) is over after the first read. *)
Theorem store_register_reads (d : ns32082_device) (quick : Z) :
  m_state d = IDLE -> 0 <= quick < 16 ->
  let s := slow_status None (run (store_register quick 3) d) in
  let r1 := slow_read (dev s) in
  let r2 := slow_read (dev r1) in
  let s' := slow_status None (run (store_register quick 1) d) in
  let r' := slow_read (dev s') in
  ret s = (0, None) /\ m_state (dev s) = RESULT
  /\ ret r1 = u16 (register quick d) /\ m_state (dev r1) = RESULT
  /\ ret r2 = u16 (Z.shiftr (register quick d) 16)
  /\ m_state (dev r2) = IDLE
  /\ registers (dev r2) = registers d
  /\ ret r' = u16 (register quick d) /\ m_state (dev r') = IDLE.
Proof.
  intros S Q.
  destruct d as [b0 b1 p0 p1 sc msr bc t0 t1 eia ib ow o0 o1 o2 sw s cy].
  cbn in S. subst s. cbv zeta.
  selector_cases Q;
    (split; [vm_compute; reflexivity|]);
    (split; [vm_compute; reflexivity|]);
    (split; [reflexivity|]);
    (split; [vm_compute; reflexivity|]);
    (split; [reflexivity|]);
    (split; [vm_compute; reflexivity|]);
    (split; [vm_compute; reflexivity|]);
    (split; [reflexivity | vm_compute; reflexivity]).
Qed.

(** X20: a load-register changes the selected register and no other. *)
Theorem load_register_frame (d : ns32082_device) (quick V other : Z) :
  m_state d = IDLE -> 0 <= quick < 16 -> other <> quick ->
  register other (run (load_register quick V) d) = register other d.
Proof.
  intros S Q N.
  destruct d as [b0 b1 p0 p1 sc msr bc t0 t1 eia ib ow o0 o1 o2 sw s cy].
  cbn in S. subst s.
  selector_cases Q; unfold register;
    repeat match goal with
           | |- context [if ?q =? ?r then _ else _] =>
               destruct (Z.eqb_spec q r);
               [first [exfalso; apply N; assumption | reflexivity]|]
           end; reflexivity.
Qed.

Lemma s32_small (x : Z) : - 2 ^ 31 <= x < 2 ^ 31 -> s32 x = x.
Proof. intros R. unfold s32. rewrite Z.mod_small by lia. lia. Qed.

(** X21: the status read charges the caller the cycle cost of the operation
    just executed: 30 for a load-register, 25 for a store-register,
    whatever the selector.  The caller's count is a 32-bit [int] and the
    subtraction wraps around; for a count that is at least 30 above the
    least [int] the new count is the old one less the cost. *)
Theorem status_read_charges_cycles (d : ns32082_device) (quick V c : Z) :
  m_state d = IDLE -> 0 <= quick < 16 ->
  let after_load :=
    ret (slow_status (Some c)
           (run [Op_write FORMAT_14;
                 Op_write (on_bus (opword_of 2 quick 3));
                 Op_write (u16 V);
                 Op_write (u16 (Z.shiftr V 16))] d)) in
  let after_store :=
    ret (slow_status (Some c) (run (store_register quick 3) d)) in
  after_load = (0, Some (s32 (c - 30)))
  /\ after_store = (0, Some (s32 (c - 25)))
  /\ (- 2 ^ 31 + 30 <= c < 2 ^ 31 ->
      after_load = (0, Some (c - 30)) /\ after_store = (0, Some (c - 25))).
Proof.
  intros S Q. cbv zeta.
  assert (K : ret (slow_status (Some c)
                     (run [Op_write FORMAT_14;
                           Op_write (on_bus (opword_of 2 quick 3));
                           Op_write (u16 V);
                           Op_write (u16 (Z.shiftr V 16))] d))
              = (0, Some (s32 (c - 30)))
              /\ ret (slow_status (Some c) (run (store_register quick 3) d))
                 = (0, Some (s32 (c - 25)))).
  { destruct d as [b0 b1 p0 p1 sc msr bc t0 t1 eia ib ow o0 o1 o2 sw s cy].
    cbn in S. subst s.
    selector_cases Q; split; reflexivity. }
  destruct K as (K1 & K2).
  split; [exact K1|]. split; [exact K2|].
  intros R. rewrite K1, K2.
  rewrite !s32_small by lia. split; reflexivity.
Qed.

End BusRoundTrips.

(** ** Operand words consumed before execution *)

Section InputWords.
Context {SSM : slave_status_mask} {STM : st_mask} {EIF : eia_interface}.
Context {space : Type} {AS : address_space space}.

Lemma execute_state (d : ns32082_device) :
  m_state d = OPERAND -> m_idbyte d = FORMAT_14 ->
  m_state (dev (execute d))
  = match sub_operation (m_opword d) with
    | 0 => RDVAL
    | 1 => WRVAL
    | _ => STATUS
    end.
Proof.
  intros S I. unfold execute. cbv zeta.
  cbn [m_idbyte m_opword set_m_status]. rewrite I.
  change (FORMAT_14 =? FORMAT_14) with true. cbv iota.
  rewrite BIT_sub_operation.
  case_subop (sub_operation (m_opword d)); cbn; rewrite ?S; cbn;
    try reflexivity.
  - pose proof (smr_view (BIT (m_opword d) 7 4) (set_m_status 0 d)) as V.
    cbn in V. destruct V as (V1 & _ & _ & _ & _ & V6 & _).
    rewrite V6. cbn. rewrite V1, S. reflexivity.
  - pose proof (lmr_view (BIT (m_opword d) 7 4) (set_m_status 0 d)) as V.
    unfold protocol_view in V. cbn in V.
    injection V as V1 _ _ _ _ _ V7.
    rewrite V7. cbn. rewrite V1, S. reflexivity.
Qed.

(** One step of the OPERAND arm on a device whose second input slot is
    unused: the word goes into slot 0, and execution starts when the slot
    is complete. *)
Lemma operand_word_step (data : Z) (d : ns32082_device) :
  m_state d = OPERAND -> m_idbyte d = FORMAT_14 ->
  m_op1 d = cleared ->
  issued (m_op0 d) < expected (m_op0 d) ->
  let d' := dev (slow_write data d) in
  let o := insert_word data (m_op0 d) in
  m_idbyte d' = FORMAT_14 /\ m_opword d' = m_opword d /\ m_op1 d' = cleared
  /\ m_op0 d' = o
  /\ m_state d'
     = (if expected o <=? issued o
        then match sub_operation (m_opword d) with
             | 0 => RDVAL
             | 1 => WRVAL
             | _ => STATUS
             end
        else OPERAND).
Proof.
  intros S I O1 C.
  assert (A : operands_available d = false).
  { unfold operands_available. apply Z.ltb_lt in C.
    rewrite Z.leb_antisym, C. reflexivity. }
  destruct (write_operand_takes_word data d A)
    as (L & W1 & W2 & W3 & _ & _ & _ & _ & W9).
  apply Z.ltb_lt in C. rewrite C in W9. destruct W9 as (W9 & W10).
  cbv zeta. unfold slow_write. rewrite S, L, W1, S.
  cbn [state_eqb andb app].
  set (y := fst (write_operand data d)) in *.
  assert (Av : operands_available y
               = (expected (insert_word data (m_op0 d))
                  <=? issued (insert_word data (m_op0 d)))).
  { unfold operands_available. rewrite W9, W10, O1. cbn. apply andb_true_r. }
  rewrite Av.
  destruct (expected (insert_word data (m_op0 d))
            <=? issued (insert_word data (m_op0 d))); cbn [dev].
  - destruct (execute_slots y) as (E0 & E1 & _ & _ & E4 & E5).
    pose proof (execute_state y) as ES.
    rewrite W1, W2, W3 in ES. specialize (ES S I).
    rewrite E0, E1, E4, E5, W2, W3, W9, W10. tauto.
  - rewrite W2, W3, W10, W9, W1. tauto.
Qed.

(** X22: the operand words an operation takes before it executes.  On a
    device driven from reset that awaits its operation word, a validate or
    load-register of size field s expects s+1 input bytes and no output:
    it executes on the first operand word when s is 0 or 1 and on the
    second when s is 2 or 3, going to RDVAL, WRVAL or STATUS.  A
    store-register takes no operand word: the operation word itself
    executes it, with s+1 output bytes expected. *)
Theorem input_words_consumed (d : ns32082_device) (data w1 w2 : Z) :
  reachable d -> m_state d = OPERATION ->
  let w := swapendian_int16 data in
  let after :=
    match sub_operation w with
    | 0 => RDVAL
    | 1 => WRVAL
    | _ => STATUS
    end in
  let d1 := dev (slow_write data d) in
  let d2 := dev (slow_write w1 d1) in
  let d3 := dev (slow_write w2 d2) in
  (sub_operation w = 0 \/ sub_operation w = 1 \/ sub_operation w = 2 ->
   m_state d1 = OPERAND
   /\ expected (m_op0 d1) = size_field w + 1 /\ expected (m_op2 d1) = 0
   /\ (size_field w <= 1 -> m_state d2 = after)
   /\ (2 <= size_field w -> m_state d2 = OPERAND /\ m_state d3 = after))
  /\ (sub_operation w = 3 ->
      m_state d1 = STATUS
      /\ expected (m_op0 d1) = 0
      /\ expected (m_op2 d1) = size_field w + 1 /\ issued (m_op2 d1) = 0).
Proof.
  intros R S.
  pose proof (reachable_invariant d R) as I.
  unfold protocol_invariant in I. rewrite S in I.
  destruct (write_opword_decodes data d I)
    as (W1 & W2 & W3 & W4 & _ & _ & _ & W8).
  pose proof (size_field_bounds (swapendian_int16 data)) as B.
  cbv zeta.
  set (w := swapendian_int16 data) in *.
  set (x := write_opword data d) in *.
  assert (D1 : dev (slow_write data d)
               = if operands_available x then dev (execute x) else x).
  { unfold slow_write. rewrite S. cbn [fst snd]. fold x. rewrite W1.
    cbn [state_eqb andb]. destruct (operands_available x); reflexivity. }
  rewrite D1. split.
  - intros E.
    destruct W8 as [(_ & O0 & O2) | [(E3 & _) | (E' & _)]];
      [| exfalso; rewrite E3 in E; intuition discriminate
       | exfalso; tauto].
    assert (A : operands_available x = false).
    { unfold operands_available. rewrite O0. cbn.
      replace (size_field w + 1 <=? 0) with false; [reflexivity|].
      symmetry. apply Z.leb_gt. lia. }
    rewrite A.
    split; [exact W1|]. split; [now rewrite O0|]. split; [now rewrite O2|].
    assert (C1 : issued (m_op0 x) < expected (m_op0 x))
      by (rewrite O0; cbn; lia).
    destruct (operand_word_step w1 x W1 W2 W4 C1) as (P1 & P2 & P3 & P4 & P5).
    assert (U2 : u32 2 = 2) by reflexivity.
    assert (U4 : u32 4 = 4) by reflexivity.
    rewrite W3, O0 in P5. cbn in P5. rewrite U2 in P5.
    split.
    + intros L. rewrite P5.
      replace (size_field w + 1 <=? 2) with true; [reflexivity|].
      symmetry. apply Z.leb_le. lia.
    + intros L.
      assert (P5' : m_state (dev (slow_write w1 x)) = OPERAND).
      { rewrite P5. replace (size_field w + 1 <=? 2) with false; [reflexivity|].
        symmetry. apply Z.leb_gt. lia. }
      split; [exact P5'|].
      assert (C2 : issued (m_op0 (dev (slow_write w1 x)))
                   < expected (m_op0 (dev (slow_write w1 x)))).
      { rewrite P4, O0. cbn. rewrite U2. lia. }
      destruct (operand_word_step w2 _ P5' P1 P3 C2) as (_ & _ & _ & _ & Q5).
      rewrite Q5, P2, W3, P4, O0. cbn. rewrite U2. cbn. rewrite U4.
      replace (size_field w + 1 <=? 4) with true; [reflexivity|].
      symmetry. apply Z.leb_le. lia.
  - intros E.
    destruct W8 as [(E' & _) | [(_ & O0 & O2) | (E' & _)]];
      [exfalso; rewrite E in E'; intuition discriminate | | exfalso; tauto].
    assert (A : operands_available x = true).
    { unfold operands_available. now rewrite O0, W4. }
    rewrite A.
    destruct (execute_slots x) as (E0 & _ & E2 & E3' & _).
    pose proof (execute_state x W1 W2) as ES.
    rewrite W3, E in ES.
    rewrite ES, E0, E2, E3', O0, O2. repeat split.
Qed.

End InputWords.

(** ** What changes the register file *)

Section RegisterFile.
Context {SSM : slave_status_mask} {STM : st_mask} {EIF : eia_interface}.
Context {space : Type} {AS : address_space space}.

Lemma execute_registers (d : ns32082_device) :
  registers (dev (execute d)) = registers d
  \/ (m_idbyte d = FORMAT_14 /\ sub_operation (m_opword d) = 2).
Proof.
  unfold execute. cbv zeta.
  cbn [m_idbyte m_opword set_m_status].
  assert (K : forall x : ns32082_device,
             registers
               (if state_eqb (m_state
                      (if nz (Z.land (m_status x) SLAVE_Q)
                       then set_m_op2 (set_expected 0 (m_op2 x)) x else x))
                    OPERAND
                then set_m_state STATUS
                       (if nz (Z.land (m_status x) SLAVE_Q)
                        then set_m_op2 (set_expected 0 (m_op2 x)) x else x)
                else (if nz (Z.land (m_status x) SLAVE_Q)
                      then set_m_op2 (set_expected 0 (m_op2 x)) x else x))
             = registers x).
  { intros x. destruct (nz _); destruct (state_eqb _ _); reflexivity. }
  destruct (Z.eqb_spec (m_idbyte d) FORMAT_14) as [I | I].
  - rewrite BIT_sub_operation.
    case_subop (sub_operation (m_opword d)); cbn [fst snd dev];
      try (left; rewrite K; reflexivity).
    + left. rewrite K. cbn [fst snd].
      transitivity (registers (fst (smr (BIT (m_opword d) 7 4) (set_m_status 0 d))));
        [reflexivity | rewrite smr_registers; reflexivity].
    + right. split; [exact I | reflexivity].
  - left. cbn [fst snd dev]. rewrite K. reflexivity.
Qed.

(** X23: the register file changes only when a load-register executes.  A
    status read and a result read never change a register, and a bus write
    leaves every register as it was unless the operation word in force
    afterwards is a load-register. *)
Theorem registers_change_only_by_load (d : ns32082_device) (data : Z)
    (icount : option Z) :
  registers (dev (slow_status icount d)) = registers d
  /\ registers (dev (slow_read d)) = registers d
  /\ (registers (dev (slow_write data d)) = registers d
      \/ sub_operation (m_opword (dev (slow_write data d))) = 2).
Proof.
  split; [|split].
  - unfold slow_status. destruct (m_state d); reflexivity.
  - unfold slow_read.
    destruct (state_eqb (m_state d) RESULT
              && (issued (m_op2 d) <? expected (m_op2 d))); [|reflexivity].
    cbn. destruct (_ =? _); reflexivity.
  - assert (E : forall x : ns32082_device,
               registers x = registers d ->
               let y := if state_eqb (m_state x) OPERAND && operands_available x
                        then dev (execute x) else x in
               registers y = registers d \/ sub_operation (m_opword y) = 2).
    { intros x X. cbv zeta.
      destruct (state_eqb (m_state x) OPERAND && operands_available x);
        [|left; exact X].
      destruct (execute_registers x) as [G | (_ & G)].
      - left. now rewrite G.
      - right. destruct (execute_slots x) as (_ & _ & _ & _ & _ & O).
        now rewrite O. }
    unfold slow_write.
    set (r := match m_state d with
              | IDLE => _
              | OPERATION => _
              | OPERAND => _
              | _ => _
              end).
    assert (X : registers (fst r) = registers d).
    { subst r. destruct (m_state d); try reflexivity.
      - destruct (data =? FORMAT_14); reflexivity.
      - cbn [fst]. unfold write_opword. cbv zeta.
        destruct (_ =? FORMAT_14); [|reflexivity].
        case_subop (Z.land (Z.shiftr (m_opword
          (set_m_op2 cleared (set_m_op1 cleared (set_m_op0 cleared
            (set_m_tcy 0 (set_m_opword (swapendian_int16 data) d)))))) 2) 15);
          reflexivity.
      - unfold write_operand.
        destruct (_ || _); [|reflexivity].
        destruct (_ <? _); reflexivity. }
    specialize (E (fst r) X). cbv zeta in E.
    destruct (state_eqb (m_state (fst r)) OPERAND && operands_available (fst r));
      exact E.
Qed.

End RegisterFile.

(** ** Page-table indexing *)

Lemma index_field_scaled (a width low : Z) :
  2 <= low ->
  Z.shiftr (Z.land a (Z.shiftl (Z.ones width) low)) (low - 2)
  = Z.shiftl (Z.land (Z.shiftr a low) (Z.ones width)) 2.
Proof.
  intros L2. apply Z.bits_inj'. intros n N.
  rewrite Z.shiftr_spec, Z.land_spec by assumption.
  rewrite (Z.shiftl_spec (Z.ones width)) by lia.
  destruct (Z.ltb_spec n 2) as [C | C].
  - rewrite Z.shiftl_spec_low by assumption.
    rewrite (Z.testbit_neg_r _ (n + (low - 2) - low)) by lia.
    apply andb_false_r.
  - rewrite Z.shiftl_spec, Z.land_spec, Z.shiftr_spec by lia.
    replace (n - 2 + low) with (n + (low - 2)) by lia.
    replace (n + (low - 2) - low) with (n - 2) by lia.
    reflexivity.
Qed.

Section Indexing.
Context {SSM : slave_status_mask} {STM : st_mask}.
Context {space : Type} {AS : address_space space}.

(** X2: how the walk addresses the tables.  The level-1 entry is at the
    page-table base selected by the address space, plus four times bits 16
    to 23 of the virtual address (256 entries); the level-2 entry is at the
    table the level-1 entry points to, plus four times bits 9 to 15 (128
    entries).  Both addresses are double-word aligned and below 2^25. *)
Theorem table_indexing (d : ns32082_device) (pte1 address : Z) (user : bool) :
  let a1 := pte1_address_of d address user in
  let a2 := pte2_address_of pte1 address in
  a1 = Z.lor (ptb_of d (address_space_of d user))
             (Z.shiftl (Z.land (Z.shiftr address 16) 0xff) 2)
  /\ Z.land (ptb_of d (address_space_of d user)) 0x3ff = 0
  /\ a2 = Z.lor (Z.lor (Z.shiftr (Z.land pte1 PTE_MS) 7) (Z.land pte1 PTE_PFN))
                (Z.shiftl (Z.land (Z.shiftr address 9) 0x7f) 2)
  /\ Z.land (Z.lor (Z.shiftr (Z.land pte1 PTE_MS) 7) (Z.land pte1 PTE_PFN)) 0x1ff
     = 0
  /\ Z.land a1 3 = 0 /\ Z.land a2 3 = 0
  /\ 0 <= a1 < 2 ^ 25 /\ 0 <= a2 < 2 ^ 25.
Proof.
  cbv zeta. unfold pte1_address_of, pte2_address_of, ptb_of.
  set (p := m_ptb d (address_space_of d user)).
  assert (I1 : Z.shiftr (Z.land address VA_INDEX1) 14
               = Z.shiftl (Z.land (Z.shiftr address 16) 0xff) 2).
  { exact (index_field_scaled address 8 16 ltac:(lia)). }
  assert (I2 : Z.shiftr (Z.land address VA_INDEX2) 7
               = Z.shiftl (Z.land (Z.shiftr address 9) 0x7f) 2).
  { exact (index_field_scaled address 7 9 ltac:(lia)). }
  assert (J1 : Z.shiftr (Z.land address VA_INDEX1) 14
               = Z.land (Z.shiftr address 14) 0x3fc).
  { rewrite Z.shiftr_land. reflexivity. }
  assert (J2 : Z.shiftr (Z.land address VA_INDEX2) 7
               = Z.land (Z.shiftr address 7) 0x1fc).
  { rewrite Z.shiftr_land. reflexivity. }
  assert (M1 : Z.shiftr (Z.land p PTB_MS) 7 = Z.land (Z.shiftr p 7) 0x1000000).
  { rewrite Z.shiftr_land. reflexivity. }
  assert (M2 : Z.shiftr (Z.land pte1 PTE_MS) 7
               = Z.land (Z.shiftr pte1 7) 0x1000000).
  { rewrite Z.shiftr_land. reflexivity. }
  assert (Bd : forall x, Z.land x (Z.ones 25) = x -> 0 <= x < 2 ^ 25).
  { intros x E. rewrite <- E, Z.land_ones by lia. apply Z.mod_pos_bound. lia. }
  split; [now rewrite I1|].
  split; [rewrite M1; mask_field; reflexivity|].
  split; [now rewrite I2|].
  split; [rewrite M2; mask_field; reflexivity|].
  rewrite J1, J2, M1, M2.
  split; [mask_field; reflexivity|].
  split; [mask_field; reflexivity|].
  split; apply Bd; mask_field; reflexivity.
Qed.

End Indexing.

(** ** The properties at work on the sample build *)

Ltac by_evaluation :=
  vm_compute; first [reflexivity | discriminate | tauto | split; discriminate].

(** Conclude from a fact of the same value. *)
Ltac from H := revert H; vm_compute; exact (fun x => x).

Lemma validate_pending_reachable (wr : bool) :
  @reachable Sample.status_bits Sample.st_codes Sample.eia_plain Sample.ram
    Sample.ram_space (Sample.validate_pending wr).
Proof.
  unfold Sample.validate_pending, Sample.run.
  apply reachable_run. apply reachable_reset.
Qed.

Lemma awaiting_opword_reachable :
  @reachable Sample.status_bits Sample.st_codes Sample.eia_plain Sample.ram
    Sample.ram_space Sample.awaiting_opword.
Proof.
  unfold Sample.awaiting_opword, Sample.run.
  apply reachable_run. apply reachable_reset.
Qed.

Lemma translate_leaves_protocol_witness :
  m_state Sample.translating <> RDVAL
  /\ m_state Sample.translating <> WRVAL
  /\ protocol_view
       (device_out (translate (SSM := Sample.status_bits)
                      (STM := Sample.st_codes) (AS := Sample.ram_space)
                      Sample.translating Sample.unmapped
                      0xa 0x123456 false false false false))
     = protocol_view Sample.translating.
Proof.
  assert (N1 : m_state Sample.translating <> RDVAL) by by_evaluation.
  assert (N2 : m_state Sample.translating <> WRVAL) by by_evaluation.
  split; [exact N1|]. split; [exact N2|].
  exact (translate_leaves_protocol (SSM := Sample.status_bits)
           (STM := Sample.st_codes) (AS := Sample.ram_space)
           Sample.translating Sample.unmapped 0xa 0x123456
           false false false false N1 N2).
Defined.

Lemma translate_probe_is_pure_witness :
  m_state Sample.translating <> RDVAL
  /\ m_state Sample.translating <> WRVAL
  /\ device_out (translate (SSM := Sample.status_bits)
                   (STM := Sample.st_codes) (AS := Sample.ram_space)
                   Sample.translating Sample.mapped
                   0xa 0x1ab false true false true)
     = Sample.translating.
Proof.
  assert (N1 : m_state Sample.translating <> RDVAL) by by_evaluation.
  assert (N2 : m_state Sample.translating <> WRVAL) by by_evaluation.
  split; [exact N1|]. split; [exact N2|].
  exact (proj1 (translate_probe_is_pure (SSM := Sample.status_bits)
                  (STM := Sample.st_codes) (AS := Sample.ram_space)
                  Sample.translating Sample.mapped 0xa 0x1ab
                  false true N1 N2)).
Defined.

Lemma protocol_state_invariant_witness :
  @reachable Sample.status_bits Sample.st_codes Sample.eia_plain Sample.ram
    Sample.ram_space (Sample.validate_pending true)
  /\ m_state (Sample.validate_pending true) = WRVAL
  /\ expected (m_op2 (Sample.validate_pending true)) = 0
  /\ m_status (Sample.validate_pending true) = 0.
Proof.
  pose proof (validate_pending_reachable true) as R.
  assert (S : m_state (Sample.validate_pending true) = WRVAL) by by_evaluation.
  pose proof (protocol_state_invariant _ R) as (_ & _ & T).
  destruct (T (or_intror S)) as (T1 & _ & T3).
  split; [exact R|]. split; [exact S|]. split; assumption.
Defined.

Lemma level1_fault_report_witness :
  let d := Sample.translating in
  let t := Sample.translate d Sample.unmapped 0xa 0x123456 false false false false in
  m_state d = IDLE
  /\ untranslated d false = false
  /\ denied (level_of (STM := Sample.st_codes) d 0xa false false)
            (pte1_of (AS := Sample.ram_space) d Sample.unmapped 0x123456 false)
     = true
  /\ result t = ABORT
  /\ m_eia (device_out t) = 0x123456
  /\ Z.land (m_msr (device_out t)) MSR_TET = TET_IL1.
Proof.
  cbv zeta.
  assert (H1 : m_state Sample.translating = IDLE) by by_evaluation.
  assert (H2 : untranslated Sample.translating false = false) by by_evaluation.
  assert (H3 : denied (level_of (STM := Sample.st_codes) Sample.translating
                         0xa false false)
                 (pte1_of (AS := Sample.ram_space) Sample.translating
                    Sample.unmapped 0x123456 false) = true) by by_evaluation.
  pose proof (level1_fault_report (SSM := Sample.status_bits)
                (STM := Sample.st_codes) (AS := Sample.ram_space)
                Sample.translating Sample.unmapped 0xa 0x123456
                false false false H1 H2 H3) as T.
  cbv zeta in T.
  destruct T as (T1 & _ & _ & _ & _ & T6 & _ & _ & _ & T10).
  split; [exact H1|]. split; [exact H2|]. split; [exact H3|].
  split; [from T1|]. split; [from T6 | from T10].
Defined.

Lemma level2_fault_report_witness :
  let d := Sample.translating in
  let t := Sample.translate d Sample.half_mapped 0xa 0x1ab false false false false in
  m_state d = IDLE
  /\ untranslated d false = false
  /\ denied (level_of (STM := Sample.st_codes) d 0xa false false)
            (pte1_of (AS := Sample.ram_space) d Sample.half_mapped 0x1ab false)
     = false
  /\ denied (level_of (STM := Sample.st_codes) d 0xa false false)
            (pte2_of (AS := Sample.ram_space) d Sample.half_mapped 0x1ab false false)
     = true
  /\ result t = ABORT
  /\ accesses t = [Read_dword 0; Write_word 0 0x20f; Read_dword 0x200]
  /\ Z.land (m_msr (device_out t)) MSR_TET = TET_IL2.
Proof.
  cbv zeta.
  assert (H1 : m_state Sample.translating = IDLE) by by_evaluation.
  assert (H2 : untranslated Sample.translating false = false) by by_evaluation.
  assert (H3 : denied (level_of (STM := Sample.st_codes) Sample.translating
                         0xa false false)
                 (pte1_of (AS := Sample.ram_space) Sample.translating
                    Sample.half_mapped 0x1ab false) = false) by by_evaluation.
  assert (H4 : denied (level_of (STM := Sample.st_codes) Sample.translating
                         0xa false false)
                 (pte2_of (AS := Sample.ram_space) Sample.translating
                    Sample.half_mapped 0x1ab false false) = true)
    by by_evaluation.
  pose proof (level2_fault_report (SSM := Sample.status_bits)
                (STM := Sample.st_codes) (AS := Sample.ram_space)
                Sample.translating Sample.half_mapped 0xa 0x1ab
                false false false H1 H2 H3 H4) as T.
  cbv zeta in T.
  destruct T as (T1 & _ & _ & T4 & _ & _ & _ & _ & _ & T10).
  split; [exact H1|]. split; [exact H2|]. split; [exact H3|].
  split; [exact H4|].
  split; [from T1|]. split; [from T4 | from T10].
Defined.

Lemma translate_physical_address_witness :
  let d := Sample.translating in
  let t := Sample.translate d Sample.mapped 0xa 0x1ab false false false false in
  untranslated d false = false
  /\ denied (level_of (STM := Sample.st_codes) d 0xa false false)
            (pte1_of (AS := Sample.ram_space) d Sample.mapped 0x1ab false)
     = false
  /\ denied (level_of (STM := Sample.st_codes) d 0xa false false)
            (pte2_of (AS := Sample.ram_space) d Sample.mapped 0x1ab false false)
     = false
  /\ result t = COMPLETE
  /\ Z.land (address_out t) VA_OFFSET = 0x1ab
  /\ Z.land (address_out t) PTE_PFN = 0x1200.
Proof.
  cbv zeta.
  assert (H2 : untranslated Sample.translating false = false) by by_evaluation.
  assert (H3 : denied (level_of (STM := Sample.st_codes) Sample.translating
                         0xa false false)
                 (pte1_of (AS := Sample.ram_space) Sample.translating
                    Sample.mapped 0x1ab false) = false) by by_evaluation.
  assert (H4 : denied (level_of (STM := Sample.st_codes) Sample.translating
                         0xa false false)
                 (pte2_of (AS := Sample.ram_space) Sample.translating
                    Sample.mapped 0x1ab false false) = false)
    by by_evaluation.
  pose proof (translate_physical_address (SSM := Sample.status_bits)
                (STM := Sample.st_codes) (AS := Sample.ram_space)
                Sample.translating Sample.mapped 0xa 0x1ab
                false false false false H2 H3 H4) as T.
  cbv zeta in T. destruct T as (T1 & T2 & T3 & _).
  split; [exact H2|]. split; [exact H3|]. split; [exact H4|].
  split; [from T1|]. split; [from T2 | from T3].
Defined.

Lemma write_marks_modified_witness :
  let d := Sample.translating in
  let t := Sample.translate d Sample.mapped 0xa 0x1ab false true false false in
  untranslated d false = false
  /\ effective_write d true = true
  /\ denied (level_of (STM := Sample.st_codes) d 0xa false true)
            (pte1_of (AS := Sample.ram_space) d Sample.mapped 0x1ab false)
     = false
  /\ denied (level_of (STM := Sample.st_codes) d 0xa false true)
            (pte2_of (AS := Sample.ram_space) d Sample.mapped 0x1ab false false)
     = false
  /\ (exists w, last (accesses t) (Read_dword 0) = Write_word 0x200 w
                /\ Z.land w 0x18 = 0x18).
Proof.
  cbv zeta.
  assert (H1 : untranslated Sample.translating false = false) by by_evaluation.
  assert (H2 : effective_write Sample.translating true = true) by by_evaluation.
  assert (H3 : denied (level_of (STM := Sample.st_codes) Sample.translating
                         0xa false true)
                 (pte1_of (AS := Sample.ram_space) Sample.translating
                    Sample.mapped 0x1ab false) = false) by by_evaluation.
  assert (H4 : denied (level_of (STM := Sample.st_codes) Sample.translating
                         0xa false true)
                 (pte2_of (AS := Sample.ram_space) Sample.translating
                    Sample.mapped 0x1ab false false) = false)
    by by_evaluation.
  pose proof (write_marks_modified (SSM := Sample.status_bits)
                (STM := Sample.st_codes) (AS := Sample.ram_space)
                Sample.translating Sample.mapped 0xa 0x1ab
                false true false H1 H2 H3 H4) as T.
  cbv zeta in T.
  split; [exact H1|]. split; [exact H2|]. split; [exact H3|].
  split; [exact H4|].
  destruct T as [(T & _) | (w & T1 & T2 & _)].
  - exfalso. revert T. vm_compute. discriminate.
  - exists w. split; [from T1 | from T2].
Defined.

Lemma validate_passes_witness :
  let d := Sample.validate_pending false in
  let t := Sample.translate d Sample.mapped 0xa 0x1ab false false false false in
  @reachable Sample.status_bits Sample.st_codes Sample.eia_plain Sample.ram
    Sample.ram_space d
  /\ (m_state d = RDVAL \/ m_state d = WRVAL)
  /\ untranslated d false = false
  /\ denied (level_of (STM := Sample.st_codes) d 0xa false false)
            (pte1_of (AS := Sample.ram_space) d Sample.mapped 0x1ab false)
     = false
  /\ denied (level_of (STM := Sample.st_codes) d 0xa false false)
            (pte2_of (AS := Sample.ram_space) d Sample.mapped 0x1ab false false)
     = false
  /\ result t = COMPLETE
  /\ m_state (device_out t) = STATUS /\ m_status (device_out t) = 0.
Proof.
  cbv zeta.
  pose proof (validate_pending_reachable false) as R.
  assert (H1 : m_state (Sample.validate_pending false) = RDVAL
               \/ m_state (Sample.validate_pending false) = WRVAL)
    by (left; by_evaluation).
  assert (H2 : untranslated (Sample.validate_pending false) false = false)
    by by_evaluation.
  assert (H3 : denied (level_of (STM := Sample.st_codes)
                         (Sample.validate_pending false) 0xa false false)
                 (pte1_of (AS := Sample.ram_space) (Sample.validate_pending false)
                    Sample.mapped 0x1ab false) = false) by by_evaluation.
  assert (H4 : denied (level_of (STM := Sample.st_codes)
                         (Sample.validate_pending false) 0xa false false)
                 (pte2_of (AS := Sample.ram_space) (Sample.validate_pending false)
                    Sample.mapped 0x1ab false false) = false)
    by by_evaluation.
  pose proof (validate_passes (Sample.validate_pending false) Sample.mapped
                0xa 0x1ab false false false false R H1 H2 H3 H4) as T.
  cbv zeta in T. destruct T as (T1 & T2 & T3 & _).
  split; [exact R|]. split; [exact H1|].
  split; [exact H2|]. split; [exact H3|]. split; [exact H4|].
  split; [from T1|]. split; [from T2 | from T3].
Defined.

Lemma validate_stays_pending_witness :
  let d := Sample.validate_pending false in
  let t := Sample.translate d Sample.mapped 0xa 0x1ab true false false false in
  (m_state d = RDVAL \/ m_state d = WRVAL)
  /\ untranslated d true = true
  /\ result t = COMPLETE /\ m_state (device_out t) = RDVAL.
Proof.
  cbv zeta.
  assert (H1 : m_state (Sample.validate_pending false) = RDVAL
               \/ m_state (Sample.validate_pending false) = WRVAL)
    by (left; by_evaluation).
  assert (H2 : untranslated (Sample.validate_pending false) true = true)
    by by_evaluation.
  pose proof (validate_stays_pending (SSM := Sample.status_bits)
                (STM := Sample.st_codes) (EIF := Sample.eia_plain)
                (AS := Sample.ram_space)
                (Sample.validate_pending false) Sample.mapped
                0xa 0x1ab true false false false H1 H2) as T.
  cbv zeta in T. destruct T as (T1 & _ & T3 & _).
  split; [exact H1|]. split; [exact H2|].
  split; [from T1 | from T3].
Defined.

Lemma flow_trace_history_witness :
  let d := Sample.tracing in
  let d1 := device_out (Sample.translate d Sample.mapped 0x9
                          0x100 false false true false) in
  let d2 := device_out (Sample.translate d1 Sample.mapped 0x9
                          0x20000 false false true false) in
  nz (Z.land (m_msr d) MSR_FT) = true
  /\ m_pf0 d2 = 0x20000 /\ m_pf1 d2 = 0x100 /\ m_sc d2 = 0x00010001.
Proof.
  cbv zeta.
  assert (H1 : nz (Z.land (m_msr Sample.tracing) MSR_FT) = true)
    by by_evaluation.
  pose proof (flow_trace_history (SSM := Sample.status_bits)
                (STM := Sample.st_codes) (AS := Sample.ram_space)
                Sample.tracing Sample.mapped Sample.mapped 0x100 0x20000
                false false false false false false H1) as T.
  cbv zeta in T. destruct T as (T1 & T2 & T3).
  split; [exact H1|].
  split; [from T1|]. split; [from T2 | from T3].
Defined.

Lemma flow_trace_update_witness :
  let d := Sample.tracing in
  let d' := device_out (Sample.translate d Sample.mapped 0x9
                          0x100 false false true false) in
  true && nz (Z.land (m_msr d) MSR_FT) = true
  /\ m_pf0 d' = 0x100 /\ m_sc d' = 1.
Proof.
  cbv zeta.
  assert (H1 : true && nz (Z.land (m_msr Sample.tracing) MSR_FT) = true)
    by by_evaluation.
  pose proof (flow_trace_update (SSM := Sample.status_bits)
                (STM := Sample.st_codes) (AS := Sample.ram_space)
                Sample.tracing Sample.mapped (ST_NIF (st_mask := Sample.st_codes))
                0x100 false false true false) as T.
  cbv zeta in T. destruct T as (T & _).
  destruct (T H1 eq_refl) as (T1 & _ & T3).
  split; [exact H1|].
  split; [from T1 | from T3].
Defined.

Lemma operand_slots_bounded_witness :
  @reachable Sample.status_bits Sample.st_codes Sample.eia_plain Sample.ram
    Sample.ram_space (Sample.validate_pending true)
  /\ operation_latched (Sample.validate_pending true)
  /\ slots_bounded (Sample.validate_pending true).
Proof.
  pose proof (validate_pending_reachable true) as R.
  assert (L : operation_latched (Sample.validate_pending true))
    by by_evaluation.
  pose proof (operand_slots_bounded _ R) as (T & _).
  split; [exact R|]. split; [exact L | exact (T L)].
Defined.

Lemma load_msr_witness :
  let d1 := Sample.run (load_register reg_mask.MSR (Z.lor MSR_TS MSR_R))
              Sample.translating in
  m_state Sample.translating = IDLE
  /\ nz (Z.land (Z.lor MSR_TS MSR_R) MSR_R) = true
  /\ Z.land (m_msr d1) MSR_WM = MSR_TS
  /\ Z.land (m_msr d1) MSR_status_fields = 0.
Proof.
  cbv zeta.
  assert (H1 : m_state Sample.translating = IDLE) by by_evaluation.
  assert (H2 : nz (Z.land (Z.lor MSR_TS MSR_R) MSR_R) = true) by by_evaluation.
  pose proof (load_msr (SSM := Sample.status_bits) (STM := Sample.st_codes)
                (EIF := Sample.eia_plain) (AS := Sample.ram_space)
                Sample.translating (Z.lor MSR_TS MSR_R) H1) as T.
  cbv zeta in T. destruct T as (_ & T2 & T3 & _).
  specialize (T3 H2).
  split; [exact H1|]. split; [exact H2|].
  split; [from T2 | from T3].
Defined.

Lemma load_msr_enables_translation_witness :
  let d1 := Sample.run (load_register reg_mask.MSR MSR_TS) Sample.power_on in
  let t := Sample.translate d1 Sample.mapped 0xa 0x1ab true false false false in
  m_state Sample.power_on = IDLE
  /\ Z.land MSR_TS (if true then MSR_TU else MSR_TS) = 0
  /\ result t = COMPLETE /\ address_out t = 0x1ab /\ accesses t = [].
Proof.
  cbv zeta.
  assert (H1 : m_state Sample.power_on = IDLE) by by_evaluation.
  assert (H2 : Z.land MSR_TS (if true then MSR_TU else MSR_TS) = 0)
    by by_evaluation.
  pose proof (load_msr_enables_translation (SSM := Sample.status_bits)
                (STM := Sample.st_codes) (EIF := Sample.eia_plain)
                (AS := Sample.ram_space)
                Sample.power_on MSR_TS Sample.mapped 0xa 0x1ab
                true false false false H1) as T.
  cbv zeta in T. destruct T as (T & _).
  destruct (T H2) as (T1 & T2 & T3 & _).
  split; [exact H1|]. split; [exact H2|].
  split; [from T1|]. split; [from T2 | from T3].
Defined.

Lemma store_register_reads_witness :
  let s := slow_status None
             (Sample.run (store_register reg_mask.MSR 3) Sample.translating) in
  let r1 := slow_read (dev s) in
  let r2 := slow_read (dev r1) in
  m_state Sample.translating = IDLE
  /\ 0 <= reg_mask.MSR < 16
  /\ ret r1 = 0 /\ ret r2 = 2 /\ m_state (dev r2) = IDLE.
Proof.
  cbv zeta.
  assert (H1 : m_state Sample.translating = IDLE) by by_evaluation.
  assert (Q : 0 <= reg_mask.MSR < 16) by (unfold reg_mask.MSR; lia).
  pose proof (store_register_reads (SSM := Sample.status_bits)
                (STM := Sample.st_codes) (EIF := Sample.eia_plain)
                (AS := Sample.ram_space)
                Sample.translating reg_mask.MSR H1 Q) as T.
  cbv zeta in T. destruct T as (_ & _ & T3 & _ & T5 & T6 & _).
  split; [exact H1|]. split; [exact Q|].
  split; [from T3|]. split; [from T5 | from T6].
Defined.

Lemma load_register_frame_witness :
  m_state Sample.translating = IDLE
  /\ 0 <= reg_mask.PTB0 < 16
  /\ reg_mask.MSR <> reg_mask.PTB0
  /\ register reg_mask.MSR
       (Sample.run (load_register reg_mask.PTB0 0x12345678) Sample.translating)
     = MSR_TS.
Proof.
  assert (H1 : m_state Sample.translating = IDLE) by by_evaluation.
  assert (Q : 0 <= reg_mask.PTB0 < 16) by (unfold reg_mask.PTB0; lia).
  assert (N : reg_mask.MSR <> reg_mask.PTB0) by by_evaluation.
  pose proof (load_register_frame (SSM := Sample.status_bits)
                (STM := Sample.st_codes) (EIF := Sample.eia_plain)
                (AS := Sample.ram_space)
                Sample.translating reg_mask.PTB0 0x12345678 reg_mask.MSR
                H1 Q N) as T.
  split; [exact H1|]. split; [exact Q|]. split; [exact N|].
  from T.
Defined.

Lemma status_read_charges_cycles_witness :
  m_state Sample.power_on = IDLE
  /\ 0 <= reg_mask.SC < 16
  /\ - 2 ^ 31 + 30 <= 100 < 2 ^ 31
  /\ ret (slow_status (Some 100)
            (Sample.run (store_register reg_mask.SC 3) Sample.power_on))
     = (0, Some 75)
  /\ ret (slow_status (Some (-2147483638))
            (Sample.run (store_register reg_mask.SC 3) Sample.power_on))
     = (0, Some 2147483633).
Proof.
  assert (H1 : m_state Sample.power_on = IDLE) by by_evaluation.
  assert (Q : 0 <= reg_mask.SC < 16) by (unfold reg_mask.SC; lia).
  assert (R : - 2 ^ 31 + 30 <= 100 < 2 ^ 31) by lia.
  pose proof (status_read_charges_cycles (SSM := Sample.status_bits)
                (STM := Sample.st_codes) (EIF := Sample.eia_plain)
                (AS := Sample.ram_space)
                Sample.power_on reg_mask.SC 0 100 H1 Q) as T.
  pose proof (status_read_charges_cycles (SSM := Sample.status_bits)
                (STM := Sample.st_codes) (EIF := Sample.eia_plain)
                (AS := Sample.ram_space)
                Sample.power_on reg_mask.SC 0 (-2147483638) H1 Q) as U.
  cbv zeta in T, U.
  destruct T as (_ & _ & T). destruct (T R) as (_ & T2).
  destruct U as (_ & U2 & _).
  split; [exact H1|]. split; [exact Q|]. split; [exact R|].
  split; [from T2 | from U2].
Defined.

Lemma input_words_consumed_witness :
  let d := Sample.awaiting_opword in
  let d1 := dev (Sample.slow_write (on_bus (opword_of 2 reg_mask.PTB0 3)) d) in
  let d2 := dev (Sample.slow_write 0x5678 d1) in
  let d3 := dev (Sample.slow_write 0x1234 d2) in
  @reachable Sample.status_bits Sample.st_codes Sample.eia_plain Sample.ram
    Sample.ram_space d
  /\ m_state d = OPERATION
  /\ m_state d1 = OPERAND /\ m_state d2 = OPERAND /\ m_state d3 = STATUS.
Proof.
  cbv zeta.
  pose proof awaiting_opword_reachable as R.
  assert (H1 : m_state Sample.awaiting_opword = OPERATION) by by_evaluation.
  pose proof (input_words_consumed Sample.awaiting_opword
                (on_bus (opword_of 2 reg_mask.PTB0 3)) 0x5678 0x1234
                R H1) as T.
  cbv zeta in T. destruct T as (T & _).
  assert (E : sub_operation (swapendian_int16
                               (on_bus (opword_of 2 reg_mask.PTB0 3))) = 0
              \/ sub_operation (swapendian_int16
                                  (on_bus (opword_of 2 reg_mask.PTB0 3))) = 1
              \/ sub_operation (swapendian_int16
                                  (on_bus (opword_of 2 reg_mask.PTB0 3))) = 2)
    by (right; right; by_evaluation).
  destruct (T E) as (T1 & _ & _ & _ & T5).
  assert (S3 : 2 <= size_field (swapendian_int16
                                  (on_bus (opword_of 2 reg_mask.PTB0 3))))
    by (vm_compute; discriminate).
  destruct (T5 S3) as (T6 & T7).
  split; [exact R|]. split; [exact H1|].
  split; [from T1|]. split; [from T6 | from T7].
Defined.
